(** * BreathWise alert engine: a shallow embedding of [server.js]

    The development follows the JavaScript source function by function
    ([checkAqiAndSendAlert], [setupCronJobs], the handler of
    [POST /alert]) and keeps its names.

    - ECMAScript numbers are IEEE-754 binary64 values ([spec_float] with
      precision 53 and maximal exponent 1024), compared with the IEEE
      comparison; [parseFloat], [Number(...)] on strings and the
      printing of a number in a template literal are written out.
    - Strings are sequences of UTF-8 bytes ([string]).
    - Values decoded from JSON are the inductive type [value], with the
      conversions and property accesses the code applies to them.
    - Console output, mail handed to the mail client, the cron library's
      task table and unhandled rejections are the fields of an explicit
      [World]; a computation takes a world and returns a value or an
      exception together with the world it leaves. An async function
      runs to its end without interleaving.
    - The database, the weather service and the mail client are data
      and functions of an environment. Of the cron library the model
      keeps a table of tasks, [stop] marking a task as not running, and
      the check of an expression as a parameter; of the database client
      the check of a number as a parameter. *)

From Stdlib Require Import ZArith List String Ascii Bool Lia.
From Stdlib Require Import Floats.SpecFloat.
From Stdlib Require Import DecimalString.
Import ListNotations.

Set Warnings "-register-all".

Local Open Scope string_scope.
Local Open Scope Z_scope.

(** ** ECMAScript numbers *)

Module Num.

Definition number := spec_float.

Definition prec : Z := 53.
Definition emax : Z := 1024.

Definition NaN : number := S754_nan.
Definition Infinity : number := S754_infinity false.
Definition zero : number := S754_zero false.

(** [a < b], [a <= b], [a > b] and [a == b] on numbers: false as soon as
    one side is NaN. *)
Definition lt (a b : number) : bool := SFltb a b.
Definition le (a b : number) : bool := SFleb a b.
Definition gt (a b : number) : bool := SFltb b a.
Definition eqb (a b : number) : bool := SFeqb a b.

(** The number nearest to an integer (ties to even). *)
Definition of_Z (z : Z) : number := binary_normalize prec emax z 0 false.

(** The number nearest to [m * 10^e], for a sign and a positive [m]. *)
Definition of_decimal (neg : bool) (m : positive) (e : Z) : number :=
  match e with
  | Zneg p =>
      SFdiv prec emax (S754_finite neg m 0)
                      (S754_finite false (Pos.pow 10 p) 0)
  | _ => binary_normalize prec emax (cond_Zopp neg (Z.pos m * 10 ^ e)) 0 neg
  end.

Definition of_decimalZ (neg : bool) (m : Z) (e : Z) : number :=
  match m with
  | Z.pos p => of_decimal neg p e
  | _ => S754_zero neg
  end.

Definition is_nan (x : number) : bool :=
  match x with S754_nan => true | _ => false end.

Definition is_zero (x : number) : bool :=
  match x with S754_zero _ => true | _ => false end.

Definition is_finite (x : number) : bool :=
  match x with S754_zero _ | S754_finite _ _ _ => true | _ => false end.

Definition is_negative (x : number) : bool := lt x zero.

(** A finite number is [mantissa * 2 ^ exponent]; [valid] holds of the
    representations binary64 has: at most 53 bits of mantissa, the
    exponent as small as the format allows. *)
Definition mantissa (x : number) : Z :=
  match x with
  | S754_finite s m _ => cond_Zopp s (Z.pos m)
  | _ => 0
  end.

Definition exponent (x : number) : Z :=
  match x with
  | S754_finite _ _ e => e
  | _ => 0
  end.

Definition valid (x : number) : bool := valid_binary prec emax x.

(** Same number, bit for bit (NaN equals NaN here, [+0] differs from [-0]). *)
Definition same (x y : number) : bool :=
  match x, y with
  | S754_nan, S754_nan => true
  | S754_zero a, S754_zero b => Bool.eqb a b
  | S754_infinity a, S754_infinity b => Bool.eqb a b
  | S754_finite a m e, S754_finite b m' e' =>
      Bool.eqb a b && Pos.eqb m m' && Z.eqb e e'
  | _, _ => false
  end.

(** *** Text helpers *)

Definition code (c : ascii) : N := N_of_ascii c.

Definition is_digit (c : ascii) : bool :=
  (48 <=? code c)%N && (code c <=? 57)%N.

Definition digit_val (c : ascii) : Z := Z.of_N (code c) - 48.

(** Value of a hexadecimal digit, when [c] is one. *)
Definition hex_val (c : ascii) : option Z :=
  let x := code c in
  if (48 <=? x)%N && (x <=? 57)%N then Some (Z.of_N x - 48)
  else if (65 <=? x)%N && (x <=? 70)%N then Some (Z.of_N x - 55)
  else if (97 <=? x)%N && (x <=? 102)%N then Some (Z.of_N x - 87)
  else None.

(** [WhiteSpace] and [LineTerminator] of ECMA-262 in their UTF-8 encoding:
    the rest of [s] after one such character, when [s] starts with one. *)
Definition ws_prefix (s : string) : option string :=
  match s with
  | String a r =>
      let x := code a in
      if ((9 <=? x) && (x <=? 13) || (x =? 32))%N then Some r
      else
        match r with
        | String b r2 =>
            let y := code b in
            if ((x =? 194) && (y =? 160))%N then Some r2
            else
              match r2 with
              | String c r3 =>
                  let z := code c in
                  if ((x =? 225) && (y =? 154) && (z =? 128)
                      || (x =? 226) && (y =? 128)
                         && ((128 <=? z) && (z <=? 138) || (z =? 168)
                             || (z =? 169) || (z =? 175))
                      || (x =? 226) && (y =? 129) && (z =? 159)
                      || (x =? 227) && (y =? 128) && (z =? 128)
                      || (x =? 239) && (y =? 187) && (z =? 191))%N
                  then Some r3 else None
              | EmptyString => None
              end
        | EmptyString => None
        end
  | EmptyString => None
  end.

Fixpoint trim_start_fuel (n : nat) (s : string) : string :=
  match n with
  | O => s
  | S n' => match ws_prefix s with
            | Some r => trim_start_fuel n' r
            | None => s
            end
  end.

Definition trim_start (s : string) : string :=
  trim_start_fuel (String.length s) s.

Fixpoint trim_end (s : string) : string :=
  match s with
  | EmptyString => EmptyString
  | String c r =>
      match trim_start s with
      | EmptyString => EmptyString
      | _ => String c (trim_end r)
      end
  end.

Definition trim (s : string) : string := trim_end (trim_start s).

(** The rest of [s] after the prefix [p], when [s] starts with [p]. *)
Fixpoint strip_prefix (p s : string) : option string :=
  match p, s with
  | EmptyString, _ => Some s
  | String a p', String b s' =>
      if Ascii.eqb a b then strip_prefix p' s' else None
  | String _ _, EmptyString => None
  end.

(** *** Numeric literals in strings *)

(** Reads a run of decimal digits: accumulated value, number of digits
    read, and the rest of the string. *)
Fixpoint read_digits (s : string) (acc n : Z) : Z * Z * string :=
  match s with
  | String c r =>
      if is_digit c then read_digits r (10 * acc + digit_val c) (n + 1)
      else (acc, n, s)
  | EmptyString => (acc, n, s)
  end.

Fixpoint read_radix (radix : Z) (s : string) (acc n : Z) : Z * Z * string :=
  match s with
  | String c r =>
      match hex_val c with
      | Some d =>
          if d <? radix then read_radix radix r (radix * acc + d) (n + 1)
          else (acc, n, s)
      | None => (acc, n, s)
      end
  | EmptyString => (acc, n, s)
  end.

Inductive literal :=
  | LitInfinity
  | LitDecimal (m e : Z).

(** [ExponentPart], taken only when it is complete. *)
Definition read_exponent (s : string) : Z * string :=
  match s with
  | String c r =>
      if ((code c =? 101) || (code c =? 69))%N then
        let '(neg, r1) :=
          match r with
          | String "+" r' => (false, r')
          | String "-" r' => (true, r')
          | _ => (false, r)
          end in
        let '(v, n, r2) := read_digits r1 0 0 in
        if n =? 0 then (0, s) else (if neg then - v else v, r2)
      else (0, s)
  | EmptyString => (0, s)
  end.

(** Longest prefix of [s] that is a [StrUnsignedDecimalLiteral]. *)
Definition read_unsigned (s : string) : option (literal * string) :=
  match strip_prefix "Infinity" s with
  | Some r => Some (LitInfinity, r)
  | None =>
      let '(i, ni, r) := read_digits s 0 0 in
      match r with
      | String "." r1 =>
          let '(m, nf, r2) := read_digits r1 i 0 in
          if (ni =? 0) && (nf =? 0) then None
          else let '(e, r3) := read_exponent r2 in
               Some (LitDecimal m (e - nf), r3)
      | _ =>
          if ni =? 0 then None
          else let '(e, r3) := read_exponent r in Some (LitDecimal i e, r3)
      end
  end.

Definition literal_value (neg : bool) (l : literal) : number :=
  match l with
  | LitInfinity => S754_infinity neg
  | LitDecimal m e => of_decimalZ neg m e
  end.

(** Longest prefix of [s] that is a [StrDecimalLiteral]: its value and
    the rest of the string. *)
Definition read_decimal (s : string) : option (number * string) :=
  let '(neg, r) :=
    match s with
    | String "+" r' => (false, r')
    | String "-" r' => (true, r')
    | _ => (false, s)
    end in
  match read_unsigned r with
  | Some (l, rest) => Some (literal_value neg l, rest)
  | None => None
  end.

(** [parseFloat] applied to a string. *)
Definition parseFloat_string (s : string) : number :=
  match read_decimal (trim_start s) with
  | Some (x, _) => x
  | None => NaN
  end.

(** [NonDecimalIntegerLiteral]: [0x], [0o] and [0b] forms. *)
Definition read_non_decimal (s : string) : option (number * string) :=
  match s with
  | String "0" (String c r) =>
      let radix :=
        if ((code c =? 120) || (code c =? 88))%N then 16
        else if ((code c =? 111) || (code c =? 79))%N then 8
        else if ((code c =? 98) || (code c =? 66))%N then 2
        else 0 in
      if radix =? 0 then None
      else let '(v, n, rest) := read_radix radix r 0 0 in
           if n =? 0 then None else Some (of_Z v, rest)
  | _ => None
  end.

(** [StringToNumber]: the whole trimmed string has to be a numeric
    literal; the empty string is [+0]. *)
Definition StringToNumber (s : string) : number :=
  match trim s with
  | EmptyString => zero
  | t =>
      match read_decimal t with
      | Some (x, EmptyString) => x
      | _ =>
          match read_non_decimal t with
          | Some (x, EmptyString) => x
          | _ => NaN
          end
      end
  end.

(** *** Number to string *)

(** A finite positive number [m * 2^e] as a fraction of integers. *)
Definition ratio (m : positive) (e : Z) : Z * Z :=
  match e with
  | Zneg p => (Z.pos m, 2 ^ Z.pos p)
  | _ => (Z.pos m * 2 ^ e, 1)
  end.

(** [p/q * 10^j] as a fraction. *)
Definition scale10 (p q j : Z) : Z * Z :=
  if 0 <=? j then (p * 10 ^ j, q) else (p, q * 10 ^ (- j)).

Definition below_pow10 (p q d : Z) : bool :=
  let '(a, b) := scale10 p q (- d) in a <? b.

(** The least [d] from [d0] on with [p/q < 10^d]. *)
Fixpoint magnitude_from (fuel : nat) (p q d : Z) : Z :=
  match fuel with
  | O => d
  | S f => if below_pow10 p q d then d else magnitude_from f p q (d + 1)
  end.

Definition magnitude (p q : Z) : Z := magnitude_from 640 p q (-324).

(** A [k]-digit decimal [s * 10^(n-k)] that reads back as [x], if there
    is one: the nearer of the two neighbours of [x], the even one on a
    tie. *)
Definition candidate (x : number) (p q d k : Z) : option (Z * Z) :=
  let '(a, b) := scale10 p q (k - d) in
  let lo := a / b in
  let hi := lo + 1 in
  let norm c := if c =? 10 ^ k then (10 ^ (k - 1), d + 1) else (c, d) in
  let ok c := let '(s, n) := norm c in same (of_decimalZ false s (n - k)) x in
  match ok lo, ok hi with
  | true, true =>
      match 2 * a ?= (2 * lo + 1) * b with
      | Lt => Some (norm lo)
      | Gt => Some (norm hi)
      | Eq => Some (norm (if Z.even lo then lo else hi))
      end
  | true, false => Some (norm lo)
  | false, true => Some (norm hi)
  | false, false => None
  end.

Fixpoint shortest (fuel : nat) (x : number) (p q d k : Z) : Z * Z * Z :=
  match fuel with
  | O => (fst (scale10 p q (k - d)) / snd (scale10 p q (k - d)), d, k)
  | S f =>
      match candidate x p q d k with
      | Some (s, n) => (s, n, k)
      | None => shortest f x p q d (k + 1)
      end
  end.

Definition digits (z : Z) : string :=
  NilZero.string_of_uint (N.to_uint (Z.to_N z)).

Fixpoint zeros (n : nat) : string :=
  match n with
  | O => EmptyString
  | S n' => String "0" (zeros n')
  end.

(** Steps 6 to 10 of [Number::toString] for radix 10. *)
Definition format_decimal (s n k : Z) : string :=
  let ds := digits s in
  if (k <=? n) && (n <=? 21) then ds ++ zeros (Z.to_nat (n - k))
  else if (0 <? n) && (n <=? 21) then
    substring 0 (Z.to_nat n) ds ++ "." ++ substring (Z.to_nat n) (Z.to_nat (k - n)) ds
  else if (-6 <? n) && (n <=? 0) then "0." ++ zeros (Z.to_nat (- n)) ++ ds
  else
    let e := n - 1 in
    let tail := "e" ++ (if 0 <=? e then "+" else "-") ++ digits (Z.abs e) in
    if k =? 1 then ds ++ tail
    else substring 0 1 ds ++ "." ++ substring 1 (Z.to_nat (k - 1)) ds ++ tail.

(** [Number::toString(x)]: what [String(x)] and a template literal give
    for a number. *)
Definition toString (x : number) : string :=
  match x with
  | S754_nan => "NaN"
  | S754_zero _ => "0"
  | S754_infinity neg => if neg then "-Infinity" else "Infinity"
  | S754_finite neg m e =>
      let '(p, q) := ratio m e in
      let d := magnitude p q in
      let '(s, n, k) := shortest 17 (S754_finite false m e) p q d 1 in
      (if neg then "-" else "") ++ format_decimal s n k
  end.

End Num.

(** ** Values, exceptions and the conversions the code relies on *)

Record error := mkError { ename : string; message : string }.

Definition TypeError (msg : string) : error := mkError "TypeError" msg.
Definition Error (msg : string) : error := mkError "Error" msg.

Definition result (A : Type) : Type := (error + A)%type.

Definition ok {A} (a : A) : result A := inr a.
Definition fail {A} (e : error) : result A := inl e.

Definition rbind {A B} (r : result A) (k : A -> result B) : result B :=
  match r with
  | inl e => inl e
  | inr a => k a
  end.

Module Js.

Import Num.

(** What [JSON.parse] produces, plus [undefined] for an absent property.
    An object keeps its members in source order; the last one wins on a
    repeated key. *)
Inductive value :=
  | VUndefined
  | VNull
  | VBool (b : bool)
  | VNum (n : number)
  | VStr (s : string)
  | VArr (items : list value)
  | VObj (members : list (string * value)).

(** [ToBoolean]. *)
Definition truthy (v : value) : bool :=
  match v with
  | VUndefined | VNull => false
  | VBool b => b
  | VNum n => negb (is_zero n || is_nan n)
  | VStr s => negb (String.eqb s "")
  | VArr _ | VObj _ => true
  end.

Definition has_own (key : string) (members : list (string * value)) : bool :=
  existsb (fun kv => String.eqb (fst kv) key) members.

Fixpoint get_own (key : string) (members : list (string * value)) : value :=
  match members with
  | [] => VUndefined
  | (k, v) :: rest =>
      if has_own key rest then get_own key rest
      else if String.eqb k key then v else VUndefined
  end.

(** [ToString]. An array joins its elements with commas ([null] and
    [undefined] elements give the empty string); a plain object gives
    [[object Object]] unless it has a member named [toString], which
    hides the inherited method and makes the conversion throw. *)
Fixpoint ToString (v : value) : result string :=
  match v with
  | VUndefined => ok "undefined"
  | VNull => ok "null"
  | VBool b => ok (if b then "true" else "false")
  | VNum n => ok (Num.toString n)
  | VStr s => ok s
  | VArr items =>
      (fix join (l : list value) : result string :=
         match l with
         | [] => ok ""
         | x :: rest =>
             rbind (match x with
                    | VUndefined | VNull => ok ""
                    | _ => ToString x
                    end)
               (fun sx =>
                  match rest with
                  | [] => ok sx
                  | _ => rbind (join rest) (fun sr => ok (sx ++ "," ++ sr))
                  end)
         end) items
  | VObj members =>
      if has_own "toString" members
      then fail (TypeError "Cannot convert object to primitive value")
      else ok "[object Object]"
  end.

(** [ToNumber]. *)
Definition ToNumber (v : value) : result number :=
  match v with
  | VUndefined => ok NaN
  | VNull => ok zero
  | VBool b => ok (if b then of_Z 1 else zero)
  | VNum n => ok n
  | VStr s => ok (StringToNumber s)
  | VArr _ | VObj _ => rbind (ToString v) (fun s => ok (StringToNumber s))
  end.

(** [a > b] for a value on the left and a number on the right. *)
Definition gt (a : value) (b : number) : result bool :=
  rbind (ToNumber a) (fun x => ok (Num.gt x b)).

(** The global [parseFloat]. *)
Definition parseFloat (v : value) : result number :=
  rbind (ToString v) (fun s => ok (parseFloat_string s)).

(** [v.key] for a property name that no prototype defines. *)
Definition get (v : value) (key : string) : result value :=
  match v with
  | VUndefined =>
      fail (TypeError ("Cannot read properties of undefined (reading '" ++ key ++ "')"))
  | VNull =>
      fail (TypeError ("Cannot read properties of null (reading '" ++ key ++ "')"))
  | VObj members => ok (get_own key members)
  | _ => ok VUndefined
  end.

(** [const { key } = v], where the source text of [v] is [from]. *)
Definition destructure (v : value) (from key : string) : result value :=
  match v with
  | VUndefined =>
      fail (TypeError ("Cannot destructure property '" ++ key ++ "' of '" ++ from
                       ++ "' as it is undefined."))
  | VNull =>
      fail (TypeError ("Cannot destructure property '" ++ key ++ "' of '" ++ from
                       ++ "' as it is null."))
  | _ => get v key
  end.

(** [v[0]]. On a string the result is its first code unit, here its
    first byte. *)
Definition get0 (v : value) : result value :=
  match v with
  | VArr items => ok (hd VUndefined items)
  | VStr (String c _) => ok (VStr (String c EmptyString))
  | _ => get v "0"
  end.

(** [str.split(sep)] for a separator of one character. *)
Fixpoint split (sep : ascii) (s : string) : list string :=
  match s with
  | EmptyString => [EmptyString]
  | String c r =>
      if Ascii.eqb c sep then EmptyString :: split sep r
      else match split sep r with
           | h :: t => String c h :: t
           | [] => [String c EmptyString]
           end
  end.

(** A string, or [undefined], inside a template literal. *)
Definition show (o : option string) : string :=
  match o with
  | Some s => s
  | None => "undefined"
  end.

End Js.

(** ** The data the server works on *)

Import Js.

(** A row of the [Alert] table, as [prisma.alert.findMany] returns it. *)
Record Alert := mkAlert {
  id : string;
  userId : string;
  alertTime : string;
  pollutant : string;
  threshold : Num.number;
  alertEmail : string
}.

(** A row of the [User] table; [name] is nullable. *)
Record User := mkUser {
  user_id : string;
  user_name : option string
}.

(** The database behind the Prisma client; [reachable = false] makes
    every query throw. *)
Record Store := mkStore {
  reachable : bool;
  users : list User;
  alerts : list Alert
}.

(** The selection [{ user: { name }, alertEmail }] of [findUnique]. *)
Record AlertWithUser := mkAlertWithUser {
  sel_user : option (option string);
  sel_alertEmail : string
}.

Record Email := mkEmail {
  mail_from : string;
  mail_to : string;
  mail_subject : string;
  mail_html : string
}.

Inductive Level := LOG | WARN | ERROR.

(** One console call: its level and its arguments joined by a space. *)
Record LogLine := mkLog { level : Level; text : string }.

(** A task of the cron library's table: its expression, the alert object
    its callback closes over, its time zone and whether it is running. *)
Record Task := mkTask {
  expression : string;
  job : Alert;
  timezone : string;
  running : bool
}.

(** What a run can change: the console, the mail handed to the mail
    provider, the cron library's task table and the rejections of
    promises nobody awaits. *)
Record World := mkWorld {
  console : list LogLine;
  outbox : list Email;
  tasks : list Task;
  unhandled : list error
}.

(** ** Computations: a world in, a value or an exception and a world out *)

Inductive outcome (A : Type) :=
  | Returned (a : A) (w : World)
  | Thrown (e : error) (w : World).

Arguments Returned {A} a w.
Arguments Thrown {A} e w.

Definition M (A : Type) : Type := World -> outcome A.

Definition ret {A} (a : A) : M A := fun w => Returned a w.

Definition bind {A B} (m : M A) (k : A -> M B) : M B :=
  fun w => match m w with
           | Returned a w' => k a w'
           | Thrown e w' => Thrown e w'
           end.

Definition throw {A} (e : error) : M A := fun w => Thrown e w.

(** [try { body } catch (e) { handler }]. *)
Definition try_catch {A} (body : M A) (handler : error -> M A) : M A :=
  fun w => match body w with
           | Returned a w' => Returned a w'
           | Thrown e w' => handler e w'
           end.

Definition lift {A} (r : result A) : M A :=
  match r with
  | inl e => throw e
  | inr a => ret a
  end.

(** A call to an async function whose promise is dropped: a rejection
    is recorded as unhandled and the caller goes on. *)
Definition detached (m : M unit) : M unit :=
  fun w => match m w with
           | Returned _ w' => Returned tt w'
           | Thrown e w' =>
               Returned tt (mkWorld (console w') (outbox w') (tasks w')
                                    (unhandled w' ++ [e]))
           end.

Declare Scope m_scope.
Delimit Scope m_scope with m.
Notation "x <- c1 ;; c2" := (bind c1 (fun x => c2))
  (at level 61, c1 at next level, right associativity) : m_scope.
Notation "c1 ;; c2" := (bind c1 (fun _ => c2))
  (at level 61, right associativity) : m_scope.
Local Open Scope m_scope.

(** The world after more console lines, after more mail. *)
Definition logged (w : World) (lines : list LogLine) : World :=
  mkWorld (console w ++ lines) (outbox w) (tasks w) (unhandled w).

Definition mailed (w : World) (mails : list Email) : World :=
  mkWorld (console w) (outbox w ++ mails) (tasks w) (unhandled w).

Definition say (l : Level) (t : string) : M unit :=
  fun w => Returned tt (logged w [mkLog l t]).

Definition console_log := say LOG.
Definition console_warn := say WARN.
Definition console_error := say ERROR.

Definition final_world {A} (o : outcome A) : World :=
  match o with
  | Returned _ w => w
  | Thrown _ w => w
  end.

Definition returned {A} (o : outcome A) : bool :=
  match o with
  | Returned _ _ => true
  | Thrown _ _ => false
  end.

(** ** The collaborators: database client, HTTP client, mail client *)

Definition store_down : error := Error "Can't reach database server".

(** [prisma.alert.findMany()]. *)
Definition findMany (db : Store) : result (list Alert) :=
  if reachable db then ok (alerts db) else fail store_down.

(** [prisma.alert.findUnique({ where: { id }, select: { user: { select:
    { name } }, alertEmail } })]: [null] when no row has that id. *)
Definition findUnique (db : Store) (key : string) : result (option AlertWithUser) :=
  if reachable db then
    ok (match find (fun a => String.eqb (id a) key) (alerts db) with
        | Some a =>
            Some (mkAlertWithUser
                    (option_map user_name
                       (find (fun u => String.eqb (user_id u) (userId a)) (users db)))
                    (alertEmail a))
        | None => None
        end)
  else fail store_down.

(** The body of an HTTP response: JSON text that parses to a value, or
    text on which [response.json()] rejects. *)
Inductive JsonBody :=
  | Parsed (v : value)
  | Unparsable (msg : string).

Record HttpResponse := mkResponse { status : N; body : JsonBody }.

(** [fetch(url)] rejects or resolves to a response. *)
Inductive FetchOutcome :=
  | NetworkFailure (msg : string)
  | Responded (r : HttpResponse).

(** [response.ok]: the status is in 200..299. *)
Definition response_ok (r : HttpResponse) : bool :=
  ((200 <=? status r) && (status r <=? 299))%N.

(** What [resend.emails.send] resolves to: [{ data, error }], with
    [data.id] and [error.message] when they are there, and the text
    [console.error] prints for the object [error] (its inspection by
    [util.inspect], with every property the client put in it). *)
Record SendResult := mkSendResult {
  data_id : option string;
  error_message : option string;
  error_shown : string
}.

Inductive SendOutcome :=
  | SendResolved (r : SendResult)
  | SendRejected (e : error).

(** What a firing reads from outside: the configuration, the database,
    the weather service and the mail client ([None] when
    [RESEND_API_KEY] is missing). *)
Record Env := mkEnv {
  API_KEY : string;
  db : Store;
  fetch : string -> FetchOutcome;
  resend : option (Email -> SendOutcome)
}.

(** [resend.emails.send(mail)]: the mail is handed over, then the call
    resolves or rejects. *)
Definition emails_send (send : Email -> SendOutcome) (mail : Email) : M SendResult :=
  fun w =>
    match send mail with
    | SendResolved r => Returned r (mailed w [mail])
    | SendRejected e => Thrown e (mailed w [mail])
    end.

(** ** Scheduling logic: [checkAqiAndSendAlert] *)

Definition CHECK_LAT : Num.number := Num.of_decimal false 287041 (-4).
Definition CHECK_LON : Num.number := Num.of_decimal false 771025 (-4).

Definition nl : string := String (ascii_of_nat 10) EmptyString.
Definition dq : string := String (ascii_of_nat 34) EmptyString.

Definition aqiUrl (env : Env) : string :=
  "http://api.openweathermap.org/data/2.5/air_pollution?lat=" ++ Num.toString CHECK_LAT
  ++ "&lon=" ++ Num.toString CHECK_LON ++ "&appid=" ++ API_KEY env.

(** Step 2, the body of the [try]: fetch, check the status, decode. *)
Definition fetchLiveAqi (env : Env) : result value :=
  match fetch env (aqiUrl env) with
  | NetworkFailure msg => fail (TypeError msg)
  | Responded response =>
      if negb (response_ok response) then
        fail (Error ("OpenWeather API fetch failed with status "
                     ++ Num.digits (Z.of_N (status response)) ++ "."))
      else match body response with
           | Parsed aqiData => ok aqiData
           | Unparsable msg => fail (mkError "SyntaxError" msg)
           end
  end.

(** [aqiData.list[0].main.aqi]. *)
Definition currentAqiValue (aqiData : value) : result value :=
  rbind (get aqiData "list") (fun l =>
  rbind (get0 l) (fun first =>
  rbind (get first "main") (fun main =>
  get main "aqi"))).

(** The outcome of step 3: which branch was taken, and the message. *)
Record Verdict := mkVerdict {
  triggered : bool;
  subject : string;
  htmlContent : string
}.

Definition subject_high : string := "🔴 AQI Alert: High Pollution Detected!".
Definition subject_safe : string := "🟢 AQI Alert: Safe to Go Outside!".

Definition html_high (userName aqi thr time : string) : string :=
  nl ++ "            <p>Hello " ++ userName ++ ",</p>" ++ nl
  ++ "            <h3 style=" ++ dq ++ "color: #b91c1c;" ++ dq
  ++ ">The Air Quality Index (AQI) is high.</h3>" ++ nl
  ++ "            <p>Current AQI: <span style=" ++ dq
  ++ "font-weight: bold; font-size: 1.1em;" ++ dq ++ ">" ++ aqi
  ++ "</span> (Threshold: " ++ thr ++ ")</p>" ++ nl
  ++ "            <p>We recommend you **do not go outdoors** or limit your outdoor activities significantly.</p>"
  ++ nl
  ++ "            <p class=" ++ dq ++ "small" ++ dq ++ ">Alert time: " ++ time
  ++ " (Location: New Delhi).</p>" ++ nl ++ "        ".

Definition html_safe (userName aqi thr time : string) : string :=
  nl ++ "            <p>Hello " ++ userName ++ ",</p>" ++ nl
  ++ "            <h3 style=" ++ dq ++ "color: #3b5d46;" ++ dq
  ++ ">Air quality is currently good or moderate.</h3>" ++ nl
  ++ "            <p>Current AQI: <span style=" ++ dq
  ++ "font-weight: bold; font-size: 1.1em;" ++ dq ++ ">" ++ aqi
  ++ "</span> (Threshold: " ++ thr ++ ")</p>" ++ nl
  ++ "            <p>It is generally safe for you to **go outdoors** for your planned activity.</p>"
  ++ nl
  ++ "            <p class=" ++ dq ++ "small" ++ dq ++ ">Alert time: " ++ time
  ++ " (Location: New Delhi).</p>" ++ nl ++ "        ".

(** Step 3: check against the threshold and set the predefined
    messages. *)
Definition checkThreshold (userName recipientEmail time : string)
    (aqi : value) (thr : Num.number) : M Verdict :=
  high <- lift (Js.gt aqi thr) ;;
  shown <- lift (ToString aqi) ;;
  if high : bool then
    console_log ("ALERT TRIGGERED for " ++ recipientEmail ++ "! AQI: " ++ shown
                 ++ " > Threshold: " ++ Num.toString thr) ;;
    ret (mkVerdict true subject_high
           (html_high userName shown (Num.toString thr) time))
  else
    console_log ("All Clear for " ++ recipientEmail ++ ". Current AQI (" ++ shown
                 ++ ") is safe.") ;;
    ret (mkVerdict false subject_safe
           (html_safe userName shown (Num.toString thr) time)).

(** The argument of [resend.emails.send]. *)
Definition alert_mail (recipientEmail : string) (v : Verdict) : Email :=
  mkEmail "BreathWise Alerts <onboarding@resend.dev>" recipientEmail
          (subject v) (htmlContent v).

(** Step 4: send the email through the mail client, if there is one. *)
Definition sendEmail (env : Env) (recipientEmail : string) (v : Verdict) : M unit :=
  match resend env with
  | Some send =>
      try_catch
        (r <- emails_send send (alert_mail recipientEmail v) ;;
         match error_message r with
         | Some msg =>
             console_error ("RESEND API FAILURE: " ++ error_shown r) ;;
             throw (Error msg)
         | None =>
             match data_id r with
             | Some i =>
                 console_log ("Email sent successfully to " ++ recipientEmail
                              ++ ". Resend ID: " ++ i)
             | None =>
                 throw (TypeError "Cannot read properties of null (reading 'id')")
             end
         end)
        (fun e => console_error ("Resend Email Error (Final): " ++ message e))
  | None =>
      console_log ("Email sending skipped for " ++ recipientEmail
                   ++ " due to missing RESEND_API_KEY.")
  end.

(** [alertWithUser.user?.name || 'User']. *)
Definition userNameOf (found : AlertWithUser) : string :=
  match sel_user found with
  | Some (Some n) => if String.eqb n "" then "User" else n
  | _ => "User"
  end.

(** Steps 2 to 4 of [checkAqiAndSendAlert], once [userName] is set. *)
Definition checkWithName (env : Env) (alert : Alert) (userName : string) : M unit :=
  let recipientEmail := alertEmail alert in
  fetched <- try_catch
               (aqiData <- lift (fetchLiveAqi env) ;; ret (Some aqiData))
               (fun e =>
                  console_error ("Failed to fetch AQI for recipient " ++ recipientEmail
                                 ++ " (non-critical): " ++ message e) ;;
                  ret None) ;;
  match fetched with
  | None => ret tt
  | Some aqiData =>
      aqi <- lift (currentAqiValue aqiData) ;;
      v <- checkThreshold userName recipientEmail (alertTime alert) aqi
             (threshold alert) ;;
      sendEmail env recipientEmail v
  end.

(** Checks AQI at the fixed location against the alert threshold and
    sends an email. *)
Definition checkAqiAndSendAlert (env : Env) (alert : Alert) : M unit :=
  alertWithUser <- lift (findUnique (db env) (id alert)) ;;
  match alertWithUser with
  | None => console_warn ("Alert " ++ id alert ++ " not found.")
  | Some found => checkWithName env alert (userNameOf found)
  end.

(** ** Scheduling logic: [setupCronJobs] *)

Definition stop (t : Task) : Task :=
  mkTask (expression t) (job t) (timezone t) false.

(** [cron.getTasks().forEach(task => task.stop())]. *)
Definition stop_all_tasks : M unit :=
  fun w => Returned tt (mkWorld (console w) (outbox w) (map stop (tasks w))
                                (unhandled w)).

(** [list.forEach(f)]: an exception in [f] ends the loop. *)
Fixpoint forEach {A} (l : list A) (f : A -> M unit) : M unit :=
  match l with
  | [] => ret tt
  | x :: rest => f x ;; forEach rest f
  end.

(** The expression built from [alert.alertTime.split(':')]. *)
Definition cronSchedule (alert : Alert) : string :=
  let parts := split ":" (alertTime alert) in
  let hour := nth_error parts 0 in
  let minute := nth_error parts 1 in
  show minute ++ " " ++ show hour ++ " * * *".

(** The timers that will fire. *)
Definition active (w : World) : list Task := filter running (tasks w).

Section Scheduler.

(** The cron library's check of an expression: [true] when
    [cron.schedule] takes it, [false] when it throws. *)
Variable valid_expression : string -> bool.

(** [cron.schedule(expr, callback, { scheduled: true, timezone })],
    where the callback is [() => checkAqiAndSendAlert(alert)]. *)
Definition cron_schedule (expr : string) (alert : Alert) (tz : string) : M unit :=
  fun w =>
    if valid_expression expr then
      Returned tt (mkWorld (console w) (outbox w)
                           (tasks w ++ [mkTask expr alert tz true]) (unhandled w))
    else Thrown (Error (expr ++ " is a invalid expression")) w.

Definition schedule_alert (alert : Alert) : M unit :=
  cron_schedule (cronSchedule alert) alert "Asia/Kolkata" ;;
  console_log ("Scheduled alert for User " ++ userId alert ++ " (Recipient: "
               ++ alertEmail alert ++ ") at " ++ alertTime alert ++ " (IST).").

(** Initializes cron jobs for all alerts in the database. *)
Definition setupCronJobs (store : Store) : M unit :=
  stop_all_tasks ;;
  found <- lift (findMany store) ;;
  forEach found schedule_alert.

End Scheduler.

(** A running task reaches its time: the library calls the callback,
    which starts [checkAqiAndSendAlert] on the captured alert and drops
    the promise. A stopped task does nothing. *)
Definition fire (env : Env) (t : Task) : M unit :=
  if running t then detached (checkAqiAndSendAlert env (job t)) else ret tt.

(** A check of expressions for the examples: [m h * * *] with [m] a
    decimal number up to 59 and [h] one up to 23. The cron library also
    takes lists, ranges and steps; none occurs in the examples. *)
Definition numeric_field (limit : Z) (f : string) : bool :=
  match Num.read_digits f 0 0 with
  | (v, n, EmptyString) => (0 <? n) && (v <=? limit)
  | _ => false
  end.

Definition daily_expression (expr : string) : bool :=
  match split " " expr with
  | [m; h; "*"; "*"; "*"] => numeric_field 59 m && numeric_field 23 h
  | _ => false
  end.

(** ** Alerts API: [POST /alert] *)

Inductive Reply :=
  | ReplyError (code : N) (err : string)
  | ReplyCreated (msg : string) (alert : Alert).

(** The argument of [prisma.alert.create]. *)
Record AlertData := mkAlertData {
  data_userId : string;
  data_alertTime : value;
  data_pollutant : value;
  data_threshold : Num.number;
  data_alertEmail : value
}.

Section AlertsApi.

Variable valid_expression : string -> bool.

(** Whether the database client takes a number for a [Float] column. *)
Variable float_accepted : Num.number -> bool.

(** [prisma.alert.create({ data })] with [fresh] as the generated id.
    It throws when the database is down, when a text column gets
    something else than a string, when the number is refused, when the
    user does not exist or when the id is taken. *)
Definition create (store : Store) (fresh : string) (d : AlertData)
    : result (Alert * Store) :=
  if negb (reachable store) then fail store_down
  else
    match data_alertTime d, data_pollutant d, data_alertEmail d with
    | VStr time, VStr pol, VStr mail =>
        if float_accepted (data_threshold d)
           && existsb (fun u => String.eqb (user_id u) (data_userId d)) (users store)
           && negb (existsb (fun a => String.eqb (id a) fresh) (alerts store))
        then
          let row := mkAlert fresh (data_userId d) time pol (data_threshold d) mail in
          ok (row, mkStore (reachable store) (users store) (alerts store ++ [row]))
        else fail (Error "Invalid `prisma.alert.create()` invocation")
    | _, _, _ => fail (Error "Invalid `prisma.alert.create()` invocation")
    end.

(** The handler of [POST /alert], reached once [authMiddleware] has
    put the token's payload in [req.user]: saves a new alert and
    restarts the cron jobs. [body] is [req.body]. The call of
    [setupCronJobs] is not awaited: the world returned here is the one
    in which the rebuild the handler started has run to its end, which
    in the program is after the reply; [post_alert_reply] below stops
    where the reply is sent. *)
Definition post_alert (store : Store) (fresh : string) (req_userId : string)
    (body : value) : M (Reply * Store) :=
  try_catch
    (time <- lift (destructure body "req.body" "alertTime") ;;
     pol <- lift (destructure body "req.body" "pollutant") ;;
     thr <- lift (destructure body "req.body" "threshold") ;;
     mail <- lift (destructure body "req.body" "alertEmail") ;;
     if negb (truthy time) || negb (truthy pol) || negb (truthy thr)
        || negb (truthy mail)
     then ret (ReplyError 400
                 "Missing required alert details (Time, Pollutant, Threshold, Email).",
               store)
     else
       parsed <- lift (parseFloat thr) ;;
       created <- lift (create store fresh
                          (mkAlertData req_userId time pol parsed mail)) ;;
       detached (setupCronJobs valid_expression (snd created)) ;;
       ret (ReplyCreated "Alert created successfully and scheduled." (fst created),
            snd created))
    (fun err =>
       console_error ("Alert Error: " ++ message err) ;;
       ret (ReplyError 500 "Failed to create alert.", store)).

End AlertsApi.

(** *** The handler and the rebuild it leaves behind

    [setupCronJobs()] runs up to its [await]: every task is stopped and
    the query is on its way when the call returns its promise, and the
    handler goes on to [res.json]. What is left of the rebuild runs
    when the database answers. *)

Section AlertsApiInTwoSteps.

Variable valid_expression : string -> bool.
Variable float_accepted : Num.number -> bool.

(** [setupCronJobs] from the answer of [prisma.alert.findMany] on;
    [store] is the database at that time. *)
Definition setupCronJobs_resumed (store : Store) : M unit :=
  found <- lift (findMany store) ;;
  forEach found (schedule_alert valid_expression).

(** The handler of [POST /alert] up to its reply. *)
Definition post_alert_reply (store : Store) (fresh : string) (req_userId : string)
    (body : value) : M (Reply * Store) :=
  try_catch
    (time <- lift (destructure body "req.body" "alertTime") ;;
     pol <- lift (destructure body "req.body" "pollutant") ;;
     thr <- lift (destructure body "req.body" "threshold") ;;
     mail <- lift (destructure body "req.body" "alertEmail") ;;
     if negb (truthy time) || negb (truthy pol) || negb (truthy thr)
        || negb (truthy mail)
     then ret (ReplyError 400
                 "Missing required alert details (Time, Pollutant, Threshold, Email).",
               store)
     else
       parsed <- lift (parseFloat thr) ;;
       created <- lift (create float_accepted store fresh
                          (mkAlertData req_userId time pol parsed mail)) ;;
       stop_all_tasks ;;
       ret (ReplyCreated "Alert created successfully and scheduled." (fst created),
            snd created))
    (fun err =>
       console_error ("Alert Error: " ++ message err) ;;
       ret (ReplyError 500 "Failed to create alert.", store)).

(** What the handler leaves to run after a reply: the rest of the
    rebuild when an alert was created, nothing otherwise. Its promise
    was dropped. *)
Definition left_running (reply : Reply) (later : Store) : M unit :=
  match reply with
  | ReplyCreated _ _ => detached (setupCronJobs_resumed later)
  | ReplyError _ _ => ret tt
  end.

End AlertsApiInTwoSteps.

(** ** Vocabulary of the properties *)

(** The value of [x] is less than the value of [y], for finite numbers:
    both mantissas are brought to the smaller exponent. *)
Definition exactly_less (x y : Num.number) : Prop :=
  let k := Z.min (Num.exponent x) (Num.exponent y) in
  Num.mantissa x * 2 ^ (Num.exponent x - k)
  < Num.mantissa y * 2 ^ (Num.exponent y - k).

(** [sub] occurs in [s]. *)
Definition contains (sub s : string) : Prop :=
  exists pre post, s = pre ++ sub ++ post.

(** The line the [catch] of step 2 writes. *)
Definition fetch_failure_line (recipientEmail : string) (e : error) : LogLine :=
  mkLog ERROR ("Failed to fetch AQI for recipient " ++ recipientEmail
               ++ " (non-critical): " ++ message e).

(** The console lines step 4 writes for an answer of the mail client. *)
Definition send_lines (recipientEmail : string) (o : SendOutcome) : list LogLine :=
  match o with
  | SendResolved r =>
      match error_message r, data_id r with
      | Some msg, _ =>
          [mkLog ERROR ("RESEND API FAILURE: " ++ error_shown r);
           mkLog ERROR ("Resend Email Error (Final): " ++ msg)]
      | None, Some i =>
          [mkLog LOG ("Email sent successfully to " ++ recipientEmail
                      ++ ". Resend ID: " ++ i)]
      | None, None =>
          [mkLog ERROR ("Resend Email Error (Final): "
                        ++ "Cannot read properties of null (reading 'id')")]
      end
  | SendRejected e => [mkLog ERROR ("Resend Email Error (Final): " ++ message e)]
  end.

Definition skipped_line (recipientEmail : string) : LogLine :=
  mkLog LOG ("Email sending skipped for " ++ recipientEmail
             ++ " due to missing RESEND_API_KEY.").

(** The request fails in transport: [fetch] rejects, the status is not a
    success, or the body is not JSON. *)
Definition transport_failure (env : Env) : bool :=
  match fetch env (aqiUrl env) with
  | NetworkFailure _ => true
  | Responded r =>
      negb (response_ok r)
      || match body r with Unparsable _ => true | Parsed _ => false end
  end.

(** The structure the code expects of a payload: [list[0].main.aqi] is
    there and is a number. *)
Definition expected_shape (payload : value) : bool :=
  match currentAqiValue payload with
  | inr (VNum _) => true
  | _ => false
  end.

(** Fetching the reading fails, in the three ways the specification
    names: network error, non-success response, payload of another
    shape. *)
Definition reading_fetch_fails (env : Env) : bool :=
  match fetch env (aqiUrl env) with
  | NetworkFailure _ => true
  | Responded r =>
      negb (response_ok r)
      || match body r with
         | Unparsable _ => true
         | Parsed payload => negb (expected_shape payload)
         end
  end.

(** The same surroundings with another database content. *)
Definition with_db (env : Env) (store : Store) : Env :=
  mkEnv (API_KEY env) store (fetch env) (resend env).

(** Two rows that are the same alert of the same user: they may differ
    in time, pollutant, threshold and recipient. *)
Definition same_alert (a b : Alert) : Prop :=
  id a = id b /\ userId a = userId b.

(** Two database contents that differ at most by edits of alert rows
    that keep their ids and owners. *)
Definition edited (s1 s2 : Store) : Prop :=
  reachable s1 = reachable s2 /\ users s1 = users s2
  /\ Forall2 same_alert (alerts s1) (alerts s2).

(** The task [setupCronJobs] registers for an alert, and the line it
    logs. *)
Definition new_task (alert : Alert) : Task :=
  mkTask (cronSchedule alert) alert "Asia/Kolkata" true.

Definition scheduled_line (alert : Alert) : LogLine :=
  mkLog LOG ("Scheduled alert for User " ++ userId alert ++ " (Recipient: "
             ++ alertEmail alert ++ ") at " ++ alertTime alert ++ " (IST).").

(** The cron library takes the expression built for an alert. *)
Definition accepted (valid_expression : string -> bool) (alert : Alert) : bool :=
  valid_expression (cronSchedule alert).

(** The world after every task has been stopped, and after a list of
    alerts has been scheduled. *)
Definition stopped (w : World) : World :=
  mkWorld (console w) (outbox w) (map stop (tasks w)) (unhandled w).

Definition scheduled (w : World) (l : list Alert) : World :=
  mkWorld (console w ++ map scheduled_line l) (outbox w)
          (tasks w ++ map new_task l) (unhandled w).

(** A fire time in the specification's sense: [HH:MM] with an hour up to
    23 and a minute up to 59. *)
Definition fireTime_well_formed (time : string) : bool :=
  match split ":" time with
  | [h; m] => numeric_field 23 h && numeric_field 59 m
  | _ => false
  end.

Definition well_formed (alert : Alert) : bool :=
  fireTime_well_formed (alertTime alert).

(** ** Data for the examples *)

Definition asha : User := mkUser "u1" (Some "Asha").
Definition ravi : User := mkUser "u2" (Some "Ravi").
Definition anonymous : User := mkUser "u3" None.

Definition rule1 : Alert :=
  mkAlert "a1" "u1" "08:00" "aqi" (Num.of_Z 100) "asha@example.org".
Definition rule2 : Alert :=
  mkAlert "a2" "u2" "21:30" "aqi" (Num.of_Z 3) "ravi@example.org".
Definition rule_bogus : Alert :=
  mkAlert "a3" "u1" "bogus" "aqi" (Num.of_Z 3) "asha@example.org".
Definition rule_anonymous : Alert :=
  mkAlert "a4" "u3" "06:45" "aqi" (Num.of_Z 3) "someone@example.org".

Definition people : list User := [asha; ravi; anonymous].

Definition store1 : Store := mkStore true people [rule1].
Definition store_down1 : Store := mkStore false people [rule1].

(** [{ list: [ { main: { aqi } } ] }]. *)
Definition payload_of (aqi : value) : value :=
  VObj [("list", VArr [VObj [("main", VObj [("aqi", aqi)])]])].

(** [{ list: [ { main: {} } ] }] and [{}]. *)
Definition payload_without_aqi : value :=
  VObj [("list", VArr [VObj [("main", VObj [])]])].
Definition payload_empty : value := VObj [].

(** A mail client that answers [{ data: { id: 'msg-1' }, error: null }],
    and one that answers with the error
    [{ name: 'validation_error', message: 'domain not verified' }]. *)
Definition delivers (_ : Email) : SendOutcome :=
  SendResolved (mkSendResult (Some "msg-1") None "null").
Definition refuses (_ : Email) : SendOutcome :=
  SendResolved
    (mkSendResult None (Some "domain not verified")
       "{ name: 'validation_error', message: 'domain not verified' }").

Definition answers (payload : value) : string -> FetchOutcome :=
  fun _ => Responded (mkResponse 200 (Parsed payload)).

Definition env_of (store : Store) (f : string -> FetchOutcome) : Env :=
  mkEnv "KEY" store f (Some delivers).

Definition w0 : World := mkWorld [] [] [] [].

(** [rule1] after edits of its threshold and recipient in the database,
    after a change of its owner, and after its removal. *)
Definition store_edited : Store :=
  mkStore true people
    [mkAlert "a1" "u1" "08:00" "aqi" (Num.of_Z 4) "elsewhere@example.org"].
Definition store_reassigned : Store :=
  mkStore true people
    [mkAlert "a1" "u2" "08:00" "aqi" (Num.of_Z 100) "asha@example.org"].
Definition store_emptied : Store := mkStore true people [].

Definition store_two : Store := mkStore true people [rule1; rule2].
Definition store_three : Store := mkStore true people [rule1; rule_bogus; rule2].
Definition store_bad_first : Store := mkStore true people [rule_bogus; rule2].

(** A world in which the timer of [rule1] is running. *)
Definition world_running : World := mkWorld [] [] [new_task rule1] [].

(** Request bodies for [POST /alert]. *)
Definition body_with (thr : value) : value :=
  VObj [("alertTime", VStr "09:15"); ("pollutant", VStr "aqi");
        ("threshold", thr); ("alertEmail", VStr "asha@example.org")].

Definition missing_details : string :=
  "Missing required alert details (Time, Pollutant, Threshold, Email).".

(** ** Further vocabulary *)

(** The character [c] does not occur in [s]. *)
Fixpoint free_of (c : ascii) (s : string) : bool :=
  match s with
  | EmptyString => true
  | String x r => negb (Ascii.eqb x c) && free_of c r
  end.

(** A request body without [alertEmail], and a body whose time has no
    colon. *)
Definition body_without_email : value :=
  VObj [("alertTime", VStr "09:15"); ("pollutant", VStr "aqi");
        ("threshold", VNum (Num.of_Z 3))].


(** ** Auth middleware *)

(** What [login] signs into a token and [jwt.verify] gives back:
    [{ userId, name, email }]. *)
Record JwtPayload := mkPayload {
  jwt_userId : string;
  jwt_name : option string;
  jwt_email : string
}.

Section Auth.

(** [jwt.verify(token, JWT_SECRET)] for the token the header gave,
    [None] when [header.split(' ')[1]] is [undefined]: the payload, or
    an exception. *)
Variable jwt_verify : option string -> result JwtPayload.

(** [authMiddleware(req, res, next)] for the [authorization] header of
    the request ([None] when the request has none): the reply it sends,
    or the payload it puts in [req.user] before calling [next()]. *)
Definition authMiddleware (authorization : option string) : Reply + JwtPayload :=
  match authorization with
  | None => inl (ReplyError 401 "Missing token")
  | Some header =>
      if String.eqb header "" then inl (ReplyError 401 "Missing token")
      else
        let token := nth_error (split " " header) 1 in
        match jwt_verify token with
        | inr user => inr user
        | inl _ => inl (ReplyError 401 "Invalid or expired token")
        end
  end.

(** [app.post('/alert', authMiddleware, handler)]. *)
Definition alert_route (valid_expression : string -> bool)
    (float_accepted : Num.number -> bool) (store : Store) (fresh : string)
    (authorization : option string) (body : value) : M (Reply * Store) :=
  match authMiddleware authorization with
  | inl reply => ret (reply, store)
  | inr user =>
      post_alert valid_expression float_accepted store fresh (jwt_userId user) body
  end.

End Auth.

(** ** Auth routes: [POST /signup] and [POST /login] *)

(** A row of the [User] table with the columns the auth routes use:
    the id and name of [User], the email and the stored password. *)
Record Account := mkAccount {
  account : User;
  email : string;
  password : string
}.

(** The [User] table behind the Prisma client. *)
Record Accounts := mkAccounts {
  accounts_reachable : bool;
  rows : list Account
}.

Inductive AuthReply :=
  | AuthError (code : N) (err : string)
  | SignedUp (msg : string) (new_id new_email : string)
  | LoggedIn (msg token : string) (name : option string).

(** [prisma.user.findUnique({ where: { email } })]. *)
Definition findUserByEmail (users : Accounts) (mail : value) : result (option Account) :=
  match mail with
  | VStr m =>
      if accounts_reachable users
      then ok (find (fun a => String.eqb (email a) m) (rows users))
      else fail store_down
  | _ => fail (Error "Invalid `prisma.user.findUnique()` invocation")
  end.

(** [prisma.user.create({ data: { name, email, password } })] with
    [fresh] as the generated id. It throws when name or email is not a
    string, when the database is down, and when the email or the id is
    taken (both columns are unique). *)
Definition createUser (users : Accounts) (fresh : string) (name mail : value)
    (hashed : string) : result (Account * Accounts) :=
  match name, mail with
  | VStr n, VStr m =>
      if negb (accounts_reachable users) then fail store_down
      else if existsb (fun a => String.eqb (email a) m) (rows users)
              || existsb (fun a => String.eqb (user_id (account a)) fresh) (rows users)
      then fail (Error "Unique constraint failed")
      else
        let row := mkAccount (mkUser fresh (Some n)) m hashed in
        ok (row, mkAccounts (accounts_reachable users) (rows users ++ [row]))
  | _, _ => fail (Error "Invalid `prisma.user.create()` invocation")
  end.

Section AuthRoutes.

(** [bcrypt.hash(password, 10)] and [bcrypt.compare(password, hash)];
    both throw on arguments they do not take. *)
Variable bcrypt_hash : value -> result string.
Variable bcrypt_compare : value -> string -> result bool.

(** [jwt.sign(payload, JWT_SECRET, { expiresIn: '7d' })]. *)
Variable jwt_sign : JwtPayload -> string.

(** The handler of [POST /signup]. *)
Definition signup (users : Accounts) (fresh : string) (body : value)
    : M (AuthReply * Accounts) :=
  try_catch
    (name <- lift (destructure body "req.body" "name") ;;
     mail <- lift (destructure body "req.body" "email") ;;
     pass <- lift (destructure body "req.body" "password") ;;
     if negb (truthy name) || negb (truthy mail) || negb (truthy pass)
     then ret (AuthError 400 "All fields are required.", users)
     else
       existing <- lift (findUserByEmail users mail) ;;
       match existing with
       | Some _ => ret (AuthError 400 "Email already exists.", users)
       | None =>
           hashed <- lift (bcrypt_hash pass) ;;
           created <- lift (createUser users fresh name mail hashed) ;;
           ret (SignedUp "User created successfully"
                  (user_id (account (fst created))) (email (fst created)),
                snd created)
       end)
    (fun err =>
       console_error ("Signup Error: " ++ message err) ;;
       ret (AuthError 500 "Signup failed.", users)).

(** The handler of [POST /login]. *)
Definition login (users : Accounts) (body : value) : M AuthReply :=
  try_catch
    (mail <- lift (destructure body "req.body" "email") ;;
     pass <- lift (destructure body "req.body" "password") ;;
     if negb (truthy mail) || negb (truthy pass)
     then ret (AuthError 400 "Missing credentials.")
     else
       found <- lift (findUserByEmail users mail) ;;
       match found with
       | None => ret (AuthError 404 "User not found.")
       | Some user =>
           valid <- lift (bcrypt_compare pass (password user)) ;;
           if negb valid then ret (AuthError 401 "Invalid password.")
           else
             let token :=
               jwt_sign (mkPayload (user_id (account user)) (user_name (account user))
                                   (email user)) in
             ret (LoggedIn "Login successful" token (user_name (account user)))
       end)
    (fun err =>
       console_error ("Login Error: " ++ message err) ;;
       ret (AuthError 500 "Login failed.")).

End AuthRoutes.

(** A stand-in for the hashing library in the examples: the hash of a
    text is the text behind a mark, and nothing else is hashed. *)
Definition toy_hash (p : value) : result string :=
  match p with
  | VStr s => ok ("#" ++ s)
  | _ => fail (Error "data must be a string or Buffer")
  end.

Definition toy_compare (p : value) (h : string) : result bool :=
  match p with
  | VStr s => ok (String.eqb h ("#" ++ s))
  | _ => fail (Error "data must be a string or Buffer")
  end.

(** A stand-in for the token library in the examples: the token is the
    user id behind a mark, and only such tokens verify. *)
Definition toy_sign (p : JwtPayload) : string := "t." ++ jwt_userId p.

Definition toy_verify (known : list JwtPayload) (token : option string)
    : result JwtPayload :=
  match token with
  | Some t =>
      match find (fun p => String.eqb (toy_sign p) t) known with
      | Some p => ok p
      | None => fail (mkError "JsonWebTokenError" "invalid token")
      end
  | None => fail (mkError "JsonWebTokenError" "jwt must be provided")
  end.

Definition signup_body (name mail pass : string) : value :=
  VObj [("name", VStr name); ("email", VStr mail); ("password", VStr pass)].

Definition login_body (mail pass : string) : value :=
  VObj [("email", VStr mail); ("password", VStr pass)].

Definition no_accounts : Accounts := mkAccounts true [].

(** The payload [login] signs for a row of the [User] table. *)
Definition payload_of_account (a : Account) : JwtPayload :=
  mkPayload (user_id (account a)) (user_name (account a)) (email a).

Definition asha_account : Account := mkAccount asha "asha@example.org" "#secret".
Definition one_account : Accounts := mkAccounts true [asha_account].

(** ** Dashboard data: [GET /api/v1/aqi-data] *)

(** [a * b] and [a / b] on numbers. *)
Definition times (a b : Num.number) : Num.number := SFmul Num.prec Num.emax a b.
Definition divided (a b : Num.number) : Num.number := SFdiv Num.prec Num.emax a b.

(** [Math.round(x)]: the integer nearest to [x], the greater one on a
    tie; [-0] for [-0.5 <= x < 0]; NaN, the infinities, the zeros and
    the integers are returned as they are. *)
Definition Math_round (x : Num.number) : Num.number :=
  match x with
  | S754_finite s m (Zneg k) =>
      let n := (2 * cond_Zopp s (Z.pos m) + 2 ^ Z.pos k) / 2 ^ (Z.pos k + 1) in
      if n =? 0 then S754_zero s else Num.of_Z n
  | _ => x
  end.

(** [a || b]. *)
Definition or_else (a b : value) : value := if truthy a then a else b.

(** [Math.round(v * 10) / 10 || 0]. *)
Definition round_to_tenth (v : value) : result Num.number :=
  rbind (ToNumber v) (fun x =>
    let q := divided (Math_round (times x (Num.of_Z 10))) (Num.of_Z 10) in
    ok (if truthy (VNum q) then q else Num.zero)).

(** [v === k] for a number literal [k]. *)
Definition strictly_equals (v : value) (k : Z) : bool :=
  match v with
  | VNum n => Num.eqb n (Num.of_Z k)
  | _ => false
  end.

Record AqiInfo := mkAqiInfo {
  aqi_value : value;
  levelIndex : Z;
  aqi_level : string;
  aqi_message : string;
  healthImpact : string
}.

(** The [switch] on [openWeatherAqiLevel], with the values set before it
    as the default. *)
Definition classify (openWeatherAqiLevel : value) : AqiInfo :=
  if strictly_equals openWeatherAqiLevel 2 then
    mkAqiInfo openWeatherAqiLevel 2 "Fair" "Air quality is acceptable." "Low Risk"
  else if strictly_equals openWeatherAqiLevel 3 then
    mkAqiInfo openWeatherAqiLevel 3 "Moderate"
      "People with respiratory issues should limit outdoor activity." "Medium Risk"
  else if strictly_equals openWeatherAqiLevel 4 then
    mkAqiInfo openWeatherAqiLevel 4 "Poor" "Health effects possible for everyone."
      "High Risk"
  else if strictly_equals openWeatherAqiLevel 5 then
    mkAqiInfo openWeatherAqiLevel 5 "Very Poor" "Emergency conditions; stay indoors."
      "Severe Risk"
  else
    mkAqiInfo openWeatherAqiLevel 1 "Good"
      "Air quality is excellent. Go out and enjoy the day!" "Minimal Risk".

Record Components := mkComponents {
  pm25 : Num.number;
  pm10 : Num.number;
  no2 : Num.number;
  o3 : Num.number;
  so2 : Num.number
}.

Record Weather := mkWeather {
  temp : Num.number;
  description : value;
  humidity : value;
  windSpeed : Num.number
}.

Record CombinedData := mkCombined {
  location_name : value;
  lastUpdated : string;
  aqi : AqiInfo;
  components : Components;
  weather : Weather
}.

(** The argument of [prisma.aQIReading.create]. *)
Record ReadingData := mkReadingData {
  reading_location : value;
  reading_pm25 : value;
  reading_pm10 : value;
  reading_aqiValue : value;
  reading_rawPayload : string
}.

(** A reply of the dashboard route or of the root route: a JSON error,
    a plain text, the combined data, or a file handed to [res.sendFile]. *)
Inductive Answer :=
  | JsonError (code : N) (err : string)
  | Plain (code : N) (txt : string)
  | Combined (d : CombinedData)
  | SentFile (path : string).

(** [response.json()]. *)
Definition json (r : HttpResponse) : result value :=
  match body r with
  | Parsed v => ok v
  | Unparsable msg => fail (mkError "SyntaxError" msg)
  end.

(** [aqiData.list[0].components[name]]. *)
Definition component (aqiData : value) (name : string) : result value :=
  rbind (get aqiData "list") (fun l =>
  rbind (get0 l) (fun first =>
  rbind (get first "components") (fun cs =>
  get cs name))).

(** The two addresses asked, for the texts of [lat] and [lon]. *)
Definition aqiUrl_at (env : Env) (lat lon : string) : string :=
  "http://api.openweathermap.org/data/2.5/air_pollution?lat=" ++ lat
  ++ "&lon=" ++ lon ++ "&appid=" ++ API_KEY env.

Definition weatherUrl_at (env : Env) (lat lon : string) : string :=
  "http://api.openweathermap.org/data/2.5/weather?lat=" ++ lat
  ++ "&lon=" ++ lon ++ "&appid=" ++ API_KEY env ++ "&units=metric".

(** The error middleware [next(err)] ends in. *)
Definition error_middleware {A} (rest : A) (err : error) : M (Answer * A) :=
  console_error ("General Server Error: " ++ message err) ;;
  ret (Plain 500 "Server error", rest).

Section Dashboard.

(** The text of a response body, [JSON.stringify], the time text of
    [toLocaleTimeString], and whether the database client takes a
    reading. *)
Variable body_text : HttpResponse -> string.
Variable JSON_stringify : value -> string.
Variable clock : string.
Variable reading_accepted : ReadingData -> bool.

(** The inner [try]: save the reading, log a failure and go on. *)
Definition autoSave (readings : list ReadingData) (aqiData weatherData : value)
    : M (list ReadingData) :=
  try_catch
    (name <- lift (get weatherData "name") ;;
     p25 <- lift (component aqiData "pm2_5") ;;
     p10 <- lift (component aqiData "pm10") ;;
     level <- lift (currentAqiValue aqiData) ;;
     let d := mkReadingData (or_else name (VStr "Unknown")) p25 p10 level
                            (JSON_stringify aqiData) in
     if reading_accepted d then ret (readings ++ [d])%list
     else throw (Error "Invalid `prisma.aQIReading.create()` invocation"))
    (fun dbErr =>
       console_error ("Auto-save AQI to DB failed (non-critical): " ++ message dbErr) ;;
       ret readings).

(** The object sent back, built after the save. *)
Definition combinedData (aqiData weatherData : value) : result CombinedData :=
  rbind (currentAqiValue aqiData) (fun openWeatherAqiLevel =>
  rbind (get weatherData "name") (fun name =>
  rbind (rbind (component aqiData "pm2_5") round_to_tenth) (fun c25 =>
  rbind (rbind (component aqiData "pm10") round_to_tenth) (fun c10 =>
  rbind (rbind (component aqiData "no2") round_to_tenth) (fun cno2 =>
  rbind (rbind (component aqiData "o3") round_to_tenth) (fun co3 =>
  rbind (rbind (component aqiData "so2") round_to_tenth) (fun cso2 =>
  rbind (get weatherData "main") (fun main =>
  rbind (get main "temp") (fun t =>
  rbind (ToNumber t) (fun tn =>
  rbind (get weatherData "weather") (fun ws =>
  rbind (get0 ws) (fun first =>
  rbind (get first "description") (fun descr =>
  rbind (get weatherData "main") (fun main2 =>
  rbind (get main2 "humidity") (fun hum =>
  rbind (get weatherData "wind") (fun wind =>
  rbind (get wind "speed") (fun speed =>
  rbind (ToNumber speed) (fun sn =>
  ok (mkCombined (or_else name (VStr "Unknown Location")) clock
        (classify openWeatherAqiLevel)
        (mkComponents c25 c10 cno2 co3 cso2)
        (mkWeather (Math_round tn) descr hum
           (Math_round (times sn (Num.of_decimal false 36 (-1)))))))))))))))))))))))).

(** The handler of [GET /api/v1/aqi-data]; [lat] and [lon] are the
    members of [req.query]. *)
Definition aqi_data (env : Env) (readings : list ReadingData) (lat lon : value)
    : M (Answer * list ReadingData) :=
  if negb (truthy lat) || negb (truthy lon) then
    ret (JsonError 400 "Missing 'lat' or 'lon' query parameters.", readings)
  else
    fetched <-
      try_catch
        (slat <- lift (ToString lat) ;;
         slon <- lift (ToString lon) ;;
         match fetch env (aqiUrl_at env slat slon),
               fetch env (weatherUrl_at env slat slon) with
         | NetworkFailure msg, _ => throw (TypeError msg)
         | _, NetworkFailure msg => throw (TypeError msg)
         | Responded aqiResponse, Responded weatherResponse =>
             if negb (response_ok aqiResponse) || negb (response_ok weatherResponse)
             then
               let aqiError :=
                 if negb (response_ok aqiResponse) then body_text aqiResponse
                 else "OK" in
               let weatherError :=
                 if negb (response_ok weatherResponse) then body_text weatherResponse
                 else "OK" in
               console_error ("API Fetch Error. AQI Status: "
                              ++ Num.digits (Z.of_N (status aqiResponse))
                              ++ ", Weather Status: "
                              ++ Num.digits (Z.of_N (status weatherResponse))) ;;
               console_error ("AQI Error: " ++ aqiError ++ ", Weather Error: "
                              ++ weatherError) ;;
               ret (inl (JsonError 502
                           "One or more OpenWeather API calls failed. See server logs for details."))
             else
               aqiData <- lift (json aqiResponse) ;;
               weatherData <- lift (json weatherResponse) ;;
               ret (inr (aqiData, weatherData))
         end)
        (fun err =>
           reply <- error_middleware tt err ;;
           ret (inl (fst reply))) ;;
    match fetched with
    | inl reply => ret (reply, readings)
    | inr (aqiData, weatherData) =>
        saved <- autoSave readings aqiData weatherData ;;
        match combinedData aqiData weatherData with
        | inr d => ret (Combined d, saved)
        | inl err => error_middleware saved err
        end
    end.

End Dashboard.

(** ** The root route: [GET /] *)

(** [s.endsWith(suffix)]. *)
Definition endsWith (s suffix : string) : bool :=
  let n := String.length s in
  let k := String.length suffix in
  (k <=? n)%nat && String.eqb (substring (n - k) k s) suffix.

(** The UTF-16 code units of a text held as UTF-8 bytes, which is how a
    name on the disk becomes the string [readdir] returns: a code point
    up to U+FFFF is one unit, a higher one a surrogate pair, and a byte
    that continues no well-formed sequence is read as U+FFFD. *)
Definition units_of (cp : N) : list N :=
  if (cp <? 65536)%N then [cp]
  else [(55296 + (cp - 65536) / 1024)%N; (56320 + (cp - 65536) mod 1024)%N].

(** A sequence under way: the bits read, the bytes still needed, and
    the bounds of the next byte. *)
Record Pending := mkPending {
  bits : N;
  needed : nat;
  lower : N;
  upper : N
}.

(** A byte read when no sequence is under way: units, or the start of a
    sequence. *)
Definition lead (b : N) : list N + Pending :=
  if (b <=? 127)%N then inl [b]
  else if ((194 <=? b) && (b <=? 223))%N then
    inr (mkPending (N.land b 31) 1 128 191)
  else if ((224 <=? b) && (b <=? 239))%N then
    inr (mkPending (N.land b 15) 2
           (if (b =? 224)%N then 160%N else 128%N)
           (if (b =? 237)%N then 159%N else 191%N))
  else if ((240 <=? b) && (b <=? 244))%N then
    inr (mkPending (N.land b 7) 3
           (if (b =? 240)%N then 144%N else 128%N)
           (if (b =? 244)%N then 143%N else 191%N))
  else inl [65533%N].

Fixpoint decode (s : string) (st : option Pending) : list N :=
  match s with
  | EmptyString =>
      match st with
      | None => []
      | Some _ => [65533%N]
      end
  | String c rest =>
      let b := N_of_ascii c in
      let fresh :=
        match lead b with
        | inl units => (units ++ decode rest None)%list
        | inr p => decode rest (Some p)
        end in
      match st with
      | None => fresh
      | Some p =>
          if ((lower p <=? b) && (b <=? upper p))%N then
            let cp := (bits p * 64 + N.land b 63)%N in
            match needed p with
            | S (S n) => decode rest (Some (mkPending cp (S n) 128 191))
            | _ => (units_of cp ++ decode rest None)%list
            end
          else 65533%N :: fresh
      end
  end.

Definition code_units (s : string) : list N := decode s None.

(** [a < b], [a == b] or [a > b] for two strings, unit by unit; a
    proper prefix comes first. *)
Fixpoint units_compare (a b : list N) : comparison :=
  match a, b with
  | [], [] => Eq
  | [], _ :: _ => Lt
  | _ :: _, [] => Gt
  | x :: a', y :: b' =>
      match (x ?= y)%N with
      | Eq => units_compare a' b'
      | c => c
      end
  end.

(** [!(b < a)]: [a] may stay before [b]. *)
Definition name_leb (a b : string) : bool :=
  match units_compare (code_units a) (code_units b) with
  | Gt => false
  | _ => true
  end.

(** [names.sort()]: the names in ascending order of their code units,
    names that compare equal in the order they came in. *)
Fixpoint insert_sorted (x : string) (l : list string) : list string :=
  match l with
  | [] => [x]
  | y :: rest => if name_leb x y then x :: l else y :: insert_sorted x rest
  end.

Definition sort (names : list string) : list string :=
  fold_right insert_sorted [] names.

(** [path.join(dir, name)] for a name without separators. *)
Definition path_join (dir name : string) : string := dir ++ "/" ++ name.

(** A directory entry, an error of [node:fs] with its [code], and the
    two calls the route makes. *)
Record Dirent := mkDirent { dirent_name : string; isFile : bool }.

Record FsError := mkFsError { fs_code : string; fs_error : error }.

Record Disk := mkDisk {
  access : string -> option FsError;
  readdir : string -> FsError + list Dirent
}.

Definition htmlFiles (entries : list Dirent) : list string :=
  sort (map dirent_name
            (filter (fun e => isFile e && endsWith (dirent_name e) ".html") entries)).

Definition root (PUBLIC_DIR : string) (disk : Disk) : M Answer :=
  let indexPath := path_join PUBLIC_DIR "index.html" in
  match access disk indexPath with
  | None => ret (SentFile indexPath)
  | Some err =>
      if negb (String.eqb (fs_code err) "ENOENT") then
        reply <- error_middleware tt (fs_error err) ;; ret (fst reply)
      else
        match readdir disk PUBLIC_DIR with
        | inl err' => reply <- error_middleware tt (fs_error err') ;; ret (fst reply)
        | inr entries =>
            match htmlFiles entries with
            | [] => ret (Plain 404 "No HTML files found.")
            | first :: _ => ret (SentFile (path_join PUBLIC_DIR first))
            end
        end
  end.

(** A list of names in ascending order. *)
Fixpoint ascending (names : list string) : Prop :=
  match names with
  | [] => True
  | x :: rest => (forall y, In y rest -> name_leb x y = true) /\ ascending rest
  end.

(** A regular file whose name ends in [.html]. *)
Definition html_entry (e : Dirent) : bool :=
  isFile e && endsWith (dirent_name e) ".html".

(** An example directory without [index.html]. *)
Definition ENOENT : FsError :=
  mkFsError "ENOENT" (Error "ENOENT: no such file or directory").

Definition public_entries : list Dirent :=
  [mkDirent "style.css" true; mkDirent "login.html" true;
   mkDirent "archive.html" false; mkDirent "dashboard.html" true;
   mkDirent "Notes.html" true].

(** Two names that bytes and code units order differently: U+FF5E is
    the bytes EF BD 9E and one unit FF5E, U+1F600 is the bytes
    F0 9F 98 80 and the units D83D DE00. *)
Definition wave_html : string :=
  String (ascii_of_nat 239) (String (ascii_of_nat 189) (String (ascii_of_nat 158)
    ".html")).
Definition face_html : string :=
  String (ascii_of_nat 240) (String (ascii_of_nat 159) (String (ascii_of_nat 152)
    (String (ascii_of_nat 128) ".html"))).

Definition wide_entries : list Dirent :=
  [mkDirent wave_html true; mkDirent face_html true].

Definition wide_disk : Disk :=
  mkDisk (fun _ => Some ENOENT) (fun _ => inr wide_entries).

Definition public_disk : Disk :=
  mkDisk (fun _ => Some ENOENT) (fun _ => inr public_entries).

(** Neither NaN nor [-0]. *)
Definition presentable (n : Num.number) : bool :=
  match n with
  | S754_nan | S754_zero true => false
  | _ => true
  end.

(** The table after a request: as before, or with one more reading that
    the client took and that carries the text of [aqiData]. *)
Definition at_most_one_saved (reading_accepted : ReadingData -> bool)
    (readings saved : list ReadingData) : Prop :=
  saved = readings \/
  exists d, saved = (readings ++ [d])%list /\ reading_accepted d = true.

(** Example upstream answers. *)
Definition pollution_payload : value :=
  VObj [("list", VArr [VObj
    [("main", VObj [("aqi", VNum (Num.of_Z 3))]);
     ("components", VObj [("pm2_5", VNum (Num.of_decimal false 1234 (-2)));
                          ("pm10", VNum (Num.of_decimal false 4 (-2)));
                          ("no2", VStr "7.25");
                          ("o3", VNull)])]])].

Definition weather_payload : value :=
  VObj [("name", VStr "Pune");
        ("main", VObj [("temp", VNum (Num.of_decimal false 275 (-1)));
                       ("humidity", VNum (Num.of_Z 40))]);
        ("weather", VArr [VObj [("description", VStr "haze")]]);
        ("wind", VObj [("speed", VNum (Num.of_decimal false 25 (-1)))])].

Definition weather_payload_bare : value := VObj [("name", VStr "Pune")].

Definition upstream (pollution weather : FetchOutcome) : string -> FetchOutcome :=
  fun url =>
    if String.prefix "http://api.openweathermap.org/data/2.5/air_pollution" url
    then pollution else weather.

Definition replied (code : N) (v : value) : FetchOutcome :=
  Responded (mkResponse code (Parsed v)).

Definition text_of (r : HttpResponse) : string :=
  match body r with
  | Parsed v => match ToString v with inr s => s | inl _ => "" end
  | Unparsable msg => msg
  end.

Definition stringify_stub (_ : value) : string := "{...}".

Definition pune_env : Env :=
  env_of store1 (upstream (replied 200 pollution_payload) (replied 200 weather_payload)).

Definition pune_env_bare : Env :=
  env_of store1
    (upstream (replied 200 pollution_payload) (replied 200 weather_payload_bare)).

Definition pune_reading : ReadingData :=
  mkReadingData (VStr "Pune") (VNum (Num.of_decimal false 1234 (-2)))
    (VNum (Num.of_decimal false 4 (-2))) (VNum (Num.of_Z 3)) "{...}".

(** What the dashboard shows for the two example answers: 12.34 is
    shown as 12.3, 0.04 as 0, the text 7.25 as 7.3, null and the missing
    component as 0, 27.5 degrees as 28 and 2.5 m/s as 9 km/h. *)
Definition pune_data : CombinedData :=
  mkCombined (VStr "Pune") "10:30 AM UTC" (classify (VNum (Num.of_Z 3)))
    (mkComponents (Num.of_decimal false 123 (-1)) Num.zero
                  (Num.of_decimal false 73 (-1)) Num.zero Num.zero)
    (mkWeather (Num.of_Z 28) (VStr "haze") (VNum (Num.of_Z 40)) (Num.of_Z 9)).

Definition every_reading (_ : ReadingData) : bool := true.

(** * Properties *)

(** ** Numbers and text *)

Lemma append_assoc (a b c : string) : (a ++ b) ++ c = a ++ (b ++ c).
Proof.
  induction a as [| x a IH]; simpl; [reflexivity | now rewrite IH].
Qed.

Lemma SFcompare_swap (a b : spec_float) :
  SFcompare b a = option_map CompOpp (SFcompare a b).
Proof.
  destruct a as [sa | sa | | sa ma ea], b as [sb | sb | | sb mb eb];
    simpl; try reflexivity;
    try (destruct sa; reflexivity); try (destruct sb; reflexivity);
    try (destruct sa, sb; reflexivity).
  destruct sa, sb; simpl; try reflexivity;
    rewrite (Z.compare_antisym ea eb);
    destruct (ea ?= eb) eqn:E; simpl; try reflexivity;
    rewrite (Pos.compare_cont_antisym ma mb Eq); simpl;
    try rewrite CompOpp_involutive; reflexivity.
Qed.

Lemma le_not_gt (a b : Num.number) : Num.le a b = true -> Num.gt a b = false.
Proof.
  unfold Num.le, Num.gt, SFleb, SFltb. rewrite (SFcompare_swap a b).
  destruct (SFcompare a b) as [[ | | ] | ]; simpl; congruence.
Qed.

Lemma eqb_not_gt (a b : Num.number) : Num.eqb a b = true -> Num.gt a b = false.
Proof.
  unfold Num.eqb, Num.gt, SFeqb, SFltb. rewrite (SFcompare_swap a b).
  destruct (SFcompare a b) as [[ | | ] | ]; simpl; congruence.
Qed.

Lemma gt_irrefl (a : Num.number) : Num.gt a a = false.
Proof.
  unfold Num.gt, SFltb.
  destruct a as [s | s | | s m e]; simpl; try reflexivity; try (destruct s; reflexivity).
  destruct s; rewrite Z.compare_refl, Pos.compare_cont_refl; reflexivity.
Qed.

Lemma digits2_size (m : positive) : digits2_pos m = Pos.size m.
Proof. induction m; simpl; congruence. Qed.

Lemma digits2_bounds (m : positive) :
  2 ^ (Z.pos (digits2_pos m) - 1) <= Z.pos m < 2 ^ Z.pos (digits2_pos m).
Proof.
  rewrite digits2_size. split.
  - pose proof (Pos.size_le m) as H.
    assert (H' : 2 ^ Z.pos (Pos.size m) <= 2 * Z.pos m).
    { change 2 with (Z.pos 2) at 1. rewrite <- Pos2Z.inj_pow. 
      change (2 * Z.pos m) with (Z.pos m~0). now apply Pos2Z.pos_le_pos. }
    replace (Z.pos (Pos.size m)) with (Z.succ (Z.pos (Pos.size m) - 1)) in H' by lia.
    rewrite Z.pow_succ_r in H' by lia. lia.
  - pose proof (Pos.size_gt m) as H.
    change 2 with (Z.pos 2). rewrite <- Pos2Z.inj_pow. now apply Pos2Z.pos_lt_pos.
Qed.

Lemma canonical_cases (m : positive) (e : Z) :
  canonical_mantissa Num.prec Num.emax m e = true ->
  Z.pos (digits2_pos m) <= 53
  /\ -1074 <= e
  /\ (-1074 < e -> Z.pos (digits2_pos m) = 53).
Proof.
  unfold canonical_mantissa, fexp, emin, Num.prec, Num.emax. intros H.
  apply Z.eqb_eq in H. lia.
Qed.

Lemma cmp_exact_lt (m1 m2 : positive) (e1 e2 : Z) :
  canonical_mantissa Num.prec Num.emax m1 e1 = true ->
  canonical_mantissa Num.prec Num.emax m2 e2 = true ->
  e1 < e2 ->
  Z.pos m1 < Z.pos m2 * 2 ^ (e2 - e1).
Proof.
  intros C1 C2 L.
  apply canonical_cases in C1 as (D1 & E1 & _).
  apply canonical_cases in C2 as (_ & _ & D2). specialize (D2 ltac:(lia)).
  pose proof (digits2_bounds m1) as (_ & U1).
  pose proof (digits2_bounds m2) as (L2 & _). rewrite D2 in L2.
  assert (P1 : 2 ^ Z.pos (digits2_pos m1) <= 2 ^ 53) by (apply Z.pow_le_mono_r; lia).
  assert (P2 : 2 ^ 1 <= 2 ^ (e2 - e1)) by (apply Z.pow_le_mono_r; lia).
  change (2 ^ 1) with 2 in P2. change (53 - 1) with 52 in L2.
  assert (P3 : 2 ^ 53 = 2 * 2 ^ 52) by reflexivity.
  nia.
Qed.

Lemma cmp_positive (m1 m2 : positive) (e1 e2 : Z) :
  canonical_mantissa Num.prec Num.emax m1 e1 = true ->
  canonical_mantissa Num.prec Num.emax m2 e2 = true ->
  match e1 ?= e2 with
  | Lt => Lt
  | Gt => Gt
  | Eq => Pos.compare_cont Eq m1 m2
  end
  = (Z.pos m1 * 2 ^ (e1 - Z.min e1 e2) ?= Z.pos m2 * 2 ^ (e2 - Z.min e1 e2)).
Proof.
  intros C1 C2. destruct (Z.compare_spec e1 e2) as [E | L | G].
  - subst e2. rewrite Z.min_id, Z.sub_diag. simpl (2 ^ 0). rewrite !Z.mul_1_r.
    reflexivity.
  - rewrite Z.min_l, Z.sub_diag by lia. simpl (2 ^ 0). rewrite Z.mul_1_r.
    symmetry. apply Z.compare_lt_iff. now apply cmp_exact_lt.
  - rewrite Z.min_r, Z.sub_diag by lia. simpl (2 ^ 0). rewrite Z.mul_1_r.
    symmetry. apply Z.compare_gt_iff. now apply cmp_exact_lt.
Qed.

Lemma pow2_pos (n : Z) : 0 <= n -> 0 < 2 ^ n.
Proof. intros H. apply Z.pow_pos_nonneg; lia. Qed.

(** On the numbers binary64 has, [<] is the order of the values. *)
Lemma lt_exact (x y : Num.number) :
  Num.is_finite x = true -> Num.is_finite y = true ->
  Num.valid x = true -> Num.valid y = true ->
  (Num.lt x y = true <-> exactly_less x y).
Proof.
  unfold Num.lt, SFltb, exactly_less, Num.valid.
  destruct x as [sx | sx | | sx mx ex], y as [sy | sy | | sy my ey];
    try discriminate; intros _ _ Vx Vy; simpl in Vx, Vy;
    cbn [Num.mantissa Num.exponent SFcompare]; cbv zeta.
  - split; [discriminate | lia].
  - pose proof (pow2_pos (ey - Z.min 0 ey) ltac:(lia)) as H.
    set (a := 2 ^ (ey - Z.min 0 ey)) in *. pose proof (Pos2Z.is_pos my).
    destruct sy; cbn [cond_Zopp Z.opp]; split; intros; try discriminate;
      try reflexivity; try nia; exfalso; nia.
  - pose proof (pow2_pos (ex - Z.min ex 0) ltac:(lia)) as H.
    set (a := 2 ^ (ex - Z.min ex 0)) in *. pose proof (Pos2Z.is_pos mx).
    destruct sx; cbn [cond_Zopp Z.opp]; split; intros; try discriminate;
      try reflexivity; try nia; exfalso; nia.
  - apply andb_prop in Vx as (Cx & _). apply andb_prop in Vy as (Cy & _).
    pose proof (cmp_positive mx my ex ey Cx Cy) as P.
    pose proof (pow2_pos (ex - Z.min ex ey) ltac:(lia)) as Ha.
    pose proof (pow2_pos (ey - Z.min ex ey) ltac:(lia)) as Hb.
    set (a := 2 ^ (ex - Z.min ex ey)) in *. set (b := 2 ^ (ey - Z.min ex ey)) in *.
    pose proof (Pos2Z.is_pos mx). pose proof (Pos2Z.is_pos my).
    destruct sx, sy; cbn [cond_Zopp].
    + revert P. destruct (ex ?= ey); intros P;
        [rewrite P | symmetry in P; rewrite Z.compare_lt_iff in P
         | symmetry in P; rewrite Z.compare_gt_iff in P].
      * destruct (Z.compare_spec (Z.pos mx * a) (Z.pos my * b));
          cbn [CompOpp]; split; intros; try discriminate; try reflexivity;
            try lia; exfalso; lia.
      * split; [discriminate | intros; exfalso; lia].
      * split; [intros _; lia | reflexivity].
    + split; [intros _ | reflexivity]. nia.
    + split; [discriminate | intros; exfalso; nia].
    + rewrite P.
      destruct (Z.compare_spec (Z.pos mx * a) (Z.pos my * b));
        split; intros; try discriminate; try reflexivity; try lia; exfalso; lia.
Qed.

(** The thresholds and indices of the examples are numbers binary64
    has, and their order is the order of the integers. *)
Example exact_order_100_150 :
  Num.valid (Num.of_Z 100) = true /\ Num.valid (Num.of_Z 150) = true
  /\ exactly_less (Num.of_Z 100) (Num.of_Z 150)
  /\ Num.gt (Num.of_Z 150) (Num.of_Z 100) = true.
Proof. repeat split. Qed.

Example parseFloat_reads_back :
  parseFloat (VNum (Num.of_Z (-5))) = ok (Num.of_Z (-5))
  /\ parseFloat (VStr " 7.5 ppm") = ok (Num.of_decimal false 75 (-1))
  /\ parseFloat (VStr "abc") = ok Num.NaN
  /\ parseFloat (VArr [VStr "12"; VNull]) = ok (Num.of_Z 12).
Proof. repeat split. Qed.

Lemma contains_here (a rest : string) : contains a (a ++ rest).
Proof. exists EmptyString, rest. reflexivity. Qed.

Lemma contains_skip (a p s : string) : contains a s -> contains a (p ++ s).
Proof.
  intros (pre & post & ->). exists (p ++ pre), post. now rewrite append_assoc.
Qed.

Ltac find_part := repeat first [apply contains_here | apply contains_skip].

Lemma html_high_contains (u a t x : string) :
  contains a (html_high u a t x) /\ contains t (html_high u a t x).
Proof. unfold html_high. split; find_part. Qed.

Lemma html_safe_contains (u a t x : string) :
  contains a (html_safe u a t x) /\ contains t (html_safe u a t x).
Proof. unfold html_safe. split; find_part. Qed.

(** *** How a firing unfolds *)

Lemma logged_logged (w : World) (a b : list LogLine) :
  logged (logged w a) b = logged w (a ++ b).
Proof. unfold logged; simpl. now rewrite <- app_assoc. Qed.

Lemma check_lookup_throws env alert e w :
  findUnique (db env) (id alert) = fail e ->
  checkAqiAndSendAlert env alert w = Thrown e w.
Proof. intros H. unfold checkAqiAndSendAlert, bind. now rewrite H. Qed.

Lemma check_not_found env alert w :
  findUnique (db env) (id alert) = ok None ->
  checkAqiAndSendAlert env alert w
  = Returned tt (logged w [mkLog WARN ("Alert " ++ id alert ++ " not found.")]).
Proof. intros H. unfold checkAqiAndSendAlert, bind. now rewrite H. Qed.

Lemma check_found env alert found w :
  findUnique (db env) (id alert) = ok (Some found) ->
  checkAqiAndSendAlert env alert w = checkWithName env alert (userNameOf found) w.
Proof. intros H. unfold checkAqiAndSendAlert, bind. now rewrite H. Qed.

Lemma checkWithName_fetch_failed env alert userName e w :
  fetchLiveAqi env = fail e ->
  checkWithName env alert userName w
  = Returned tt (logged w [fetch_failure_line (alertEmail alert) e]).
Proof. intros H. unfold checkWithName, try_catch, bind. now rewrite H. Qed.

Lemma checkWithName_fetched env alert userName aqiData w :
  fetchLiveAqi env = ok aqiData ->
  checkWithName env alert userName w
  = (aqi <- lift (currentAqiValue aqiData) ;;
     v <- checkThreshold userName (alertEmail alert) (alertTime alert) aqi
            (threshold alert) ;;
     sendEmail env (alertEmail alert) v) w.
Proof. intros H. unfold checkWithName, try_catch, bind. now rewrite H. Qed.

(** Step 3 either throws in a conversion, leaving the world as it was,
    or returns a verdict after one console line. *)
Lemma checkThreshold_run userName recipientEmail time aqi thr w :
  (exists e, checkThreshold userName recipientEmail time aqi thr w = Thrown e w)
  \/ (exists v line,
        checkThreshold userName recipientEmail time aqi thr w
        = Returned v (logged w [line])).
Proof.
  unfold checkThreshold, bind, lift.
  destruct (Js.gt aqi thr) as [e | high]; [left; now exists e |].
  destruct (ToString aqi) as [e | shown]; [left; now exists e |].
  right. destruct high; simpl; eexists; eexists; reflexivity.
Qed.

Lemma sendEmail_run env recipientEmail v w :
  sendEmail env recipientEmail v w
  = Returned tt
      match resend env with
      | Some send =>
          logged (mailed w [alert_mail recipientEmail v])
                 (send_lines recipientEmail (send (alert_mail recipientEmail v)))
      | None => logged w [skipped_line recipientEmail]
      end.
Proof.
  unfold sendEmail. destruct (resend env) as [send |]; [| reflexivity].
  unfold try_catch, bind, emails_send, send_lines.
  destruct (send (alert_mail recipientEmail v)) as [r | e]; [| reflexivity].
  destruct (error_message r) as [msg |]; simpl.
  - unfold console_error, say. now rewrite logged_logged.
  - destruct (data_id r); reflexivity.
Qed.

Lemma checkWithName_bad_shape env alert userName aqiData e w :
  fetchLiveAqi env = ok aqiData ->
  currentAqiValue aqiData = fail e ->
  checkWithName env alert userName w = Thrown e w.
Proof.
  intros F C. rewrite (checkWithName_fetched _ _ _ _ _ F).
  unfold bind, lift. now rewrite C.
Qed.

Lemma checkWithName_step3_throws env alert userName aqiData aqi e w w1 :
  fetchLiveAqi env = ok aqiData ->
  currentAqiValue aqiData = ok aqi ->
  checkThreshold userName (alertEmail alert) (alertTime alert) aqi (threshold alert) w
  = Thrown e w1 ->
  checkWithName env alert userName w = Thrown e w1.
Proof.
  intros F C T. rewrite (checkWithName_fetched _ _ _ _ _ F).
  unfold bind, lift. rewrite C. unfold ok, ret. now rewrite T.
Qed.

Lemma checkWithName_notifies env alert userName aqiData aqi v w w1 :
  fetchLiveAqi env = ok aqiData ->
  currentAqiValue aqiData = ok aqi ->
  checkThreshold userName (alertEmail alert) (alertTime alert) aqi (threshold alert) w
  = Returned v w1 ->
  checkWithName env alert userName w = sendEmail env (alertEmail alert) v w1.
Proof.
  intros F C T. rewrite (checkWithName_fetched _ _ _ _ _ F).
  unfold bind, lift. rewrite C. unfold ok, ret. now rewrite T.
Qed.

(** What a firing leaves behind: the task table and the unhandled
    rejections as they were, the outbox as it was or with one more mail,
    sent to the address of the alert passed in and carrying the verdict
    step 3 reached with the threshold of that alert. *)
Lemma check_footprint env alert w :
  let w' := final_world (checkAqiAndSendAlert env alert w) in
  tasks w' = tasks w /\ unhandled w' = unhandled w
  /\ (outbox w' = outbox w
      \/ exists userName aqi v w1,
           resend env <> None
           /\ checkThreshold userName (alertEmail alert) (alertTime alert) aqi
                (threshold alert) w = Returned v w1
           /\ outbox w' = (outbox w ++ [alert_mail (alertEmail alert) v])%list).
Proof.
  cbv zeta.
  destruct (findUnique (db env) (id alert)) as [e | [found |]] eqn:L.
  - rewrite (check_lookup_throws _ _ _ _ L). simpl; auto.
  - rewrite (check_found _ _ _ _ L).
    destruct (fetchLiveAqi env) as [e | aqiData] eqn:F.
    { rewrite (checkWithName_fetch_failed _ _ _ _ _ F). simpl; auto. }
    destruct (currentAqiValue aqiData) as [e | aqi] eqn:C.
    { rewrite (checkWithName_bad_shape _ _ _ _ _ _ F C). simpl; auto. }
    destruct (checkThreshold_run (userNameOf found) (alertEmail alert)
                (alertTime alert) aqi (threshold alert) w)
      as [(e & T) | (v & line & T)].
    { rewrite (checkWithName_step3_throws _ _ _ _ _ _ _ _ F C T). simpl; auto. }
    rewrite (checkWithName_notifies _ _ _ _ _ _ _ _ F C T), sendEmail_run.
    destruct (resend env) eqn:R; simpl; [| auto].
    repeat split; try reflexivity. right.
    exists (userNameOf found), aqi, v, (logged w [line]).
    split; [congruence | split; [exact T | reflexivity]].
  - rewrite (check_not_found _ _ _ L). simpl; auto.
Qed.

(** A firing of a task: the same, and no rejection is left unhandled
    unless the check threw. *)
Lemma fire_running env t w :
  running t = true ->
  fire env t w = detached (checkAqiAndSendAlert env (job t)) w.
Proof. intros R. unfold fire. now rewrite R. Qed.

Lemma detached_returned (m : M unit) w w' :
  m w = Returned tt w' -> detached m w = Returned tt w'.
Proof. intros H. unfold detached. now rewrite H. Qed.


(** ** Step 3: the check against the threshold *)

Lemma checkThreshold_on_number userName recipientEmail time index thr w :
  exists line,
    checkThreshold userName recipientEmail time (VNum index) thr w
    = Returned
        (if Num.gt index thr
         then mkVerdict true subject_high
                (html_high userName (Num.toString index) (Num.toString thr) time)
         else mkVerdict false subject_safe
                (html_safe userName (Num.toString index) (Num.toString thr) time))
        (logged w [line]).
Proof.
  unfold checkThreshold, bind, lift, Js.gt, ToNumber, ToString, rbind, ok, ret.
  destruct (Num.gt index thr); simpl; eexists; reflexivity.
Qed.

(** C1. Step 3 of a firing takes the high branch exactly when the index
    read is strictly greater than the alert's threshold: it does not
    when the index is less than or equal to the threshold, in particular
    not when the two are equal, and in both branches the text of the
    message contains the index and the threshold as they are printed. *)
Theorem checkThreshold_strict (userName recipientEmail time : string)
    (index thr : Num.number) (w : World) :
  exists v w',
    checkThreshold userName recipientEmail time (VNum index) thr w = Returned v w'
    /\ triggered v = Num.gt index thr
    /\ (Num.le index thr = true -> triggered v = false)
    /\ (Num.eqb index thr = true -> triggered v = false)
    /\ (index = thr -> triggered v = false)
    /\ (Num.is_finite index = true -> Num.is_finite thr = true ->
        Num.valid index = true -> Num.valid thr = true ->
        (triggered v = true <-> exactly_less thr index))
    /\ subject v = (if triggered v then subject_high else subject_safe)
    /\ contains (Num.toString index) (htmlContent v)
    /\ contains (Num.toString thr) (htmlContent v).
Proof.
  destruct (checkThreshold_on_number userName recipientEmail time index thr w)
    as (line & E).
  eexists; eexists; split; [exact E |].
  assert (X : Num.is_finite index = true -> Num.is_finite thr = true ->
              Num.valid index = true -> Num.valid thr = true ->
              (Num.gt index thr = true <-> exactly_less thr index)).
  { intros Fi Ft Vi Vt. exact (lt_exact thr index Ft Fi Vt Vi). }
  destruct (Num.gt index thr) eqn:G; simpl.
  - split; [reflexivity |].
    split; [intros L; apply le_not_gt in L; congruence |].
    split; [intros L; apply eqb_not_gt in L; congruence |].
    split; [intros ->; rewrite gt_irrefl in G; discriminate |].
    split; [exact X |].
    split; [reflexivity | apply html_high_contains].
  - repeat (split; [reflexivity |]). split; [exact X |].
    split; [reflexivity | apply html_safe_contains].
Qed.

(** Threshold 100 and index 150: high, with both numbers in the text. *)
Example scenario_150_over_100 :
  exists v w',
    checkThreshold "Asha" "asha@example.org" "08:00" (VNum (Num.of_Z 150))
      (Num.of_Z 100) w0 = Returned v w'
    /\ triggered v = true /\ subject v = subject_high
    /\ contains "150" (htmlContent v) /\ contains "100" (htmlContent v).
Proof.
  destruct (checkThreshold_on_number "Asha" "asha@example.org" "08:00"
              (Num.of_Z 150) (Num.of_Z 100) w0) as (line & E).
  eexists; eexists; split; [exact E |].
  change (Num.gt (Num.of_Z 150) (Num.of_Z 100)) with true. cbv iota. simpl triggered.
  repeat (split; [reflexivity |]).
  apply (html_high_contains "Asha" "150" "100" "08:00").
Qed.

(** Threshold 100 and index 80: safe. Index 100: safe as well. *)
Example scenario_80_under_100 :
  exists v w',
    checkThreshold "Asha" "asha@example.org" "08:00" (VNum (Num.of_Z 80))
      (Num.of_Z 100) w0 = Returned v w'
    /\ triggered v = false /\ subject v = subject_safe.
Proof.
  destruct (checkThreshold_on_number "Asha" "asha@example.org" "08:00"
              (Num.of_Z 80) (Num.of_Z 100) w0) as (line & E).
  eexists; eexists; split; [exact E |]. split; reflexivity.
Qed.

Example scenario_100_at_100 :
  exists v w',
    checkThreshold "Asha" "asha@example.org" "08:00" (VNum (Num.of_Z 100))
      (Num.of_Z 100) w0 = Returned v w'
    /\ triggered v = false.
Proof.
  destruct (checkThreshold_on_number "Asha" "asha@example.org" "08:00"
              (Num.of_Z 100) (Num.of_Z 100) w0) as (line & E).
  eexists; eexists; split; [exact E |]. reflexivity.
Qed.

(** ** Step 4: the notification *)


(** A refused mail: one mail handed over, two error lines, no retry. *)
Example refused_mail_is_logged :
  checkAqiAndSendAlert
    (mkEnv "KEY" store1 (answers (payload_of (VNum (Num.of_Z 150)))) (Some refuses))
    rule1 w0
  = Returned tt
      (mkWorld
         [mkLog LOG "ALERT TRIGGERED for asha@example.org! AQI: 150 > Threshold: 100";
          mkLog ERROR
            "RESEND API FAILURE: { name: 'validation_error', message: 'domain not verified' }";
          mkLog ERROR "Resend Email Error (Final): domain not verified"]
         [mkEmail "BreathWise Alerts <onboarding@resend.dev>" "asha@example.org"
                  subject_high (html_high "Asha" "150" "100" "08:00")]
         [] []).
Proof. vm_compute. reflexivity. Qed.

(** No mail client: a line on the console, nothing sent. *)
Example skipped_without_mail_client :
  checkAqiAndSendAlert
    (mkEnv "KEY" store1 (answers (payload_of (VNum (Num.of_Z 2)))) None) rule1 w0
  = Returned tt
      (mkWorld
         [mkLog LOG "All Clear for asha@example.org. Current AQI (2) is safe.";
          mkLog LOG "Email sending skipped for asha@example.org due to missing RESEND_API_KEY."]
         [] [] []).
Proof. vm_compute. reflexivity. Qed.

(** ** Step 2: the fetch *)

Lemma transport_failure_fails env :
  transport_failure env = true -> exists e, fetchLiveAqi env = fail e.
Proof.
  unfold transport_failure, fetchLiveAqi.
  destruct (fetch env (aqiUrl env)) as [msg | r]; [intros _; eexists; reflexivity |].
  destruct (response_ok r); simpl; [| intros _; eexists; reflexivity].
  destruct (body r); [discriminate | intros _; eexists; reflexivity].
Qed.

(** C4, as the code has it. When the alert's row is found and the
    request fails in transport (the fetch rejects, the status is not a
    success, or the body is not JSON), the firing of a running task
    logs one error line and returns: no mail is handed over, no
    rejection is left unhandled and the task table is as it was. *)
Theorem transport_failure_aborts (env : Env) (t : Task) (found : AlertWithUser)
    (w : World) :
  running t = true ->
  findUnique (db env) (id (job t)) = ok (Some found) ->
  transport_failure env = true ->
  exists e,
    fetchLiveAqi env = fail e
    /\ fire env t w
       = Returned tt (logged w [fetch_failure_line (alertEmail (job t)) e])
    /\ outbox (final_world (fire env t w)) = outbox w
    /\ unhandled (final_world (fire env t w)) = unhandled w
    /\ tasks (final_world (fire env t w)) = tasks w.
Proof.
  intros R L T. destruct (transport_failure_fails env T) as (e & F).
  exists e. split; [exact F |].
  assert (E : fire env t w
              = Returned tt (logged w [fetch_failure_line (alertEmail (job t)) e])).
  { rewrite (fire_running _ _ _ R). apply detached_returned.
    rewrite (check_found _ _ _ _ L). now apply checkWithName_fetch_failed. }
  rewrite E. repeat split.
Qed.

Lemma transport_failure_aborts_on_network_error :
  running (new_task rule1) = true
  /\ findUnique (db (env_of store1 (fun _ => NetworkFailure "fetch failed")))
       (id (job (new_task rule1)))
     = ok (Some (mkAlertWithUser (Some (Some "Asha")) "asha@example.org"))
  /\ transport_failure (env_of store1 (fun _ => NetworkFailure "fetch failed")) = true
  /\ exists e,
       fetchLiveAqi (env_of store1 (fun _ => NetworkFailure "fetch failed")) = fail e
       /\ fire (env_of store1 (fun _ => NetworkFailure "fetch failed")) (new_task rule1) w0
          = Returned tt (logged w0 [fetch_failure_line "asha@example.org" e])
       /\ outbox (final_world (fire (env_of store1 (fun _ => NetworkFailure "fetch failed"))
                                 (new_task rule1) w0)) = []
       /\ unhandled (final_world (fire (env_of store1 (fun _ => NetworkFailure "fetch failed"))
                                    (new_task rule1) w0)) = []
       /\ tasks (final_world (fire (env_of store1 (fun _ => NetworkFailure "fetch failed"))
                                (new_task rule1) w0)) = [].
Proof.
  split; [reflexivity |]. split; [reflexivity |]. split; [reflexivity |].
  exact (transport_failure_aborts
           (env_of store1 (fun _ => NetworkFailure "fetch failed")) (new_task rule1)
           (mkAlertWithUser (Some (Some "Asha")) "asha@example.org") w0
           eq_refl eq_refl eq_refl).
Defined.

(** C4, as it is stated, fails on payloads of another shape. With
    [{ list: [ { main: {} } ] }] the index is [undefined], the
    comparison is false and the "safe" mail goes out; with [{}] the
    property access throws outside the [try] and the rejection is left
    unhandled. *)
Lemma shape_mismatch_is_not_caught :
  reading_fetch_fails (env_of store1 (answers payload_without_aqi)) = true
  /\ map mail_subject
       (outbox (final_world (fire (env_of store1 (answers payload_without_aqi))
                               (new_task rule1) w0)))
     = [subject_safe]
  /\ reading_fetch_fails (env_of store1 (answers payload_empty)) = true
  /\ unhandled (final_world (fire (env_of store1 (answers payload_empty))
                               (new_task rule1) w0))
     = [TypeError "Cannot read properties of undefined (reading '0')"].
Proof. vm_compute. repeat split. Qed.

(** ** Step 1: the lookup *)

(** C5, as the code has it. The lookup of the alert's row decides: when
    it throws, the check throws with it and leaves the world as it was;
    when it finds no row, the check returns and the warning is all it
    leaves: no other line, no mail, no change of the tasks; when it
    finds the row without a user, or with a user whose name is missing
    or empty, the check goes on with the name [User]. *)
Theorem lookup_outcomes (env : Env) (alert : Alert) (w : World) :
  (forall e, findUnique (db env) (id alert) = fail e ->
             checkAqiAndSendAlert env alert w = Thrown e w)
  /\ (findUnique (db env) (id alert) = ok None ->
      checkAqiAndSendAlert env alert w
      = Returned tt (logged w [mkLog WARN ("Alert " ++ id alert ++ " not found.")]))
  /\ (forall found,
         findUnique (db env) (id alert) = ok (Some found) ->
         sel_user found = None \/ sel_user found = Some None
         \/ sel_user found = Some (Some "") ->
         checkAqiAndSendAlert env alert w = checkWithName env alert "User" w).
Proof.
  split; [intros e L; now apply check_lookup_throws |].
  split; [intros L; now apply check_not_found |].
  intros found L U. rewrite (check_found _ _ _ _ L). f_equal.
  unfold userNameOf. destruct U as [-> | [-> | ->]]; reflexivity.
Qed.

(** A user without a name is greeted as [User]. *)
Example nameless_user_gets_placeholder :
  map mail_html
    (outbox (final_world
               (checkAqiAndSendAlert
                  (env_of (mkStore true people [rule_anonymous])
                          (answers (payload_of (VNum (Num.of_Z 2)))))
                  rule_anonymous w0)))
  = [html_safe "User" "2" "3" "06:45"].
Proof. vm_compute. reflexivity. Qed.

(** C5, as it is stated, fails: with the row gone the check stops at a
    warning, and with the database down it throws, although the fetch
    and the mail client would both answer; with the row there the same
    surroundings send the mail. *)
Lemma lookup_failure_ends_the_check :
  checkAqiAndSendAlert
    (env_of (mkStore true people []) (answers (payload_of (VNum (Num.of_Z 150)))))
    rule1 w0
  = Returned tt (mkWorld [mkLog WARN "Alert a1 not found."] [] [] [])
  /\ checkAqiAndSendAlert
       (env_of store_down1 (answers (payload_of (VNum (Num.of_Z 150))))) rule1 w0
     = Thrown store_down w0
  /\ map mail_to
       (outbox (final_world
                  (checkAqiAndSendAlert
                     (env_of store1 (answers (payload_of (VNum (Num.of_Z 150)))))
                     rule1 w0)))
     = ["asha@example.org"].
Proof. vm_compute. repeat split. Qed.

(** ** The snapshot a timer holds *)

Lemma find_edited (key : string) (l1 l2 : list Alert) :
  Forall2 same_alert l1 l2 ->
  match find (fun a => String.eqb (id a) key) l1,
        find (fun a => String.eqb (id a) key) l2 with
  | Some a, Some b => userId a = userId b
  | None, None => True
  | _, _ => False
  end.
Proof.
  induction 1 as [| a b l1 l2 (I & U) _ IH]; simpl; [exact I |].
  rewrite <- I. destruct (String.eqb (id a) key); [exact U | exact IH].
Qed.

(** The lookup sees the same user behind an edited row. *)
Lemma findUnique_edited (s1 s2 : Store) (key : string) :
  edited s1 s2 ->
  match findUnique s1 key, findUnique s2 key with
  | inl e1, inl e2 => e1 = e2
  | inr None, inr None => True
  | inr (Some f1), inr (Some f2) => sel_user f1 = sel_user f2
  | _, _ => False
  end.
Proof.
  intros (R & U & A). unfold findUnique. rewrite <- R, <- U.
  destruct (reachable s1); simpl; [| reflexivity].
  pose proof (find_edited key _ _ A) as H.
  destruct (find _ (alerts s1)), (find _ (alerts s2)); simpl; try exact H.
  now rewrite H.
Qed.

Lemma check_edited env store' alert w :
  edited (db env) store' ->
  checkAqiAndSendAlert (with_db env store') alert w = checkAqiAndSendAlert env alert w.
Proof.
  intros E. pose proof (findUnique_edited _ _ (id alert) E) as H.
  unfold checkAqiAndSendAlert, bind. simpl db.
  destruct (findUnique (db env) (id alert)) as [e1 | [f1 |]],
           (findUnique store' (id alert)) as [e2 | [f2 |]];
    simpl in *; try contradiction; try reflexivity.
  - now subst.
  - unfold userNameOf. rewrite H. reflexivity.
Qed.

(** C8, as the code has it. A firing works with the alert object its
    task holds: a mail it sends goes to that object's [alertEmail] and
    carries the verdict reached with that object's threshold. The
    database is read once, by the alert's id, for the owner's name; edits
    of the stored row that keep its id and owner change nothing in the
    firing. *)
Theorem firing_uses_snapshot (env : Env) (store' : Store) (t : Task) (w : World) :
  edited (db env) store' ->
  fire (with_db env store') t w = fire env t w
  /\ (outbox (final_world (fire env t w)) = outbox w
      \/ exists userName aqi v w1,
           checkThreshold userName (alertEmail (job t)) (alertTime (job t)) aqi
             (threshold (job t)) w = Returned v w1
           /\ outbox (final_world (fire env t w))
              = (outbox w ++ [mkEmail "BreathWise Alerts <onboarding@resend.dev>"
                                      (alertEmail (job t)) (subject v) (htmlContent v)])%list).
Proof.
  intros E. split.
  - unfold fire. destruct (running t); [| reflexivity].
    unfold detached. now rewrite (check_edited _ _ _ _ E).
  - unfold fire. destruct (running t); [| left; reflexivity].
    pose proof (check_footprint env (job t) w) as (_ & _ & F). cbv zeta in F.
    unfold detached.
    destruct (checkAqiAndSendAlert env (job t) w) as [[] w' | e w']; simpl in *;
      (destruct F as [O | (u & aqi & v & w1 & _ & T & O)];
       [left; exact O | right; exists u, aqi, v, w1; split; [exact T | exact O]]).
Qed.

Lemma firing_uses_snapshot_after_edit :
  edited (db (env_of store1 (answers (payload_of (VNum (Num.of_Z 5)))))) store_edited
  /\ fire (with_db (env_of store1 (answers (payload_of (VNum (Num.of_Z 5))))) store_edited)
          (new_task rule1) w0
     = fire (env_of store1 (answers (payload_of (VNum (Num.of_Z 5))))) (new_task rule1) w0.
Proof.
  assert (E : edited (db (env_of store1 (answers (payload_of (VNum (Num.of_Z 5))))))
                     store_edited).
  { repeat split. repeat constructor. }
  split; [exact E |].
  exact (proj1 (firing_uses_snapshot
                  (env_of store1 (answers (payload_of (VNum (Num.of_Z 5)))))
                  store_edited (new_task rule1) w0 E)).
Defined.

(** The database holds threshold 4 after the edit, the index is 5, and
    the mail still says "safe", to the old address: the task's own
    threshold of 100 decides. *)
Example edited_threshold_is_not_seen :
  map (fun m => (mail_to m, mail_subject m))
    (outbox (final_world
               (fire (env_of store_edited (answers (payload_of (VNum (Num.of_Z 5)))))
                     (new_task rule1) w0)))
  = [("asha@example.org", subject_safe)].
Proof. vm_compute. reflexivity. Qed.

(** C8, as it is stated, fails where it says that the rule is never read
    again at fire time: the firing looks the row up by id. After a
    change of the row's owner the same task greets another person, and
    after the removal of the row it sends nothing. *)
Lemma firing_reads_the_row_again :
  map mail_html
    (outbox (final_world
               (fire (env_of store1 (answers (payload_of (VNum (Num.of_Z 5)))))
                     (new_task rule1) w0)))
  = [html_safe "Asha" "5" "100" "08:00"]
  /\ map mail_html
       (outbox (final_world
                  (fire (env_of store_reassigned (answers (payload_of (VNum (Num.of_Z 5)))))
                        (new_task rule1) w0)))
     = [html_safe "Ravi" "5" "100" "08:00"]
  /\ fire (env_of store_reassigned (answers (payload_of (VNum (Num.of_Z 5)))))
          (new_task rule1) w0
     <> fire (env_of store1 (answers (payload_of (VNum (Num.of_Z 5)))))
             (new_task rule1) w0
  /\ fire (env_of store_emptied (answers (payload_of (VNum (Num.of_Z 5)))))
          (new_task rule1) w0
     = Returned tt (mkWorld [mkLog WARN "Alert a1 not found."] [] [] []).
Proof.
  split; [vm_compute; reflexivity |]. split; [vm_compute; reflexivity |].
  split; [| vm_compute; reflexivity].
  intros H. apply (f_equal (fun o => map mail_html (outbox (final_world o)))) in H.
  vm_compute in H. discriminate H.
Qed.

(** ** The rebuild *)

Section Rebuild.

Variable valid_expression : string -> bool.

Lemma scheduled_nil w : scheduled w [] = w.
Proof. destruct w. unfold scheduled; simpl. now rewrite !app_nil_r. Qed.

Lemma scheduled_cons w a l :
  scheduled (scheduled w [a]) l = scheduled w (a :: l).
Proof. unfold scheduled; simpl. now rewrite <- !app_assoc. Qed.

Lemma schedule_alert_accepted a w :
  accepted valid_expression a = true ->
  schedule_alert valid_expression a w = Returned tt (scheduled w [a]).
Proof.
  intros H. unfold schedule_alert, bind, cron_schedule.
  unfold accepted in H. now rewrite H.
Qed.

Lemma schedule_alert_rejected a w :
  accepted valid_expression a = false ->
  schedule_alert valid_expression a w
  = Thrown (Error (cronSchedule a ++ " is a invalid expression")) w.
Proof.
  intros H. unfold schedule_alert, bind, cron_schedule.
  unfold accepted in H. now rewrite H.
Qed.

(** The loop schedules every alert when all are accepted. *)
Lemma forEach_all_accepted l w :
  forallb (accepted valid_expression) l = true ->
  forEach l (schedule_alert valid_expression) w = Returned tt (scheduled w l).
Proof.
  revert w. induction l as [| a l IH]; intros w H.
  - simpl. now rewrite scheduled_nil.
  - simpl in H. apply andb_prop in H as (Ha & Hl).
    simpl. unfold bind. rewrite (schedule_alert_accepted _ _ Ha), (IH _ Hl).
    now rewrite scheduled_cons.
Qed.

(** The loop ends at the first alert that is not accepted. *)
Lemma forEach_first_rejected pre bad post w :
  forallb (accepted valid_expression) pre = true ->
  accepted valid_expression bad = false ->
  forEach (pre ++ bad :: post) (schedule_alert valid_expression) w
  = Thrown (Error (cronSchedule bad ++ " is a invalid expression")) (scheduled w pre).
Proof.
  revert w. induction pre as [| a pre IH]; intros w Hp Hb.
  - simpl. unfold bind. rewrite (schedule_alert_rejected _ _ Hb).
    now rewrite scheduled_nil.
  - simpl in Hp. apply andb_prop in Hp as (Ha & Hp).
    simpl. unfold bind. rewrite (schedule_alert_accepted _ _ Ha), (IH _ Hp Hb).
    now rewrite scheduled_cons.
Qed.

Lemma setupCronJobs_store_down store w :
  reachable store = false ->
  setupCronJobs valid_expression store w = Thrown store_down (stopped w).
Proof.
  intros R. unfold setupCronJobs, bind, stop_all_tasks, findMany. now rewrite R.
Qed.

Lemma setupCronJobs_all_accepted store w :
  reachable store = true ->
  forallb (accepted valid_expression) (alerts store) = true ->
  setupCronJobs valid_expression store w
  = Returned tt (scheduled (stopped w) (alerts store)).
Proof.
  intros R H. unfold setupCronJobs, bind, stop_all_tasks, findMany. rewrite R.
  simpl. now apply forEach_all_accepted.
Qed.

Lemma setupCronJobs_first_rejected store pre bad post w :
  reachable store = true ->
  alerts store = (pre ++ bad :: post)%list ->
  forallb (accepted valid_expression) pre = true ->
  accepted valid_expression bad = false ->
  setupCronJobs valid_expression store w
  = Thrown (Error (cronSchedule bad ++ " is a invalid expression"))
           (scheduled (stopped w) pre).
Proof.
  intros R A Hp Hb. unfold setupCronJobs, bind, stop_all_tasks, findMany.
  rewrite R, A. simpl. now apply forEach_first_rejected.
Qed.

End Rebuild.

Lemma active_stopped w : active (stopped w) = [].
Proof.
  unfold active, stopped; simpl. induction (tasks w); simpl; auto.
Qed.

Lemma active_scheduled w l : active (scheduled w l) = (active w ++ map new_task l)%list.
Proof.
  unfold active, scheduled; simpl. rewrite filter_app. f_equal.
  induction l; simpl; [reflexivity | now f_equal].
Qed.

Lemma job_new_task l : map job (map new_task l) = l.
Proof. induction l; simpl; [reflexivity | now f_equal]. Qed.

(** C3, as the code has it. The rebuild stops every task before it asks
    the database for the alerts: when that query fails the rebuild
    throws, every task of the table is stopped, none is running and none
    was added. *)
Theorem store_failure_leaves_no_timer (valid_expression : string -> bool)
    (store : Store) (w : World) :
  reachable store = false ->
  (exists e, setupCronJobs valid_expression store w = Thrown e (stopped w))
  /\ active (final_world (setupCronJobs valid_expression store w)) = []
  /\ tasks (final_world (setupCronJobs valid_expression store w)) = map stop (tasks w).
Proof.
  intros R. rewrite (setupCronJobs_store_down _ _ _ R). simpl.
  split; [now exists store_down |]. split; [apply active_stopped | reflexivity].
Qed.

Lemma store_failure_leaves_no_timer_running_world :
  reachable store_down1 = false
  /\ (exists e, setupCronJobs daily_expression store_down1 world_running
                = Thrown e (stopped world_running))
  /\ active (final_world (setupCronJobs daily_expression store_down1 world_running)) = []
  /\ tasks (final_world (setupCronJobs daily_expression store_down1 world_running))
     = map stop (tasks world_running).
Proof.
  split; [reflexivity |].
  exact (store_failure_leaves_no_timer daily_expression store_down1 world_running eq_refl).
Defined.

(** C3, as it is stated, fails: the timer that was running before the
    failed rebuild is not running after it. *)
Lemma store_failure_clears_the_schedule :
  active world_running = [new_task rule1]
  /\ active (final_world (setupCronJobs daily_expression store_down1 world_running)) = []
  /\ active (final_world (setupCronJobs daily_expression store_down1 world_running))
     <> active world_running.
Proof.
  split; [reflexivity |]. split; [reflexivity |]. vm_compute. discriminate.
Qed.

(** C2, as the code has it. When the cron library refuses the
    expression of an alert, the rebuild throws at the first such alert:
    the alerts before it have their timers, that alert and the alerts
    after it have none, and the console got the lines of the scheduled
    alerts only, no warning. *)
Theorem rebuild_stops_at_first_refused (valid_expression : string -> bool)
    (store : Store) (pre : list Alert) (bad : Alert) (post : list Alert) (w : World) :
  reachable store = true ->
  alerts store = (pre ++ bad :: post)%list ->
  forallb (fun a => valid_expression (cronSchedule a)) pre = true ->
  valid_expression (cronSchedule bad) = false ->
  (exists e, setupCronJobs valid_expression store w
             = Thrown e (scheduled (stopped w) pre))
  /\ map job (active (final_world (setupCronJobs valid_expression store w))) = pre
  /\ console (final_world (setupCronJobs valid_expression store w))
     = (console w ++ map scheduled_line pre)%list.
Proof.
  intros R A Hp Hb.
  rewrite (setupCronJobs_first_rejected _ _ _ _ _ _ R A Hp Hb). simpl final_world.
  split; [eexists; reflexivity |]. split; [| reflexivity].
  rewrite active_scheduled, active_stopped. simpl app. apply job_new_task.
Qed.

Lemma rebuild_stops_at_first_refused_of_three :
  reachable store_three = true
  /\ alerts store_three = ([rule1] ++ rule_bogus :: [rule2])%list
  /\ forallb (fun a => daily_expression (cronSchedule a)) [rule1] = true
  /\ daily_expression (cronSchedule rule_bogus) = false
  /\ (exists e, setupCronJobs daily_expression store_three w0
                = Thrown e (scheduled (stopped w0) [rule1]))
  /\ map job (active (final_world (setupCronJobs daily_expression store_three w0)))
     = [rule1]
  /\ console (final_world (setupCronJobs daily_expression store_three w0))
     = (console w0 ++ map scheduled_line [rule1])%list.
Proof.
  split; [reflexivity |]. split; [reflexivity |].
  split; [reflexivity |]. split; [reflexivity |].
  exact (rebuild_stops_at_first_refused daily_expression store_three [rule1]
           rule_bogus [rule2] w0 eq_refl eq_refl eq_refl eq_refl).
Defined.

(** C2, as it is stated, fails: with a malformed alert ahead of a
    well-formed one the rebuild throws, the well-formed alert gets no
    timer and the console stays empty: no warning. *)
Lemma malformed_rule_breaks_the_rebuild :
  well_formed rule_bogus = false /\ well_formed rule2 = true
  /\ cronSchedule rule_bogus = "undefined bogus * * *"
  /\ returned (setupCronJobs daily_expression store_bad_first w0) = false
  /\ active (final_world (setupCronJobs daily_expression store_bad_first w0)) = []
  /\ console (final_world (setupCronJobs daily_expression store_bad_first w0)) = [].
Proof. vm_compute. repeat split. Qed.

(** Whatever the cron library does with the malformed expression, the
    rebuild does not skip that alert and keep the other: either it
    throws, or the malformed alert has a timer. *)
Lemma malformed_rule_never_skipped (valid_expression : string -> bool) :
  ~ (returned (setupCronJobs valid_expression store_bad_first w0) = true
     /\ map job (active (final_world (setupCronJobs valid_expression store_bad_first w0)))
        = [rule2]).
Proof.
  intros (Hr & Hj).
  destruct (valid_expression (cronSchedule rule_bogus)) eqn:B.
  - destruct (valid_expression (cronSchedule rule2)) eqn:G.
    + rewrite (setupCronJobs_all_accepted valid_expression store_bad_first w0) in Hj.
      * vm_compute in Hj. discriminate Hj.
      * reflexivity.
      * unfold accepted; simpl. now rewrite B, G.
    + rewrite (setupCronJobs_first_rejected valid_expression store_bad_first
                 [rule_bogus] rule2 [] w0) in Hr; try reflexivity; try assumption.
      * discriminate Hr.
      * unfold accepted; simpl. now rewrite B.
  - rewrite (setupCronJobs_first_rejected valid_expression store_bad_first
               [] rule_bogus [rule2] w0) in Hr; try reflexivity; try assumption.
    discriminate Hr.
Qed.

(** C6, as the code has it. When the database answers and the cron
    library takes the expression of every alert, the running timers
    after a rebuild are those of the alerts returned, one each and in
    that order; a second rebuild over the same alerts leaves again one
    running timer per alert, and the stopped tasks of the first stay in
    the library's table. *)
Theorem rebuild_one_timer_per_rule (valid_expression : string -> bool)
    (store : Store) (w : World) :
  reachable store = true ->
  forallb (fun a => valid_expression (cronSchedule a)) (alerts store) = true ->
  let w1 := final_world (setupCronJobs valid_expression store w) in
  let w2 := final_world (setupCronJobs valid_expression store w1) in
  returned (setupCronJobs valid_expression store w) = true
  /\ returned (setupCronJobs valid_expression store w1) = true
  /\ active w1 = map new_task (alerts store)
  /\ List.length (active w1) = List.length (alerts store)
  /\ active w2 = map new_task (alerts store)
  /\ map job (active w2) = alerts store
  /\ List.length (tasks w2)
     = (List.length (tasks w) + 2 * List.length (alerts store))%nat.
Proof.
  intros R H. cbv zeta.
  rewrite (setupCronJobs_all_accepted _ _ w R H). simpl final_world.
  rewrite (setupCronJobs_all_accepted _ _ _ R H). simpl final_world.
  rewrite !active_scheduled, !active_stopped. simpl app.
  repeat split.
  - now rewrite length_map.
  - apply job_new_task.
  - unfold scheduled, stopped; simpl.
    rewrite !length_app, !length_map, length_app, !length_map. lia.
Qed.

Lemma rebuild_one_timer_per_rule_twice :
  reachable store_two = true
  /\ forallb (fun a => daily_expression (cronSchedule a)) (alerts store_two) = true
  /\ active (final_world (setupCronJobs daily_expression store_two w0))
     = map new_task (alerts store_two)
  /\ map job
       (active (final_world
                  (setupCronJobs daily_expression store_two
                     (final_world (setupCronJobs daily_expression store_two w0)))))
     = alerts store_two
  /\ List.length
       (tasks (final_world
                 (setupCronJobs daily_expression store_two
                    (final_world (setupCronJobs daily_expression store_two w0)))))
     = 4%nat.
Proof.
  split; [reflexivity |]. split; [reflexivity |].
  pose proof (rebuild_one_timer_per_rule daily_expression store_two w0 eq_refl eq_refl)
    as (_ & _ & A1 & _ & _ & J2 & L2).
  split; [exact A1 |]. split; [exact J2 | exact L2].
Defined.

(** C6, as it is stated, fails on a rule set with a malformed alert:
    one alert of the two is well-formed, and no timer is running after
    the rebuild. *)
Lemma malformed_rule_leaves_too_few_timers :
  List.length (filter well_formed (alerts store_bad_first)) = 1%nat
  /\ List.length
       (active (final_world (setupCronJobs daily_expression store_bad_first w0)))
     = 0%nat
  /\ List.length
       (active (final_world (setupCronJobs daily_expression store_bad_first w0)))
     <> List.length (filter well_formed (alerts store_bad_first)).
Proof. vm_compute. repeat split. discriminate. Qed.

(** With a cron library that takes the well-formed expression of the
    example, the count of running timers is 0 or 2, never the 1 the
    statement asks for. *)
Lemma malformed_rule_count_is_off (valid_expression : string -> bool) :
  valid_expression (cronSchedule rule2) = true ->
  List.length
    (active (final_world (setupCronJobs valid_expression store_bad_first w0)))
  <> 1%nat.
Proof.
  intros G. destruct (valid_expression (cronSchedule rule_bogus)) eqn:B.
  - rewrite (setupCronJobs_all_accepted valid_expression store_bad_first w0);
      [vm_compute; discriminate | reflexivity | unfold accepted; simpl; now rewrite B, G].
  - rewrite (setupCronJobs_first_rejected valid_expression store_bad_first
               [] rule_bogus [rule2] w0); try reflexivity; try assumption.
    vm_compute; discriminate.
Qed.

(** ** Alert creation *)

Section Creation.

Variable float_accepted : Num.number -> bool.

Lemma destructure_same_object (body : value) (from k1 k2 : string) (v : value) :
  destructure body from k1 = ok v -> exists v', destructure body from k2 = ok v'.
Proof.
  destruct body; simpl; try discriminate; intros _; eexists; reflexivity.
Qed.

Lemma create_row store fresh d row store' :
  create float_accepted store fresh d = ok (row, store') ->
  threshold row = data_threshold d
  /\ float_accepted (data_threshold d) = true
  /\ alerts store' = (alerts store ++ [row])%list.
Proof.
  unfold create. destruct (reachable store); simpl; [| discriminate].
  destruct (data_alertTime d); try discriminate.
  destruct (data_pollutant d); try discriminate.
  destruct (data_alertEmail d); try discriminate.
  destruct (float_accepted (data_threshold d)); simpl; [| discriminate].
  destruct (existsb _ (users store)); simpl; [| discriminate].
  destruct (existsb _ (alerts store)); simpl; [discriminate |].
  intros H. injection H as <- <-. simpl. auto.
Qed.

End Creation.

(** C10, as the code has it. A request whose [threshold] is falsy (the
    number 0, the empty string, [null], [false], or no such member) is
    answered with status 400 and the missing-details message: nothing is
    stored, nothing is scheduled, nothing is logged. *)
Theorem falsy_threshold_rejected (valid_expression : string -> bool)
    (float_accepted : Num.number -> bool) (store : Store) (fresh uid : string)
    (body thr : value) (w : World) :
  destructure body "req.body" "threshold" = ok thr ->
  truthy thr = false ->
  post_alert valid_expression float_accepted store fresh uid body w
  = Returned
      (ReplyError 400
         "Missing required alert details (Time, Pollutant, Threshold, Email).",
       store) w.
Proof.
  intros G T.
  destruct (destructure_same_object body "req.body" "threshold" "alertTime" thr G) as (time & Gt).
  destruct (destructure_same_object body "req.body" "threshold" "pollutant" thr G) as (pol & Gp).
  destruct (destructure_same_object body "req.body" "threshold" "alertEmail" thr G) as (mail & Gm).
  unfold post_alert, try_catch, bind. rewrite Gt, Gp, G, Gm. simpl.
  rewrite T. simpl. rewrite !orb_true_r. simpl. reflexivity.
Qed.

Lemma falsy_threshold_rejected_number_zero :
  destructure (body_with (VNum Num.zero)) "req.body" "threshold" = ok (VNum Num.zero)
  /\ truthy (VNum Num.zero) = false
  /\ post_alert daily_expression Num.is_finite store1 "a9" "u1"
       (body_with (VNum Num.zero)) w0
     = Returned
         (ReplyError 400
            "Missing required alert details (Time, Pollutant, Threshold, Email).",
          store1) w0.
Proof.
  split; [reflexivity |]. split; [reflexivity |].
  exact (falsy_threshold_rejected daily_expression Num.is_finite store1 "a9" "u1"
           (body_with (VNum Num.zero)) (VNum Num.zero) w0 eq_refl eq_refl).
Defined.

Example empty_text_threshold_rejected :
  post_alert daily_expression Num.is_finite store1 "a9" "u1" (body_with (VStr "")) w0
  = Returned (ReplyError 400 missing_details, store1) w0.
Proof. reflexivity. Qed.

(** C10, as it is stated, fails where it concludes that no alert with
    threshold 0 can be created: the text ["0"] is truthy, [parseFloat]
    turns it into 0, and the alert is stored with threshold 0. *)
Lemma zero_threshold_from_text :
  truthy (VStr "0") = true
  /\ exists store' w',
       post_alert daily_expression Num.is_finite store1 "a9" "u1"
         (body_with (VStr "0")) w0
       = Returned
           (ReplyCreated "Alert created successfully and scheduled."
              (mkAlert "a9" "u1" "09:15" "aqi" Num.zero "asha@example.org"),
            store') w'
       /\ alerts store'
          = [rule1; mkAlert "a9" "u1" "09:15" "aqi" Num.zero "asha@example.org"].
Proof.
  split; [reflexivity |]. eexists; eexists. split; vm_compute; reflexivity.
Qed.

(** C9, as the code has it. When the handler answers that the alert was
    created, the request's [threshold] was truthy, the stored threshold
    is what [parseFloat] made of it, the database client took that
    number, and the row was added to the table. The handler itself
    checks neither the sign nor the finiteness of the number. *)
Theorem created_threshold_is_parsed (valid_expression : string -> bool)
    (float_accepted : Num.number -> bool) (store : Store) (fresh uid : string)
    (body : value) (msg : string) (row : Alert) (store' : Store) (w w' : World) :
  post_alert valid_expression float_accepted store fresh uid body w
  = Returned (ReplyCreated msg row, store') w' ->
  exists thr,
    destructure body "req.body" "threshold" = ok thr
    /\ truthy thr = true
    /\ parseFloat thr = ok (threshold row)
    /\ float_accepted (threshold row) = true
    /\ alerts store' = (alerts store ++ [row])%list.
Proof.
  unfold post_alert, try_catch, bind, lift.
  destruct (destructure body "req.body" "alertTime") as [e | time]; [discriminate |].
  destruct (destructure body "req.body" "pollutant") as [e | pol]; [discriminate |].
  destruct (destructure body "req.body" "threshold") as [e | thr]; [discriminate |].
  destruct (destructure body "req.body" "alertEmail") as [e | mail]; [discriminate |].
  unfold ret at 1 2 3 4.
  destruct (truthy time); simpl; [| discriminate].
  destruct (truthy pol); simpl; [| discriminate].
  destruct (truthy thr) eqn:T; simpl; [| discriminate].
  destruct (truthy mail); simpl; [| discriminate].
  destruct (parseFloat thr) as [e | parsed] eqn:P; [discriminate |].
  unfold ret at 1.
  destruct (create float_accepted store fresh _) as [e | [row0 store0]] eqn:C;
    [discriminate |].
  unfold ret at 1. simpl fst. simpl snd.
  destruct (detached (setupCronJobs valid_expression store0) w) as [[] w1 | e w1];
    [| discriminate].
  unfold ret. intros H. injection H as _ <- <- _.
  apply create_row in C as (Ct & Ca & Cs). simpl in Ct.
  exists thr. rewrite Ct. repeat split; assumption.
Qed.

Lemma created_threshold_is_parsed_minus_five :
  post_alert daily_expression Num.is_finite store1 "a9" "u1"
    (body_with (VNum (Num.of_Z (-5)))) w0
  = Returned
      (ReplyCreated "Alert created successfully and scheduled."
         (mkAlert "a9" "u1" "09:15" "aqi" (Num.of_Z (-5)) "asha@example.org"),
       mkStore true people
         [rule1; mkAlert "a9" "u1" "09:15" "aqi" (Num.of_Z (-5)) "asha@example.org"])
      (scheduled w0
         [rule1; mkAlert "a9" "u1" "09:15" "aqi" (Num.of_Z (-5)) "asha@example.org"])
  /\ exists thr,
       destructure (body_with (VNum (Num.of_Z (-5)))) "req.body" "threshold" = ok thr
       /\ truthy thr = true
       /\ parseFloat thr = ok (Num.of_Z (-5))
       /\ Num.is_finite (Num.of_Z (-5)) = true
       /\ alerts (mkStore true people
                    [rule1;
                     mkAlert "a9" "u1" "09:15" "aqi" (Num.of_Z (-5)) "asha@example.org"])
          = (alerts store1
             ++ [mkAlert "a9" "u1" "09:15" "aqi" (Num.of_Z (-5)) "asha@example.org"])%list.
Proof.
  split; [reflexivity |].
  exact (created_threshold_is_parsed daily_expression Num.is_finite store1 "a9" "u1"
           (body_with (VNum (Num.of_Z (-5))))
           "Alert created successfully and scheduled."
           (mkAlert "a9" "u1" "09:15" "aqi" (Num.of_Z (-5)) "asha@example.org")
           (mkStore true people
              [rule1; mkAlert "a9" "u1" "09:15" "aqi" (Num.of_Z (-5)) "asha@example.org"])
           w0
           (scheduled w0
              [rule1; mkAlert "a9" "u1" "09:15" "aqi" (Num.of_Z (-5)) "asha@example.org"])
           eq_refl).
Defined.

(** C9, as it is stated, fails on the sign: a request with threshold -5
    is accepted and the alert is stored with threshold -5, also with a
    database client that takes finite numbers only. *)
Lemma negative_threshold_stored :
  Num.is_negative (Num.of_Z (-5)) = true
  /\ exists store' w',
       post_alert daily_expression Num.is_finite store1 "a9" "u1"
         (body_with (VNum (Num.of_Z (-5)))) w0
       = Returned
           (ReplyCreated "Alert created successfully and scheduled."
              (mkAlert "a9" "u1" "09:15" "aqi" (Num.of_Z (-5)) "asha@example.org"),
            store') w'
       /\ alerts store'
          = [rule1; mkAlert "a9" "u1" "09:15" "aqi" (Num.of_Z (-5)) "asha@example.org"].
Proof.
  split; [reflexivity |]. eexists; eexists. split; vm_compute; reflexivity.
Qed.

(** * Further properties of the code *)

(** ** Splitting and the cron expression *)

Lemma split_not_nil (sep : ascii) (s : string) : split sep s <> [].
Proof.
  destruct s as [| c r]; simpl; [discriminate |].
  destruct (Ascii.eqb c sep); [discriminate |].
  destruct (split sep r); discriminate.
Qed.

Lemma split_free (sep : ascii) (s : string) :
  free_of sep s = true -> split sep s = [s].
Proof.
  induction s as [| c r IH]; simpl; [reflexivity |].
  intros H. apply andb_prop in H as (Hc & Hr).
  apply negb_true_iff in Hc. rewrite Hc, (IH Hr). reflexivity.
Qed.

Lemma split_app (sep : ascii) (a b : string) :
  free_of sep a = true ->
  split sep (a ++ String sep b) = a :: split sep b.
Proof.
  induction a as [| c r IH]; simpl.
  - intros _. now rewrite Ascii.eqb_refl.
  - intros H. apply andb_prop in H as (Hc & Hr).
    apply negb_true_iff in Hc. rewrite Hc, (IH Hr). reflexivity.
Qed.

(** X1. For an [alertTime] made of an hour text and a minute text around
    a colon, the cron expression is the minute, the hour and three
    stars, in that order; anything after a second colon is ignored. *)
Theorem cronSchedule_of_hour_minute (alert : Alert) (h m : string) :
  free_of ":" h = true ->
  free_of ":" m = true ->
  (alertTime alert = h ++ ":" ++ m ->
   cronSchedule alert = m ++ " " ++ h ++ " * * *")
  /\ (forall rest, alertTime alert = h ++ ":" ++ m ++ ":" ++ rest ->
                   cronSchedule alert = m ++ " " ++ h ++ " * * *").
Proof.
  intros Hh Hm. unfold cronSchedule. split.
  - intros ->. change (h ++ ":" ++ m) with (h ++ String ":" m).
    rewrite (split_app ":" h m Hh), (split_free ":" m Hm). reflexivity.
  - intros rest ->. change (h ++ ":" ++ m ++ ":" ++ rest)
      with (h ++ String ":" (m ++ String ":" rest)).
    rewrite (split_app ":" h _ Hh), (split_app ":" m rest Hm). reflexivity.
Qed.

Lemma cronSchedule_of_hour_minute_0830 :
  free_of ":" "08" = true /\ free_of ":" "30" = true
  /\ cronSchedule (mkAlert "a1" "u1" "08:30" "aqi" (Num.of_Z 3) "asha@example.org")
     = "30 08 * * *"
  /\ cronSchedule (mkAlert "a1" "u1" "08:30:59" "aqi" (Num.of_Z 3) "asha@example.org")
     = "30 08 * * *".
Proof.
  split; [reflexivity |]. split; [reflexivity |].
  pose proof (cronSchedule_of_hour_minute
                (mkAlert "a1" "u1" "08:30" "aqi" (Num.of_Z 3) "asha@example.org")
                "08" "30" eq_refl eq_refl) as (A & _).
  pose proof (cronSchedule_of_hour_minute
                (mkAlert "a1" "u1" "08:30:59" "aqi" (Num.of_Z 3) "asha@example.org")
                "08" "30" eq_refl eq_refl) as (_ & B).
  split; [exact (A eq_refl) | exact (B "59" eq_refl)].
Defined.

(** X2. An [alertTime] without a colon leaves the minute undefined: the
    expression starts with the text [undefined], and the whole
    [alertTime] stands where the hour belongs. *)
Theorem cronSchedule_without_colon (alert : Alert) :
  free_of ":" (alertTime alert) = true ->
  cronSchedule alert = "undefined " ++ alertTime alert ++ " * * *".
Proof.
  intros H. unfold cronSchedule. rewrite (split_free ":" _ H). reflexivity.
Qed.

Lemma cronSchedule_without_colon_0830 :
  free_of ":" (alertTime (mkAlert "a1" "u1" "0830" "aqi" (Num.of_Z 3) "x@example.org"))
  = true
  /\ cronSchedule (mkAlert "a1" "u1" "0830" "aqi" (Num.of_Z 3) "x@example.org")
     = "undefined 0830 * * *".
Proof.
  split; [reflexivity |].
  exact (cronSchedule_without_colon
           (mkAlert "a1" "u1" "0830" "aqi" (Num.of_Z 3) "x@example.org") eq_refl).
Defined.

(** ** More on alert creation *)

Lemma create_fields accept store fresh d row store' :
  create accept store fresh d = ok (row, store') ->
  id row = fresh /\ userId row = data_userId d
  /\ data_alertTime d = VStr (alertTime row)
  /\ data_pollutant d = VStr (pollutant row)
  /\ data_alertEmail d = VStr (alertEmail row)
  /\ threshold row = data_threshold d
  /\ reachable store = true
  /\ store' = mkStore (reachable store) (users store) (alerts store ++ [row]).
Proof.
  unfold create. destruct (reachable store); simpl; [| discriminate].
  destruct (data_alertTime d); try discriminate.
  destruct (data_pollutant d); try discriminate.
  destruct (data_alertEmail d); try discriminate.
  destruct (accept (data_threshold d)); simpl; [| discriminate].
  destruct (existsb _ (users store)); simpl; [| discriminate].
  destruct (existsb _ (alerts store)); simpl; [discriminate |].
  intros H. injection H as <- <-. simpl. repeat split.
Qed.

Lemma detached_returns (m : M unit) (w : World) :
  exists w', detached m w = Returned tt w'.
Proof. unfold detached. destruct (m w); eexists; reflexivity. Qed.


(** X3. A request to create an alert in which any of the four details
    is falsy (absent, empty, [null], [false] or the number 0) is
    answered with status 400 and the missing-details message; nothing is
    stored, scheduled or logged. *)
Theorem missing_detail_rejected (valid_expression : string -> bool)
    (float_accepted : Num.number -> bool) (store : Store) (fresh uid : string)
    (body time pol thr mail : value) (w : World) :
  destructure body "req.body" "alertTime" = ok time ->
  destructure body "req.body" "pollutant" = ok pol ->
  destructure body "req.body" "threshold" = ok thr ->
  destructure body "req.body" "alertEmail" = ok mail ->
  truthy time && truthy pol && truthy thr && truthy mail = false ->
  post_alert valid_expression float_accepted store fresh uid body w
  = Returned
      (ReplyError 400
         "Missing required alert details (Time, Pollutant, Threshold, Email).",
       store) w.
Proof.
  intros G1 G2 G3 G4 T. unfold post_alert, try_catch, bind.
  rewrite G1, G2, G3, G4. simpl.
  assert (N : negb (truthy time) || negb (truthy pol) || negb (truthy thr)
              || negb (truthy mail) = true).
  { destruct (truthy time), (truthy pol), (truthy thr), (truthy mail);
      simpl in *; congruence. }
  rewrite N. reflexivity.
Qed.

Lemma missing_detail_rejected_without_email :
  destructure body_without_email "req.body" "alertEmail" = ok VUndefined
  /\ truthy (VStr "09:15") && truthy (VStr "aqi") && truthy (VNum (Num.of_Z 3))
     && truthy VUndefined = false
  /\ post_alert daily_expression Num.is_finite store1 "a9" "u1" body_without_email w0
     = Returned
         (ReplyError 400
            "Missing required alert details (Time, Pollutant, Threshold, Email).",
          store1) w0.
Proof.
  split; [reflexivity |]. split; [reflexivity |].
  exact (missing_detail_rejected daily_expression Num.is_finite store1 "a9" "u1"
           body_without_email (VStr "09:15") (VStr "aqi") (VNum (Num.of_Z 3)) VUndefined
           w0 eq_refl eq_refl eq_refl eq_refl eq_refl).
Defined.

(** X4. Whenever the handler answers with an error, the status is 400 or
    500, the table of alerts is as it was, and no timer was stopped or
    added: a failed creation never touches the schedule. *)
Theorem failed_creation_changes_nothing (valid_expression : string -> bool)
    (float_accepted : Num.number -> bool) (store : Store) (fresh uid : string)
    (body : value) (code : N) (err : string) (store' : Store) (w w' : World) :
  post_alert valid_expression float_accepted store fresh uid body w
  = Returned (ReplyError code err, store') w' ->
  store' = store /\ tasks w' = tasks w /\ outbox w' = outbox w
  /\ unhandled w' = unhandled w /\ (code = 400%N \/ code = 500%N).
Proof.
  unfold post_alert, try_catch, bind, lift.
  destruct (destructure body "req.body" "alertTime") as [e | time];
    [simpl; intros H; injection H as <- _ <- <-; auto 10 |].
  destruct (destructure body "req.body" "pollutant") as [e | pol];
    [simpl; intros H; injection H as <- _ <- <-; auto 10 |].
  destruct (destructure body "req.body" "threshold") as [e | thr];
    [simpl; intros H; injection H as <- _ <- <-; auto 10 |].
  destruct (destructure body "req.body" "alertEmail") as [e | mail];
    [simpl; intros H; injection H as <- _ <- <-; auto 10 |].
  unfold ret at 1 2 3 4.
  destruct (negb (truthy time) || negb (truthy pol) || negb (truthy thr)
            || negb (truthy mail));
    [simpl; intros H; injection H as <- _ <- <-; auto 10 |].
  destruct (parseFloat thr) as [e | parsed];
    [simpl; intros H; injection H as <- _ <- <-; auto 10 |].
  unfold ret at 1.
  destruct (create float_accepted store fresh _) as [e | [row0 store0]];
    [simpl; intros H; injection H as <- _ <- <-; auto 10 |].
  unfold ret at 1. simpl fst. simpl snd.
  destruct (detached_returns (setupCronJobs valid_expression store0) w) as (w1 & ->).
  unfold ret. discriminate.
Qed.

Lemma failed_creation_changes_nothing_store_down :
  post_alert daily_expression Num.is_finite store_down1 "a9" "u1"
    (body_with (VNum (Num.of_Z 3))) world_running
  = Returned (ReplyError 500 "Failed to create alert.", store_down1)
      (logged world_running [mkLog ERROR "Alert Error: Can't reach database server"])
  /\ tasks (logged world_running [mkLog ERROR "Alert Error: Can't reach database server"])
     = tasks world_running.
Proof.
  split; [reflexivity |].
  exact (proj1 (proj2 (failed_creation_changes_nothing daily_expression Num.is_finite
                         store_down1 "a9" "u1" (body_with (VNum (Num.of_Z 3)))
                         500 "Failed to create alert." store_down1 world_running
                         (logged world_running
                            [mkLog ERROR "Alert Error: Can't reach database server"])
                         eq_refl))).
Defined.

(** The rebuild is the stop of every task followed by what runs after
    the database's answer, and the handler with its rebuild run to the
    end is the handler up to its reply followed by what it left
    running. *)
Lemma setupCronJobs_in_two_steps valid store :
  setupCronJobs valid store
  = (stop_all_tasks ;; setupCronJobs_resumed valid store)%m.
Proof. reflexivity. Qed.

Lemma post_alert_in_two_steps valid accept store fresh uid body w :
  post_alert valid accept store fresh uid body w
  = match post_alert_reply accept store fresh uid body w with
    | Returned (reply, store') w1 =>
        (left_running valid reply store' ;; ret (reply, store'))%m w1
    | Thrown e w1 => Thrown e w1
    end.
Proof.
  cbv beta iota zeta delta [post_alert post_alert_reply try_catch bind lift ret throw
                            left_running detached setupCronJobs stop_all_tasks
                            console_error say fst snd].
  destruct (destructure body "req.body" "alertTime") as [e | time]; [reflexivity |].
  destruct (destructure body "req.body" "pollutant") as [e | pol]; [reflexivity |].
  destruct (destructure body "req.body" "threshold") as [e | thr]; [reflexivity |].
  destruct (destructure body "req.body" "alertEmail") as [e | mail]; [reflexivity |].
  destruct (negb (truthy time) || negb (truthy pol) || negb (truthy thr)
            || negb (truthy mail)); [reflexivity |].
  destruct (parseFloat thr) as [e | parsed]; [reflexivity |].
  destruct (create accept store fresh _) as [e | [row0 store0]]; [reflexivity |].
  cbv beta iota zeta delta [setupCronJobs_resumed bind lift ret throw].
  destruct (findMany store0) as [e | found]; [reflexivity |].
  destruct (forEach found (schedule_alert valid) _); reflexivity.
Qed.

(** The stages a request goes through before the reply that the alert
    was created: the world at the reply is the one the handler started
    in, with every task stopped. *)
Lemma post_alert_reply_created_inv accept store fresh uid body msg row store' w w1 :
  post_alert_reply accept store fresh uid body w
  = Returned (ReplyCreated msg row, store') w1 ->
  w1 = stopped w /\
  exists time pol thr mail parsed,
    destructure body "req.body" "alertTime" = ok time
    /\ destructure body "req.body" "pollutant" = ok pol
    /\ destructure body "req.body" "threshold" = ok thr
    /\ destructure body "req.body" "alertEmail" = ok mail
    /\ parseFloat thr = ok parsed
    /\ create accept store fresh (mkAlertData uid time pol parsed mail) = ok (row, store').
Proof.
  unfold post_alert_reply, try_catch, bind, lift.
  destruct (destructure body "req.body" "alertTime") as [e | time] eqn:G1; [discriminate |].
  destruct (destructure body "req.body" "pollutant") as [e | pol] eqn:G2; [discriminate |].
  destruct (destructure body "req.body" "threshold") as [e | thr] eqn:G3; [discriminate |].
  destruct (destructure body "req.body" "alertEmail") as [e | mail] eqn:G4; [discriminate |].
  unfold ret at 1 2 3 4.
  destruct (negb (truthy time) || negb (truthy pol) || negb (truthy thr)
            || negb (truthy mail)); [discriminate |].
  destruct (parseFloat thr) as [e | parsed] eqn:P; [discriminate |].
  unfold ret at 1.
  destruct (create accept store fresh _) as [e | [row0 store0]] eqn:C; [discriminate |].
  unfold ret at 1. simpl fst. simpl snd.
  unfold stop_all_tasks, ret. intros H. injection H as _ <- <- <-.
  split; [reflexivity |].
  exists time, pol, thr, mail, parsed. repeat split; try reflexivity; assumption.
Qed.

(** X5. When the handler answers that the alert was created, the new
    row belongs to the authenticated user and carries the generated id
    and the texts of the request, and at that reply no timer is
    running: the rebuild, which the handler does not await, has stopped
    every task and waits for the database. When what is left of the
    rebuild then runs on the table the handler wrote, and the cron
    library takes the expression of every stored alert, the running
    timers are exactly those of the alerts stored, the new one among
    them, and no rejection is left unhandled. *)
Theorem created_alert_is_scheduled (valid_expression : string -> bool)
    (float_accepted : Num.number -> bool) (store : Store) (fresh uid : string)
    (body : value) (msg : string) (row : Alert) (store' : Store) (w w1 : World) :
  post_alert_reply float_accepted store fresh uid body w
  = Returned (ReplyCreated msg row, store') w1 ->
  forallb (accepted valid_expression) (alerts store') = true ->
  userId row = uid /\ id row = fresh
  /\ destructure body "req.body" "alertTime" = ok (VStr (alertTime row))
  /\ destructure body "req.body" "alertEmail" = ok (VStr (alertEmail row))
  /\ alerts store' = (alerts store ++ [row])%list
  /\ tasks w1 = map stop (tasks w)
  /\ active w1 = []
  /\ exists w2,
       left_running valid_expression (ReplyCreated msg row) store' w1 = Returned tt w2
       /\ active w2 = map new_task (alerts store')
       /\ In (new_task row) (active w2)
       /\ unhandled w2 = unhandled w
       /\ post_alert valid_expression float_accepted store fresh uid body w
          = Returned (ReplyCreated msg row, store') w2.
Proof.
  intros H A.
  pose proof (post_alert_in_two_steps valid_expression float_accepted store fresh uid
                body w) as T.
  rewrite H in T.
  apply post_alert_reply_created_inv in H
    as (-> & time & pol & thr & mail & parsed & G1 & G2 & G3 & G4 & P & C).
  apply create_fields in C as (Ci & Cu & Ct & Cp & Cm & Cth & R & Cs).
  simpl in Cu, Ct, Cp, Cm, Cth, Cs.
  assert (R' : reachable store' = true) by (subst store'; exact R).
  assert (L : left_running valid_expression (ReplyCreated msg row) store' (stopped w)
              = Returned tt (scheduled (stopped w) (alerts store'))).
  { unfold left_running. apply detached_returned.
    unfold setupCronJobs_resumed, bind, findMany. rewrite R'. simpl.
    now apply forEach_all_accepted. }
  unfold bind in T. rewrite L in T.
  repeat split; try assumption; try congruence.
  - subst store'. reflexivity.
  - apply active_stopped.
  - exists (scheduled (stopped w) (alerts store')).
    rewrite active_scheduled, active_stopped. simpl app.
    repeat split; try assumption.
    apply in_map. subst store'. simpl. apply in_or_app. right. now left.
Qed.

Lemma created_alert_is_scheduled_on_store1 :
  post_alert_reply Num.is_finite store1 "a9" "u1" (body_with (VNum (Num.of_Z 3)))
    world_running
  = Returned
      (ReplyCreated "Alert created successfully and scheduled."
         (mkAlert "a9" "u1" "09:15" "aqi" (Num.of_Z 3) "asha@example.org"),
       mkStore true people
         [rule1; mkAlert "a9" "u1" "09:15" "aqi" (Num.of_Z 3) "asha@example.org"])
      (stopped world_running)
  /\ active world_running = [new_task rule1]
  /\ active (stopped world_running) = []
  /\ exists w2,
       left_running daily_expression
         (ReplyCreated "Alert created successfully and scheduled."
            (mkAlert "a9" "u1" "09:15" "aqi" (Num.of_Z 3) "asha@example.org"))
         (mkStore true people
            [rule1; mkAlert "a9" "u1" "09:15" "aqi" (Num.of_Z 3) "asha@example.org"])
         (stopped world_running)
       = Returned tt w2
       /\ active w2
          = map new_task
              [rule1; mkAlert "a9" "u1" "09:15" "aqi" (Num.of_Z 3) "asha@example.org"].
Proof.
  split; [reflexivity |]. split; [reflexivity |].
  destruct (created_alert_is_scheduled daily_expression Num.is_finite store1 "a9" "u1"
              (body_with (VNum (Num.of_Z 3)))
              "Alert created successfully and scheduled."
              (mkAlert "a9" "u1" "09:15" "aqi" (Num.of_Z 3) "asha@example.org")
              (mkStore true people
                 [rule1; mkAlert "a9" "u1" "09:15" "aqi" (Num.of_Z 3) "asha@example.org"])
              world_running (stopped world_running) eq_refl eq_refl)
    as (_ & _ & _ & _ & _ & _ & S & w2 & L & A & _).
  split; [exact S |]. exists w2. split; [exact L | exact A].
Defined.



(** ** The auth middleware *)

Lemma append_not_empty (a b : string) : String.eqb (a ++ " " ++ b) "" = false.
Proof. destruct a; reflexivity. Qed.

Lemma authMiddleware_token (jwt_verify : option string -> result JwtPayload)
    (word token : string) :
  free_of " " word = true ->
  free_of " " token = true ->
  authMiddleware jwt_verify (Some (word ++ " " ++ token))
  = match jwt_verify (Some token) with
    | inr user => inr user
    | inl _ => inl (ReplyError 401 "Invalid or expired token")
    end.
Proof.
  intros Hw Ht. unfold authMiddleware. rewrite append_not_empty.
  change (word ++ " " ++ token) with (word ++ String " " token).
  rewrite (split_app " " word token Hw), (split_free " " token Ht). reflexivity.
Qed.

(** X7. The middleware takes the second space-separated word of the
    header as the token and does not look at the first: for a header
    made of any word, a space and a token without spaces, the payload
    the token library finds for that token is passed on, and a token it
    refuses is answered with status 401. *)
Theorem authMiddleware_ignores_scheme (jwt_verify : option string -> result JwtPayload)
    (word token : string) :
  free_of " " word = true ->
  free_of " " token = true ->
  authMiddleware jwt_verify (Some (word ++ " " ++ token))
  = match jwt_verify (Some token) with
    | inr user => inr user
    | inl _ => inl (ReplyError 401 "Invalid or expired token")
    end.
Proof.
  intros Hw Ht. unfold authMiddleware. rewrite append_not_empty.
  change (word ++ " " ++ token) with (word ++ String " " token).
  rewrite (split_app " " word token Hw), (split_free " " token Ht). reflexivity.
Qed.

Lemma authMiddleware_ignores_scheme_examples :
  free_of " " "Bearer" = true /\ free_of " " "t.u1" = true
  /\ authMiddleware (toy_verify [mkPayload "u1" (Some "Asha") "asha@example.org"])
       (Some "Bearer t.u1")
     = inr (mkPayload "u1" (Some "Asha") "asha@example.org")
  /\ authMiddleware (toy_verify [mkPayload "u1" (Some "Asha") "asha@example.org"])
       (Some "Anything t.u1")
     = inr (mkPayload "u1" (Some "Asha") "asha@example.org").
Proof.
  split; [reflexivity |]. split; [reflexivity |]. split.
  - exact (authMiddleware_ignores_scheme
             (toy_verify [mkPayload "u1" (Some "Asha") "asha@example.org"])
             "Bearer" "t.u1" eq_refl eq_refl).
  - exact (authMiddleware_ignores_scheme
             (toy_verify [mkPayload "u1" (Some "Asha") "asha@example.org"])
             "Anything" "t.u1" eq_refl eq_refl).
Defined.

(** X8. A header without a space carries no token for the middleware:
    when the token library refuses a missing token, an empty header is
    answered with "Missing token" and any other header without a space,
    a bare token for instance, with "Invalid or expired token". *)
Theorem authMiddleware_needs_two_words (jwt_verify : option string -> result JwtPayload)
    (e : error) (header : string) :
  jwt_verify None = fail e ->
  free_of " " header = true ->
  authMiddleware jwt_verify (Some header)
  = inl (ReplyError 401 (if String.eqb header "" then "Missing token"
                         else "Invalid or expired token")).
Proof.
  intros V H. unfold authMiddleware.
  destruct (String.eqb header ""); [reflexivity |].
  rewrite (split_free " " header H). simpl. now rewrite V.
Qed.

Lemma authMiddleware_needs_two_words_bare_token :
  toy_verify [mkPayload "u1" (Some "Asha") "asha@example.org"] None
  = fail (mkError "JsonWebTokenError" "jwt must be provided")
  /\ free_of " " "t.u1" = true
  /\ authMiddleware (toy_verify [mkPayload "u1" (Some "Asha") "asha@example.org"])
       (Some "t.u1")
     = inl (ReplyError 401 "Invalid or expired token").
Proof.
  split; [reflexivity |]. split; [reflexivity |].
  exact (authMiddleware_needs_two_words
           (toy_verify [mkPayload "u1" (Some "Asha") "asha@example.org"])
           (mkError "JsonWebTokenError" "jwt must be provided") "t.u1" eq_refl eq_refl).
Defined.

(** ** Signup and login *)

Section AccountFacts.

Variable bcrypt_hash : value -> result string.
Variable bcrypt_compare : value -> string -> result bool.
Variable jwt_sign : JwtPayload -> string.

(** Every way [signup] ends: an error reply with the table as it was,
    or a new row made of the request's name and email, the generated id
    and the hash of the request's password. *)
Lemma signup_outcome users fresh body reply users' w w' :
  signup bcrypt_hash users fresh body w = Returned (reply, users') w' ->
  (users' = users /\ exists code err, reply = AuthError code err)
  \/ (exists n m pass h,
        destructure body "req.body" "name" = ok (VStr n)
        /\ destructure body "req.body" "email" = ok (VStr m)
        /\ destructure body "req.body" "password" = ok pass
        /\ truthy (VStr n) = true /\ truthy (VStr m) = true /\ truthy pass = true
        /\ bcrypt_hash pass = ok h
        /\ existsb (fun a => String.eqb (email a) m) (rows users) = false
        /\ existsb (fun a => String.eqb (user_id (account a)) fresh) (rows users) = false
        /\ accounts_reachable users = true
        /\ users' = mkAccounts true
                      (rows users ++ [mkAccount (mkUser fresh (Some n)) m h])
        /\ reply = SignedUp "User created successfully" fresh m
        /\ w' = w).
Proof.
  unfold signup, try_catch, bind, lift.
  destruct (destructure body "req.body" "name") as [e | name] eqn:G1;
    [simpl; intros H; injection H as <- <- _; left; eauto |].
  destruct (destructure body "req.body" "email") as [e | mail] eqn:G2;
    [simpl; intros H; injection H as <- <- _; left; eauto |].
  destruct (destructure body "req.body" "password") as [e | pass] eqn:G3;
    [simpl; intros H; injection H as <- <- _; left; eauto |].
  unfold ret at 1 2 3.
  destruct (truthy name) eqn:T1; simpl;
    [| intros H; injection H as <- <- _; left; eauto].
  destruct (truthy mail) eqn:T2; simpl;
    [| intros H; injection H as <- <- _; left; eauto].
  destruct (truthy pass) eqn:T3; simpl;
    [| intros H; injection H as <- <- _; left; eauto].
  destruct (findUserByEmail users mail) as [e | [existing |]] eqn:F;
    [simpl; intros H; injection H as <- <- _; left; eauto
    | simpl; intros H; injection H as <- <- _; left; eauto |].
  unfold ret at 1.
  destruct (bcrypt_hash pass) as [e | h] eqn:B;
    [simpl; intros H; injection H as <- <- _; left; eauto |].
  unfold ret at 1.
  destruct (createUser users fresh name mail h) as [e | [row users0]] eqn:C;
    [simpl; intros H; injection H as <- <- _; left; eauto |].
  unfold ret. simpl. intros H. injection H as <- <- <-.
  right. unfold createUser in C.
  destruct name as [| | | | n | |]; try discriminate.
  destruct mail as [| | | | m | |]; try discriminate.
  destruct (accounts_reachable users) eqn:R; simpl in C; [| discriminate].
  destruct (existsb (fun a => String.eqb (email a) m) (rows users)) eqn:E1;
    simpl in C; [discriminate |].
  destruct (existsb (fun a => String.eqb (user_id (account a)) fresh) (rows users))
    eqn:E2; simpl in C; [discriminate |].
  injection C as <- <-. simpl.
  exists n, m, pass, h. repeat split; auto.
Qed.

Lemma login_success users body m pass user w :
  destructure body "req.body" "email" = ok (VStr m) ->
  destructure body "req.body" "password" = ok pass ->
  truthy (VStr m) = true -> truthy pass = true ->
  findUserByEmail users (VStr m) = ok (Some user) ->
  bcrypt_compare pass (password user) = ok true ->
  login bcrypt_compare jwt_sign users body w
  = Returned
      (LoggedIn "Login successful"
         (jwt_sign (mkPayload (user_id (account user)) (user_name (account user))
                              (email user)))
         (user_name (account user))) w.
Proof.
  intros G1 G2 T1 T2 F C. unfold login, try_catch, bind.
  unfold ok in *. rewrite G1, G2. unfold lift, ret. cbv beta iota.
  rewrite T1, T2. cbv beta iota delta [negb orb].
  rewrite F. cbv beta iota. rewrite C. reflexivity.
Qed.

Lemma find_app_new {A} (f : A -> bool) (l : list A) (x : A) :
  existsb f l = false -> f x = true -> find f (l ++ [x]) = Some x.
Proof.
  induction l as [| y l IH]; simpl; intros E F; [now rewrite F |].
  apply orb_false_iff in E as (Ey & El). rewrite Ey. now apply IH.
Qed.

Lemma existsb_false_not_in {A B} (key : A -> B) (eqb : B -> B -> bool)
    (eqb_refl : forall b, eqb b b = true) (l : list A) (k : B) :
  existsb (fun a => eqb (key a) k) l = false -> ~ In k (map key l).
Proof.
  induction l as [| y l IH]; simpl; intros E; [tauto |].
  apply orb_false_iff in E as (Ey & El). intros [H | H].
  - rewrite H, eqb_refl in Ey. discriminate.
  - now apply IH.
Qed.

End AccountFacts.

Lemma NoDup_snoc {A} (l : list A) (x : A) :
  NoDup l -> ~ In x l -> NoDup (l ++ [x]).
Proof.
  induction 1 as [| y l Hy Hl IH]; simpl; intros Hx.
  - constructor; [tauto | constructor].
  - constructor.
    + rewrite in_app_iff. simpl. intros [H | [H | []]]; [tauto | subst; tauto].
    + apply IH. tauto.
Qed.

(** X9. Signup keeps the emails and the ids of the [User] table free of
    repetitions: whatever the request and however the handler ends,
    a table without repeated emails or ids is left without repeated
    emails or ids. *)
Theorem signup_keeps_emails_unique (bcrypt_hash : value -> result string)
    (users : Accounts) (fresh : string) (body : value) (reply : AuthReply)
    (users' : Accounts) (w w' : World) :
  signup bcrypt_hash users fresh body w = Returned (reply, users') w' ->
  NoDup (map email (rows users)) ->
  NoDup (map (fun a => user_id (account a)) (rows users)) ->
  NoDup (map email (rows users'))
  /\ NoDup (map (fun a => user_id (account a)) (rows users')).
Proof.
  intros H De Di.
  destruct (signup_outcome _ _ _ _ _ _ _ _ H)
    as [(-> & _) | (n & m & pass & h & _ & _ & _ & _ & _ & _ & _ & E1 & E2 & _ & -> & _)];
    [now split |].
  simpl. rewrite !map_app. simpl. split.
  - apply NoDup_snoc; [exact De |].
    exact (existsb_false_not_in email String.eqb String.eqb_refl _ _ E1).
  - apply NoDup_snoc; [exact Di |].
    exact (existsb_false_not_in (fun a => user_id (account a)) String.eqb
             String.eqb_refl _ _ E2).
Qed.

Lemma signup_keeps_emails_unique_second_user :
  signup toy_hash one_account "u2" (signup_body "Ravi" "ravi@example.org" "pw") w0
  = Returned
      (SignedUp "User created successfully" "u2" "ravi@example.org",
       mkAccounts true
         [asha_account; mkAccount (mkUser "u2" (Some "Ravi")) "ravi@example.org" "#pw"])
      w0
  /\ NoDup (map email (rows one_account))
  /\ NoDup (map email
              (rows (mkAccounts true
                       [asha_account;
                        mkAccount (mkUser "u2" (Some "Ravi")) "ravi@example.org" "#pw"]))).
Proof.
  assert (De : NoDup (map email (rows one_account))).
  { repeat constructor; simpl; tauto. }
  assert (Di : NoDup (map (fun a => user_id (account a)) (rows one_account))).
  { repeat constructor; simpl; tauto. }
  split; [reflexivity |]. split; [exact De |].
  exact (proj1 (signup_keeps_emails_unique toy_hash one_account "u2"
                  (signup_body "Ravi" "ravi@example.org" "pw")
                  (SignedUp "User created successfully" "u2" "ravi@example.org")
                  (mkAccounts true
                     [asha_account;
                      mkAccount (mkUser "u2" (Some "Ravi")) "ravi@example.org" "#pw"])
                  w0 w0 eq_refl De Di)).
Defined.

(** X10. Signup followed by login. When a signup succeeds and the
    hashing library recognises the request's password against the hash
    it made of it, a login with the same email and password on the
    table the signup left succeeds: it answers with the token signed for
    the new user's id, name and email, and logs nothing. *)
Theorem signup_then_login (bcrypt_hash : value -> result string)
    (bcrypt_compare : value -> string -> result bool) (jwt_sign : JwtPayload -> string)
    (users : Accounts) (fresh : string) (body : value) (msg new_id new_email : string)
    (users' : Accounts) (w w' : World) (pass : value) (h : string)
    (body2 : value) (w2 : World) :
  signup bcrypt_hash users fresh body w
  = Returned (SignedUp msg new_id new_email, users') w' ->
  destructure body "req.body" "password" = ok pass ->
  bcrypt_hash pass = ok h ->
  bcrypt_compare pass h = ok true ->
  destructure body2 "req.body" "email" = ok (VStr new_email) ->
  destructure body2 "req.body" "password" = ok pass ->
  exists n,
    destructure body "req.body" "name" = ok (VStr n)
    /\ login bcrypt_compare jwt_sign users' body2 w2
       = Returned
           (LoggedIn "Login successful"
              (jwt_sign (mkPayload new_id (Some n) new_email)) (Some n)) w2.
Proof.
  intros S P B C G1 G2.
  destruct (signup_outcome _ _ _ _ _ _ _ _ S)
    as [(_ & c & e & E) | (n & m & pass' & h' & Gn & Gm & Gp & Tn & Tm & Tp & B' & E1
                           & E2 & R & -> & E & _)];
    [discriminate |].
  injection E as _ <- <-.
  rewrite P in Gp. injection Gp as <-.
  rewrite B in B'. injection B' as <-.
  exists n. split; [exact Gn |].
  apply (login_success bcrypt_compare jwt_sign _ body2 new_email pass
           (mkAccount (mkUser new_id (Some n)) new_email h) w2 G1 G2 Tm Tp);
    [| exact C].
  unfold findUserByEmail. simpl.
  rewrite (find_app_new _ _ (mkAccount (mkUser new_id (Some n)) new_email h) E1)
    by (simpl; apply String.eqb_refl).
  reflexivity.
Qed.

Lemma signup_then_login_ravi :
  signup toy_hash one_account "u2" (signup_body "Ravi" "ravi@example.org" "pw") w0
  = Returned
      (SignedUp "User created successfully" "u2" "ravi@example.org",
       mkAccounts true
         [asha_account; mkAccount (mkUser "u2" (Some "Ravi")) "ravi@example.org" "#pw"])
      w0
  /\ toy_hash (VStr "pw") = ok "#pw"
  /\ toy_compare (VStr "pw") "#pw" = ok true
  /\ exists n,
       destructure (signup_body "Ravi" "ravi@example.org" "pw") "req.body" "name"
       = ok (VStr n)
       /\ login toy_compare toy_sign
            (mkAccounts true
               [asha_account;
                mkAccount (mkUser "u2" (Some "Ravi")) "ravi@example.org" "#pw"])
            (login_body "ravi@example.org" "pw") w0
          = Returned
              (LoggedIn "Login successful"
                 (toy_sign (mkPayload "u2" (Some n) "ravi@example.org")) (Some n)) w0.
Proof.
  split; [reflexivity |]. split; [reflexivity |]. split; [reflexivity |].
  exact (signup_then_login toy_hash toy_compare toy_sign one_account "u2"
           (signup_body "Ravi" "ravi@example.org" "pw")
           "User created successfully" "u2" "ravi@example.org"
           (mkAccounts true
              [asha_account;
               mkAccount (mkUser "u2" (Some "Ravi")) "ravi@example.org" "#pw"])
           w0 w0 (VStr "pw") "#pw" (login_body "ravi@example.org" "pw") w0
           eq_refl eq_refl eq_refl eq_refl eq_refl eq_refl).
Defined.

(** X11. An email is taken once. After a successful signup, a further
    signup request with the same email, whatever its name and password,
    is answered with status 400 and "Email already exists."; the table
    stays as the first signup left it. *)
Theorem signup_twice_refused (bcrypt_hash : value -> result string)
    (users : Accounts) (fresh : string) (body : value) (msg new_id new_email : string)
    (users' : Accounts) (w w' : World)
    (fresh2 : string) (body2 name2 pass2 : value) (w2 : World) :
  signup bcrypt_hash users fresh body w
  = Returned (SignedUp msg new_id new_email, users') w' ->
  destructure body2 "req.body" "name" = ok name2 ->
  destructure body2 "req.body" "email" = ok (VStr new_email) ->
  destructure body2 "req.body" "password" = ok pass2 ->
  truthy name2 = true ->
  truthy pass2 = true ->
  signup bcrypt_hash users' fresh2 body2 w2
  = Returned (AuthError 400 "Email already exists.", users') w2.
Proof.
  intros S G1 G2 G3 T1 T3.
  destruct (signup_outcome _ _ _ _ _ _ _ _ S)
    as [(_ & c & e & E) | (n & m & pass & h & _ & _ & _ & _ & Tm & _ & _ & E1
                           & _ & _ & -> & E & _)];
    [discriminate |].
  injection E as _ _ <-.
  unfold signup, try_catch, bind. unfold ok in *. rewrite G1, G2, G3.
  unfold lift, ret. cbv beta iota. rewrite T1, Tm, T3. cbv beta iota delta [negb orb].
  unfold findUserByEmail. cbn [accounts_reachable rows].
  rewrite (find_app_new _ _ (mkAccount (mkUser fresh (Some n)) new_email h) E1)
    by (simpl; apply String.eqb_refl).
  reflexivity.
Qed.

Lemma signup_twice_refused_ravi :
  signup toy_hash one_account "u2" (signup_body "Ravi" "ravi@example.org" "pw") w0
  = Returned
      (SignedUp "User created successfully" "u2" "ravi@example.org",
       mkAccounts true
         [asha_account; mkAccount (mkUser "u2" (Some "Ravi")) "ravi@example.org" "#pw"])
      w0
  /\ signup toy_hash
       (mkAccounts true
          [asha_account; mkAccount (mkUser "u2" (Some "Ravi")) "ravi@example.org" "#pw"])
       "u3" (signup_body "Someone" "ravi@example.org" "other") w0
     = Returned
         (AuthError 400 "Email already exists.",
          mkAccounts true
            [asha_account;
             mkAccount (mkUser "u2" (Some "Ravi")) "ravi@example.org" "#pw"])
         w0.
Proof.
  split; [reflexivity |].
  exact (signup_twice_refused toy_hash one_account "u2"
           (signup_body "Ravi" "ravi@example.org" "pw")
           "User created successfully" "u2" "ravi@example.org"
           (mkAccounts true
              [asha_account;
               mkAccount (mkUser "u2" (Some "Ravi")) "ravi@example.org" "#pw"])
           w0 w0 "u3" (signup_body "Someone" "ravi@example.org" "other")
           (VStr "Someone") (VStr "other") w0
           eq_refl eq_refl eq_refl eq_refl eq_refl eq_refl).
Defined.

Lemma find_some_in {A} (f : A -> bool) (l : list A) (x : A) :
  find f l = Some x -> In x l /\ f x = true.
Proof.
  induction l as [| y l IH]; simpl; [discriminate |].
  destruct (f y) eqn:F.
  - intros H. injection H as <-. auto.
  - intros H. destruct (IH H). auto.
Qed.

(** What a successful login rests on. *)
Lemma login_inv bcrypt_compare jwt_sign users body msg token name w w' :
  login bcrypt_compare jwt_sign users body w = Returned (LoggedIn msg token name) w' ->
  exists user pass,
    In user (rows users)
    /\ destructure body "req.body" "email" = ok (VStr (email user))
    /\ destructure body "req.body" "password" = ok pass
    /\ bcrypt_compare pass (password user) = ok true
    /\ token = jwt_sign (payload_of_account user)
    /\ name = user_name (account user)
    /\ w' = w.
Proof.
  unfold login, try_catch, bind, lift.
  destruct (destructure body "req.body" "email") as [e | mail] eqn:G1;
    [discriminate |].
  destruct (destructure body "req.body" "password") as [e | pass] eqn:G2;
    [discriminate |].
  unfold ret at 1 2.
  destruct (negb (truthy mail) || negb (truthy pass)); [discriminate |].
  destruct (findUserByEmail users mail) as [e | [user |]] eqn:F;
    [discriminate | | discriminate].
  unfold ret at 1.
  destruct (bcrypt_compare pass (password user)) as [e | [|]] eqn:C;
    [discriminate | | discriminate].
  unfold ret. simpl. intros H. injection H as _ <- <- <-.
  unfold findUserByEmail in F. destruct mail as [| | | | m | |]; try discriminate.
  destruct (accounts_reachable users); [| discriminate].
  injection F as F. apply find_some_in in F as (I & E).
  apply String.eqb_eq in E. subst m.
  exists user, pass. repeat split; auto.
Qed.

(** X12. A login succeeds only for a stored user: whenever the handler
    answers with a token, the table holds a row with the email of the
    request, the hashing library recognised the request's password
    against that row's stored hash, the token is the one signed for the
    row's id, name and email, and nothing was logged. *)
Theorem login_needs_stored_user (bcrypt_compare : value -> string -> result bool)
    (jwt_sign : JwtPayload -> string) (users : Accounts) (body : value)
    (msg token : string) (name : option string) (w w' : World) :
  login bcrypt_compare jwt_sign users body w = Returned (LoggedIn msg token name) w' ->
  exists user pass,
    In user (rows users)
    /\ destructure body "req.body" "email" = ok (VStr (email user))
    /\ destructure body "req.body" "password" = ok pass
    /\ bcrypt_compare pass (password user) = ok true
    /\ token = jwt_sign (mkPayload (user_id (account user)) (user_name (account user))
                                   (email user))
    /\ name = user_name (account user)
    /\ w' = w.
Proof. apply login_inv. Qed.

Lemma login_needs_stored_user_asha :
  login toy_compare toy_sign one_account (login_body "asha@example.org" "secret") w0
  = Returned (LoggedIn "Login successful" "t.u1" (Some "Asha")) w0
  /\ exists user pass,
       In user (rows one_account)
       /\ destructure (login_body "asha@example.org" "secret") "req.body" "email"
          = ok (VStr (email user))
       /\ destructure (login_body "asha@example.org" "secret") "req.body" "password"
          = ok pass
       /\ toy_compare pass (password user) = ok true
       /\ "t.u1" = toy_sign (mkPayload (user_id (account user))
                                       (user_name (account user)) (email user))
       /\ Some "Asha" = user_name (account user)
       /\ w0 = w0.
Proof.
  split; [reflexivity |].
  exact (login_needs_stored_user toy_compare toy_sign one_account
           (login_body "asha@example.org" "secret") "Login successful" "t.u1"
           (Some "Asha") w0 w0 eq_refl).
Defined.

(** X13. From login to the alert handler. A token a login answered
    with, sent back as [Bearer token], makes the alert route run its
    handler for the id of the very row that logged in, provided the
    token has no space in it and the token library reads the tokens it
    signs for the stored users. *)
Theorem login_token_opens_alert_route
    (bcrypt_compare : value -> string -> result bool)
    (jwt_sign : JwtPayload -> string)
    (jwt_verify : option string -> result JwtPayload)
    (users : Accounts) (body : value) (msg token : string) (name : option string)
    (w w' : World) (valid_expression : string -> bool)
    (float_accepted : Num.number -> bool) (store : Store) (fresh : string)
    (alert_body : value) :
  login bcrypt_compare jwt_sign users body w = Returned (LoggedIn msg token name) w' ->
  (forall user, In user (rows users) ->
                jwt_verify (Some (jwt_sign (payload_of_account user)))
                = ok (payload_of_account user)) ->
  free_of " " token = true ->
  exists user,
    In user (rows users)
    /\ destructure body "req.body" "email" = ok (VStr (email user))
    /\ alert_route jwt_verify valid_expression float_accepted store fresh
         (Some ("Bearer " ++ token)) alert_body
       = post_alert valid_expression float_accepted store fresh
           (user_id (account user)) alert_body.
Proof.
  intros L V F.
  apply login_inv in L as (user & pass & I & G1 & _ & _ & -> & _ & _).
  exists user. split; [exact I |]. split; [exact G1 |].
  unfold alert_route.
  change ("Bearer " ++ jwt_sign (payload_of_account user))
    with ("Bearer" ++ " " ++ jwt_sign (payload_of_account user)).
  rewrite (authMiddleware_token jwt_verify "Bearer" _ eq_refl F), (V user I).
  reflexivity.
Qed.

Lemma login_token_opens_alert_route_asha :
  login toy_compare toy_sign one_account (login_body "asha@example.org" "secret") w0
  = Returned (LoggedIn "Login successful" "t.u1" (Some "Asha")) w0
  /\ free_of " " "t.u1" = true
  /\ exists user,
       In user (rows one_account)
       /\ destructure (login_body "asha@example.org" "secret") "req.body" "email"
          = ok (VStr (email user))
       /\ alert_route (toy_verify [payload_of_account asha_account]) daily_expression
            Num.is_finite store1 "a9" (Some "Bearer t.u1") (body_with (VNum (Num.of_Z 3)))
          = post_alert daily_expression Num.is_finite store1 "a9"
              (user_id (account user)) (body_with (VNum (Num.of_Z 3))).
Proof.
  split; [reflexivity |]. split; [reflexivity |].
  refine (login_token_opens_alert_route toy_compare toy_sign
            (toy_verify [payload_of_account asha_account]) one_account
            (login_body "asha@example.org" "secret") "Login successful" "t.u1"
            (Some "Asha") w0 w0 daily_expression Num.is_finite store1 "a9"
            (body_with (VNum (Num.of_Z 3))) eq_refl _ eq_refl).
  intros user [<- | []]. reflexivity.
Defined.

(** ** The dashboard route *)

Lemma logged_nil (w : World) : logged w [] = w.
Proof. destruct w. unfold logged. simpl. now rewrite app_nil_r. Qed.

Lemma rbind_ok {A B} (r : result A) (k : A -> result B) (b : B) :
  rbind r k = ok b -> exists a, r = ok a /\ k a = ok b.
Proof.
  destruct r as [e | a]; simpl; [discriminate |]. intros H. now exists a.
Qed.

Lemma eqb_finite (n : Num.number) (s : bool) (m : positive) (e : Z) :
  Num.eqb n (S754_finite s m e) = true -> n = S754_finite s m e.
Proof.
  unfold Num.eqb, SFeqb, SFcompare.
  destruct n as [s' | s' | | s' m' e']; try discriminate;
    try (destruct s', s; discriminate).
  intros H.
  destruct (Z.compare e' e) eqn:C.
  - apply Z.compare_eq in C. subst e'.
    destruct (Pos.compare_cont Eq m' m) eqn:Q.
    + apply Pos.compare_eq in Q. subst m'.
      destruct s', s; try reflexivity; discriminate H.
    + destruct s', s; discriminate H.
    + destruct s', s; discriminate H.
  - destruct s', s; discriminate H.
  - destruct s', s; discriminate H.
Qed.

Lemma strictly_equals_level (v : value) (k : Z) :
  2 <= k <= 5 -> (strictly_equals v k = true <-> v = VNum (Num.of_Z k)).
Proof.
  intros K.
  assert (C : k = 2 \/ k = 3 \/ k = 4 \/ k = 5) by lia.
  split.
  - destruct v; simpl; try discriminate.
    destruct C as [-> | [-> | [-> | ->]]]; intros H;
      apply eqb_finite in H; now rewrite H.
  - intros ->. destruct C as [-> | [-> | [-> | ->]]]; reflexivity.
Qed.

Lemma round_to_tenth_presentable (v : value) (n : Num.number) :
  round_to_tenth v = ok n -> presentable n = true.
Proof.
  unfold round_to_tenth. intros H.
  apply rbind_ok in H. destruct H as (x & _ & H).
  cbv zeta in H.
  destruct (truthy (VNum _)) eqn:T in H; injection H as <-; [| reflexivity].
  simpl in T. destruct (divided _ _) as [[] | | |]; try reflexivity; discriminate.
Qed.

(** X14. The level shown is 2, 3, 4 or 5 exactly when the reported
    level is that number; for every other value (1, a number outside
    1..5, a fraction, a text such as "3", nothing at all) it is 1,
    "Good". *)
Theorem classify_levels (v : value) :
  let shown := classify v in
  aqi_value shown = v /\
  1 <= levelIndex shown <= 5 /\
  (forall k, 2 <= k <= 5 -> (levelIndex shown = k <-> v = VNum (Num.of_Z k))) /\
  (levelIndex shown = 1 <-> aqi_level shown = "Good").
Proof.
  cbv zeta. unfold classify.
  pose proof (strictly_equals_level v 2 ltac:(lia)) as E2.
  pose proof (strictly_equals_level v 3 ltac:(lia)) as E3.
  pose proof (strictly_equals_level v 4 ltac:(lia)) as E4.
  pose proof (strictly_equals_level v 5 ltac:(lia)) as E5.
  assert (D : forall a b, a <> b -> 2 <= a <= 5 -> 2 <= b <= 5 ->
                          v = VNum (Num.of_Z a) -> v = VNum (Num.of_Z b) -> False).
  { intros a b N A B -> [= H]. apply N.
    assert (Ca : a = 2 \/ a = 3 \/ a = 4 \/ a = 5) by lia.
    assert (Cb : b = 2 \/ b = 3 \/ b = 4 \/ b = 5) by lia.
    destruct Ca as [-> | [-> | [-> | ->]]], Cb as [-> | [-> | [-> | ->]]];
      try reflexivity; discriminate H. }
  destruct (strictly_equals v 2) eqn:S2;
    [| destruct (strictly_equals v 3) eqn:S3;
       [| destruct (strictly_equals v 4) eqn:S4;
          [| destruct (strictly_equals v 5) eqn:S5]]];
    simpl; (split; [reflexivity |]); (split; [lia |]);
    (split; [| split; intros H; (discriminate H || reflexivity || lia)]);
    intros k K; split.
  - intros <-. now apply E2.
  - intros V. destruct (Z.eq_dec k 2) as [-> | N]; [reflexivity |].
    exfalso. apply (D k 2); try lia; [exact V | now apply E2].
  - intros <-. now apply E3.
  - intros V. destruct (Z.eq_dec k 3) as [-> | N]; [reflexivity |].
    exfalso. apply (D k 3); try lia; [exact V | now apply E3].
  - intros <-. now apply E4.
  - intros V. destruct (Z.eq_dec k 4) as [-> | N]; [reflexivity |].
    exfalso. apply (D k 4); try lia; [exact V | now apply E4].
  - intros <-. now apply E5.
  - intros V. destruct (Z.eq_dec k 5) as [-> | N]; [reflexivity |].
    exfalso. apply (D k 5); try lia; [exact V | now apply E5].
  - lia.
  - intros V.
    assert (Ck : k = 2 \/ k = 3 \/ k = 4 \/ k = 5) by lia.
    destruct Ck as [-> | [-> | [-> | ->]]].
    + apply E2 in V. congruence.
    + apply E3 in V. congruence.
    + apply E4 in V. congruence.
    + apply E5 in V. congruence.
Qed.

Section DashboardFacts.

Variable body_text : HttpResponse -> string.
Variable JSON_stringify : value -> string.
Variable clock : string.

(** The inner [try] never throws: the reading is saved, or one error
    line is written and the table is as before. *)
Lemma autoSave_outcome (reading_accepted : ReadingData -> bool)
    (readings : list ReadingData) (aqiData weatherData : value) (w : World) :
  (exists d, reading_accepted d = true /\
             autoSave JSON_stringify reading_accepted readings aqiData weatherData w
             = Returned (readings ++ [d])%list w) \/
  (exists line,
      autoSave JSON_stringify reading_accepted readings aqiData weatherData w
      = Returned readings (logged w [mkLog ERROR line])).
Proof.
  unfold autoSave, try_catch, bind, lift, console_error, say, ret, throw.
  destruct (get weatherData "name") as [e | name];
    [right; eexists; reflexivity |].
  destruct (component aqiData "pm2_5") as [e | p25];
    [right; eexists; reflexivity |].
  destruct (component aqiData "pm10") as [e | p10];
    [right; eexists; reflexivity |].
  destruct (currentAqiValue aqiData) as [e | lvl];
    [right; eexists; reflexivity |].
  cbv zeta.
  destruct (reading_accepted _) eqn:A.
  - left. eexists. split; [exact A | reflexivity].
  - right. eexists. reflexivity.
Qed.

Lemma autoSave_footprint (reading_accepted : ReadingData -> bool)
    (readings : list ReadingData) (aqiData weatherData : value) (w : World) :
  exists saved lines,
    autoSave JSON_stringify reading_accepted readings aqiData weatherData w
    = Returned saved (logged w lines) /\
    at_most_one_saved reading_accepted readings saved.
Proof.
  destruct (autoSave_outcome reading_accepted readings aqiData weatherData w)
    as [(d & A & E) | (line & E)]; rewrite E.
  - exists (readings ++ [d])%list, []. rewrite logged_nil. split; [reflexivity |].
    right. now exists d.
  - exists readings, [mkLog ERROR line]. split; [reflexivity | now left].
Qed.

(** The route as a case analysis: what was asked of the two services,
    and what came of it. *)
Lemma aqi_data_cases (env : Env) (readings : list ReadingData) (lat lon : value)
    (w : World) :
  let run reading_accepted :=
    aqi_data body_text JSON_stringify clock reading_accepted env readings lat lon w in
  (truthy lat && truthy lon = false /\
   forall ra,
     run ra
     = Returned (JsonError 400 "Missing 'lat' or 'lon' query parameters.", readings) w)
  \/
  (truthy lat && truthy lon = true /\
   ((exists line,
        forall ra,
          run ra = Returned (Plain 500 "Server error", readings)
                            (logged w [mkLog ERROR line]))
    \/
    (exists slat slon aqiResponse weatherResponse l1 l2,
        ToString lat = ok slat /\ ToString lon = ok slon /\
        fetch env (aqiUrl_at env slat slon) = Responded aqiResponse /\
        fetch env (weatherUrl_at env slat slon) = Responded weatherResponse /\
        response_ok aqiResponse && response_ok weatherResponse = false /\
        forall ra,
          run ra
          = Returned
              (JsonError 502
                 "One or more OpenWeather API calls failed. See server logs for details.",
               readings)
              (logged w [mkLog ERROR l1; mkLog ERROR l2]))
    \/
    (exists slat slon aqiResponse weatherResponse aqiData weatherData,
        ToString lat = ok slat /\ ToString lon = ok slon /\
        fetch env (aqiUrl_at env slat slon) = Responded aqiResponse /\
        fetch env (weatherUrl_at env slat slon) = Responded weatherResponse /\
        response_ok aqiResponse && response_ok weatherResponse = true /\
        json aqiResponse = ok aqiData /\
        json weatherResponse = ok weatherData /\
        forall ra,
          run ra
          = bind (autoSave JSON_stringify ra readings aqiData weatherData)
                 (fun saved =>
                    match combinedData clock aqiData weatherData with
                    | inr d => ret (Combined d, saved)
                    | inl err => error_middleware saved err
                    end) w))).
Proof.
  intros run. pose proof (fun ra => eq_refl (run ra)) as E.
  unfold run at 2 in E. clearbody run.
  unfold aqi_data in E.
  destruct (truthy lat) eqn:Tlat; [destruct (truthy lon) eqn:Tlon |];
    cbv beta iota delta [negb orb andb] in E |- *;
    [right; split; [reflexivity |] | left; split; [reflexivity | exact E]
     | left; split; [reflexivity | exact E]].
  cbv beta iota zeta delta [bind try_catch lift ret throw] in E.
  destruct (ToString lat) as [e | slat] eqn:Slat;
    [left; eexists; exact E |].
  destruct (ToString lon) as [e | slon] eqn:Slon;
    [left; eexists; exact E |].
  destruct (fetch env (aqiUrl_at env slat slon)) as [msg | aqiResponse] eqn:F1;
    [left; eexists; exact E |].
  destruct (fetch env (weatherUrl_at env slat slon)) as [msg | weatherResponse] eqn:F2;
    [left; eexists; exact E |].
  destruct (response_ok aqiResponse) eqn:O1;
    [destruct (response_ok weatherResponse) eqn:O2 |];
    cbv beta iota delta [negb orb] in E.
  - destruct (json aqiResponse) as [e | aqiData] eqn:J1;
      [left; eexists; exact E |].
    destruct (json weatherResponse) as [e | weatherData] eqn:J2;
      [left; eexists; exact E |].
    right. right.
    exists slat, slon, aqiResponse, weatherResponse, aqiData, weatherData.
    repeat split; try assumption. now rewrite O1, O2.
  - right. left.
    exists slat, slon, aqiResponse, weatherResponse.
    do 2 eexists. repeat split; try assumption; [now rewrite O1, O2 |].
    unfold console_error, say in E. cbv beta iota in E.
    intros ra. rewrite (E ra). now rewrite logged_logged.
  - right. left.
    exists slat, slon, aqiResponse, weatherResponse.
    do 2 eexists. repeat split; try assumption; [now rewrite O1 |].
    unfold console_error, say in E. cbv beta iota in E.
    intros ra. rewrite (E ra). now rewrite logged_logged.
Qed.

(** X15. Whatever the query and the two services do, the dashboard
    handler ends with a reply and no exception; only console lines are
    added to the world (no mail, no timer, no unhandled rejection); the
    readings table is as before or has one more reading the client
    took; a JSON error reply has code 400 or 502 and leaves the table as
    it was. *)
Theorem dashboard_always_answers (reading_accepted : ReadingData -> bool) (env : Env)
    (readings : list ReadingData) (lat lon : value) (w : World) :
  exists reply saved lines,
    aqi_data body_text JSON_stringify clock reading_accepted env readings lat lon w
    = Returned (reply, saved) (logged w lines) /\
    at_most_one_saved reading_accepted readings saved /\
    (forall code err, reply = JsonError code err ->
                      saved = readings /\ (code = 400%N \/ code = 502%N)).
Proof.
  destruct (aqi_data_cases env readings lat lon w)
    as [(_ & E)
       | (_ & [(line & E)
              | [(slat & slon & r1 & r2 & l1 & l2 & _ & _ & _ & _ & _ & E)
                | (slat & slon & r1 & r2 & a & wd & _ & _ & _ & _ & _ & _ & _ & E)]])];
    rewrite (E reading_accepted); clear E.
  - do 2 eexists. exists []. rewrite logged_nil.
    split; [reflexivity |]. split; [now left |].
    intros code err [= <- _]. split; [reflexivity | now left].
  - do 3 eexists. split; [reflexivity |]. split; [now left | discriminate].
  - do 3 eexists. split; [reflexivity |]. split; [now left |].
    intros code err [= <- _]. split; [reflexivity | now right].
  - unfold bind.
    destruct (autoSave_footprint reading_accepted readings a wd w)
      as (saved & lines & E & S).
    rewrite E.
    destruct (combinedData clock a wd) as [err | d].
    + unfold error_middleware, bind, console_error, say, ret.
      rewrite logged_logged.
      do 3 eexists. split; [reflexivity |]. split; [exact S | discriminate].
    + unfold ret. do 3 eexists. split; [reflexivity |].
      split; [exact S | discriminate].
Qed.

(** X16. The inner [try] is not critical: whether the database client
    takes the reading or refuses it, the reply is the same. *)
Theorem dashboard_save_is_not_critical (accepted1 accepted2 : ReadingData -> bool)
    (env : Env) (readings : list ReadingData) (lat lon : value) (w : World) :
  exists reply saved1 saved2 w1 w2,
    aqi_data body_text JSON_stringify clock accepted1 env readings lat lon w
    = Returned (reply, saved1) w1 /\
    aqi_data body_text JSON_stringify clock accepted2 env readings lat lon w
    = Returned (reply, saved2) w2.
Proof.
  destruct (aqi_data_cases env readings lat lon w)
    as [(_ & E)
       | (_ & [(line & E)
              | [(slat & slon & r1 & r2 & l1 & l2 & _ & _ & _ & _ & _ & E)
                | (slat & slon & r1 & r2 & a & wd & _ & _ & _ & _ & _ & _ & _ & E)]])];
    rewrite (E accepted1), (E accepted2); clear E;
    try (do 5 eexists; split; reflexivity).
  unfold bind.
  destruct (autoSave_footprint accepted1 readings a wd w) as (s1 & k1 & E1 & _).
  destruct (autoSave_footprint accepted2 readings a wd w) as (s2 & k2 & E2 & _).
  rewrite E1, E2.
  destruct (combinedData clock a wd) as [err | d].
  - unfold error_middleware, bind, console_error, say, ret.
    do 5 eexists; split; reflexivity.
  - unfold ret. do 5 eexists; split; reflexivity.
Qed.

(** Without [main] in the weather data no reply can be built. *)
Lemma combinedData_needs_main (aqiData weatherData : value) :
  get weatherData "main" = ok VUndefined ->
  exists err, combinedData clock aqiData weatherData = fail err.
Proof.
  intros G. unfold combinedData. rewrite G.
  repeat match goal with
         | |- exists err, rbind (ok ?x) ?k = _ =>
             change (rbind (ok x) k) with (k x); cbv beta
         | |- exists err, rbind (get VUndefined ?key) _ = _ =>
             eexists; reflexivity
         | |- exists err, rbind ?r _ = _ =>
             destruct r; simpl rbind; [eexists; reflexivity |]
         end.
  eexists. reflexivity.
Qed.

(** X17. In the data sent, the level block is the classification of
    [aqiData.list[0].main.aqi], the time is the clock's, and each of the
    five components is a number that is neither NaN nor [-0]: the
    [|| 0] after the rounding replaces both. *)
Theorem combined_components_presentable (aqiData weatherData : value)
    (d : CombinedData) :
  combinedData clock aqiData weatherData = ok d ->
  (exists reported, currentAqiValue aqiData = ok reported /\
                    aqi d = classify reported) /\
  lastUpdated d = clock /\
  presentable (pm25 (components d)) = true /\
  presentable (pm10 (components d)) = true /\
  presentable (no2 (components d)) = true /\
  presentable (o3 (components d)) = true /\
  presentable (so2 (components d)) = true.
Proof.
  unfold combinedData. intros H.
  apply rbind_ok in H. destruct H as (reported & R & H).
  apply rbind_ok in H. destruct H as (name & _ & H).
  apply rbind_ok in H. destruct H as (c25 & C25 & H).
  apply rbind_ok in H. destruct H as (c10 & C10 & H).
  apply rbind_ok in H. destruct H as (cno2 & Cno2 & H).
  apply rbind_ok in H. destruct H as (co3 & Co3 & H).
  apply rbind_ok in H. destruct H as (cso2 & Cso2 & H).
  repeat (apply rbind_ok in H; destruct H as (? & _ & H)).
  injection H as <-. simpl.
  apply rbind_ok in C25, C10, Cno2, Co3, Cso2.
  destruct C25 as (? & _ & C25), C10 as (? & _ & C10), Cno2 as (? & _ & Cno2),
           Co3 as (? & _ & Co3), Cso2 as (? & _ & Cso2).
  split; [now exists reported |]. split; [reflexivity |].
  repeat split; eapply round_to_tenth_presentable; eassumption.
Qed.

(** X18. The combined data are sent only when both coordinates were
    given, both services answered with a status in 200..299 and both
    bodies could be decoded; they are then built from the two bodies. *)
Theorem dashboard_data_needs_both_services (reading_accepted : ReadingData -> bool)
    (env : Env) (readings saved : list ReadingData) (lat lon : value)
    (w w' : World) (d : CombinedData) :
  aqi_data body_text JSON_stringify clock reading_accepted env readings lat lon w
  = Returned (Combined d, saved) w' ->
  truthy lat = true /\ truthy lon = true /\
  exists slat slon aqiResponse weatherResponse aqiData weatherData,
    ToString lat = ok slat /\ ToString lon = ok slon /\
    fetch env (aqiUrl_at env slat slon) = Responded aqiResponse /\
    fetch env (weatherUrl_at env slat slon) = Responded weatherResponse /\
    response_ok aqiResponse = true /\ response_ok weatherResponse = true /\
    json aqiResponse = ok aqiData /\ json weatherResponse = ok weatherData /\
    combinedData clock aqiData weatherData = ok d /\
    autoSave JSON_stringify reading_accepted readings aqiData weatherData w
    = Returned saved w'.
Proof.
  intros H.
  destruct (aqi_data_cases env readings lat lon w)
    as [(_ & E)
       | (T & [(line & E)
              | [(slat & slon & r1 & r2 & l1 & l2 & _ & _ & _ & _ & _ & E)
                | (slat & slon & r1 & r2 & a & wd & S1 & S2 & F1 & F2 & O & J1 & J2
                   & E)]])];
    rewrite (E reading_accepted) in H; clear E; try discriminate H.
  apply andb_prop in T, O. destruct T as (T1 & T2), O as (O1 & O2).
  split; [exact T1 |]. split; [exact T2 |].
  exists slat, slon, r1, r2, a, wd.
  unfold bind in H.
  destruct (autoSave_outcome reading_accepted readings a wd w)
    as [(r & A & S) | (line & S)]; rewrite S in H |- *;
    (destruct (combinedData clock a wd) as [err | d'];
     [unfold error_middleware, bind, console_error, say, ret in H; discriminate H |];
     unfold ret in H; injection H as <- <- <-; repeat split; assumption).
Qed.

(** X19. A reading saved by the inner [try] stays saved when building
    the reply fails afterwards: with both services answering and a
    weather body that has no [main], the reply is 500, Server error,
    and the table is as the save left it. *)
Theorem dashboard_error_after_save (reading_accepted : ReadingData -> bool)
    (env : Env) (readings saved : list ReadingData) (slat slon : string)
    (aqiResponse weatherResponse : HttpResponse) (aqiData weatherData : value)
    (w w1 : World) :
  slat <> "" -> slon <> "" ->
  fetch env (aqiUrl_at env slat slon) = Responded aqiResponse ->
  fetch env (weatherUrl_at env slat slon) = Responded weatherResponse ->
  response_ok aqiResponse = true -> response_ok weatherResponse = true ->
  json aqiResponse = ok aqiData -> json weatherResponse = ok weatherData ->
  get weatherData "main" = ok VUndefined ->
  autoSave JSON_stringify reading_accepted readings aqiData weatherData w
  = Returned saved w1 ->
  exists line,
    aqi_data body_text JSON_stringify clock reading_accepted env readings
             (VStr slat) (VStr slon) w
    = Returned (Plain 500 "Server error", saved) (logged w1 [mkLog ERROR line]).
Proof.
  intros N1 N2 F1 F2 O1 O2 J1 J2 G S.
  apply String.eqb_neq in N1, N2.
  destruct (combinedData_needs_main aqiData weatherData G) as (err & C).
  unfold aqi_data.
  change (truthy (VStr slat)) with (negb (String.eqb slat "")).
  change (truthy (VStr slon)) with (negb (String.eqb slon "")).
  rewrite N1, N2.
  cbv beta iota zeta delta [bind try_catch lift ret throw ToString ok negb orb].
  rewrite F1, F2, O1, O2. cbv beta iota delta [negb orb].
  rewrite J1, J2. unfold ok. cbv beta iota.
  rewrite S, C.
  unfold error_middleware, bind, console_error, say, ret.
  eexists. reflexivity.
Qed.

End DashboardFacts.

Lemma combined_components_presentable_pune :
  combinedData "10:30 AM UTC" pollution_payload weather_payload = ok pune_data /\
  presentable (pm25 (components pune_data)) = true /\
  presentable (so2 (components pune_data)) = true.
Proof.
  split; [vm_compute; reflexivity |].
  pose proof (combined_components_presentable "10:30 AM UTC" pollution_payload
                weather_payload pune_data ltac:(vm_compute; reflexivity))
    as (_ & _ & P25 & _ & _ & _ & Pso2).
  split; [exact P25 | exact Pso2].
Defined.

Lemma dashboard_data_needs_both_services_pune :
  aqi_data text_of stringify_stub "10:30 AM UTC" every_reading pune_env []
           (VStr "18.52") (VStr "73.85") w0
  = Returned (Combined pune_data, [pune_reading]) w0 /\
  exists slat slon aqiResponse weatherResponse aqiData weatherData,
    ToString (VStr "18.52") = ok slat /\ ToString (VStr "73.85") = ok slon /\
    fetch pune_env (aqiUrl_at pune_env slat slon) = Responded aqiResponse /\
    fetch pune_env (weatherUrl_at pune_env slat slon) = Responded weatherResponse /\
    response_ok aqiResponse = true /\ response_ok weatherResponse = true /\
    json aqiResponse = ok aqiData /\ json weatherResponse = ok weatherData /\
    combinedData "10:30 AM UTC" aqiData weatherData = ok pune_data /\
    autoSave stringify_stub every_reading [] aqiData weatherData w0
    = Returned [pune_reading] w0.
Proof.
  split; [vm_compute; reflexivity |].
  exact (proj2 (proj2
           (dashboard_data_needs_both_services text_of stringify_stub "10:30 AM UTC"
              every_reading pune_env [] [pune_reading] (VStr "18.52") (VStr "73.85")
              w0 w0 pune_data ltac:(vm_compute; reflexivity)))).
Defined.

Lemma dashboard_error_after_save_pune :
  get weather_payload_bare "main" = ok VUndefined /\
  autoSave stringify_stub every_reading [] pollution_payload weather_payload_bare w0
  = Returned [pune_reading] w0 /\
  exists line,
    aqi_data text_of stringify_stub "10:30 AM UTC" every_reading pune_env_bare []
             (VStr "18.52") (VStr "73.85") w0
    = Returned (Plain 500 "Server error", [pune_reading])
               (logged w0 [mkLog ERROR line]).
Proof.
  split; [reflexivity |]. split; [vm_compute; reflexivity |].
  refine (dashboard_error_after_save text_of stringify_stub "10:30 AM UTC"
            every_reading pune_env_bare [] [pune_reading] "18.52" "73.85"
            (mkResponse 200 (Parsed pollution_payload))
            (mkResponse 200 (Parsed weather_payload_bare))
            pollution_payload weather_payload_bare w0 w0
            _ _ eq_refl eq_refl eq_refl eq_refl eq_refl eq_refl eq_refl _);
    [discriminate | discriminate | vm_compute; reflexivity].
Defined.

(** ** The root route *)

Lemma units_compare_eq (a : list N) :
  forall b, units_compare a b = Eq -> a = b.
Proof.
  induction a as [| x a IH]; intros [| y b]; simpl; try discriminate;
    [reflexivity |].
  destruct (N.compare x y) eqn:C; try discriminate.
  apply N.compare_eq in C. subst y. intros H. now rewrite (IH b H).
Qed.

Lemma units_compare_refl (a : list N) : units_compare a a = Eq.
Proof.
  induction a as [| x a IH]; simpl; [reflexivity |].
  now rewrite N.compare_refl.
Qed.

Lemma units_compare_antisym (a : list N) :
  forall b, units_compare b a = CompOpp (units_compare a b).
Proof.
  induction a as [| x a IH]; intros [| y b]; simpl; try reflexivity.
  rewrite (N.compare_antisym x y).
  destruct (N.compare x y); simpl; try reflexivity. apply IH.
Qed.

Lemma units_compare_lt_trans (a : list N) :
  forall b c, units_compare a b = Lt -> units_compare b c = Lt ->
              units_compare a c = Lt.
Proof.
  induction a as [| x a IH]; intros [| y b] [| z c]; simpl;
    try discriminate; try reflexivity.
  destruct (N.compare x y) eqn:XY; try discriminate;
    destruct (N.compare y z) eqn:YZ; try discriminate; intros H1 H2.
  - apply N.compare_eq in XY, YZ. subst. rewrite N.compare_refl.
    now apply (IH b).
  - apply N.compare_eq in XY. subst. now rewrite YZ.
  - apply N.compare_eq in YZ. subst. now rewrite XY.
  - apply N.compare_lt_iff in XY, YZ.
    now rewrite (proj2 (N.compare_lt_iff x z) (N.lt_trans _ _ _ XY YZ)).
Qed.

Lemma name_leb_refl (a : string) : name_leb a a = true.
Proof. unfold name_leb. now rewrite units_compare_refl. Qed.

Lemma name_leb_total (a b : string) : name_leb a b = true \/ name_leb b a = true.
Proof.
  unfold name_leb. rewrite (units_compare_antisym (code_units a) (code_units b)).
  destruct (units_compare (code_units a) (code_units b)); simpl; auto.
Qed.

Lemma name_leb_trans (a b c : string) :
  name_leb a b = true -> name_leb b c = true -> name_leb a c = true.
Proof.
  unfold name_leb.
  destruct (units_compare (code_units a) (code_units b)) eqn:AB; try discriminate;
    destruct (units_compare (code_units b) (code_units c)) eqn:BC; try discriminate;
    intros _ _.
  - apply units_compare_eq in AB. rewrite AB. now rewrite BC.
  - apply units_compare_eq in AB. rewrite AB. now rewrite BC.
  - apply units_compare_eq in BC. rewrite <- BC. now rewrite AB.
  - now rewrite (units_compare_lt_trans _ _ _ AB BC).
Qed.

Lemma insert_sorted_in (x y : string) (l : list string) :
  In y (insert_sorted x l) <-> y = x \/ In y l.
Proof.
  induction l as [| z l IH]; simpl.
  - intuition.
  - destruct (name_leb x z); simpl; [intuition |].
    rewrite IH. intuition.
Qed.

Lemma sort_in (y : string) (l : list string) : In y (sort l) <-> In y l.
Proof.
  induction l as [| x l IH]; simpl; [reflexivity |].
  rewrite insert_sorted_in, IH. intuition.
Qed.

Lemma insert_sorted_ascending (x : string) (l : list string) :
  ascending l -> ascending (insert_sorted x l).
Proof.
  induction l as [| z l IH]; simpl.
  - intros _. split; [intros y [] | exact I].
  - intros (Z & A). destruct (name_leb x z) eqn:L; simpl.
    + split; [| split; assumption].
      intros y [<- | Y]; [exact L |].
      apply (name_leb_trans x z y L). now apply Z.
    + split; [| now apply IH].
      intros y Y. apply insert_sorted_in in Y. destruct Y as [-> | Y].
      * destruct (name_leb_total x z) as [H | H]; [congruence | exact H].
      * now apply Z.
Qed.

Lemma sort_ascending (l : list string) : ascending (sort l).
Proof.
  induction l as [| x l IH]; simpl; [exact I |].
  now apply insert_sorted_ascending.
Qed.

(** The first of the sorted names is one of the names and comes before
    all of them. *)
Lemma sort_first (l : list string) (first : string) (rest : list string) :
  sort l = first :: rest ->
  In first l /\ forall y, In y l -> name_leb first y = true.
Proof.
  intros E. pose proof (sort_ascending l) as A. rewrite E in A.
  destruct A as (Z & _). split.
  - apply sort_in. rewrite E. now left.
  - intros y Y. apply sort_in in Y. rewrite E in Y.
    destruct Y as [<- | Y]; [apply name_leb_refl | now apply Z].
Qed.

Lemma sort_nil (l : list string) : sort l = [] <-> l = [].
Proof.
  split; [| now intros ->].
  destruct l as [| x l]; [reflexivity |]. intros E.
  assert (H : In x (sort (x :: l))) by (apply sort_in; now left).
  rewrite E in H. destruct H.
Qed.

Lemma htmlFiles_in (entries : list Dirent) (n : string) :
  In n (htmlFiles entries) <->
  exists e, In e entries /\ html_entry e = true /\ dirent_name e = n.
Proof.
  unfold htmlFiles. rewrite sort_in, in_map_iff. split.
  - intros (e & <- & H). apply filter_In in H. destruct H as (H & F).
    now exists e.
  - intros (e & H & F & <-). exists e. split; [reflexivity |].
    apply filter_In. now split.
Qed.

(** The root route as a case analysis on what the disk says. *)
Lemma root_fallback (PUBLIC_DIR : string) (disk : Disk) (err : FsError)
    (entries : list Dirent) (w : World) :
  access disk (path_join PUBLIC_DIR "index.html") = Some err ->
  fs_code err = "ENOENT" ->
  readdir disk PUBLIC_DIR = inr entries ->
  root PUBLIC_DIR disk w
  = Returned match htmlFiles entries with
             | [] => Plain 404 "No HTML files found."
             | first :: _ => SentFile (path_join PUBLIC_DIR first)
             end w.
Proof.
  intros A C R. unfold root. cbv zeta. rewrite A, C, R. simpl.
  now destruct (htmlFiles entries).
Qed.

(** X20. Without [index.html], the file handed to [res.sendFile] is
    the regular file of the public directory whose name ends in [.html]
    and comes first in the order of [sort()], which compares the names
    by their UTF-16 code units: no other such file has a name that
    comes before its name. *)
Theorem root_fallback_is_least_html (PUBLIC_DIR : string) (disk : Disk)
    (err : FsError) (entries : list Dirent) (e : Dirent) (w : World) :
  access disk (path_join PUBLIC_DIR "index.html") = Some err ->
  fs_code err = "ENOENT" ->
  readdir disk PUBLIC_DIR = inr entries ->
  In e entries -> html_entry e = true ->
  exists first,
    root PUBLIC_DIR disk w = Returned (SentFile (path_join PUBLIC_DIR first)) w /\
    In first (map dirent_name (filter html_entry entries)) /\
    forall e', In e' entries -> html_entry e' = true ->
               units_compare (code_units first) (code_units (dirent_name e')) <> Gt.
Proof.
  intros A C R I H.
  rewrite (root_fallback PUBLIC_DIR disk err entries w A C R).
  destruct (htmlFiles entries) as [| first rest] eqn:S.
  - exfalso.
    assert (N : In (dirent_name e) (htmlFiles entries))
      by (apply htmlFiles_in; now exists e).
    rewrite S in N. destruct N.
  - exists first. split; [reflexivity |].
    apply sort_first in S. destruct S as (F & L). split; [exact F |].
    intros e' I' H' G.
    assert (B : name_leb first (dirent_name e') = true)
      by (apply L; apply in_map; apply filter_In; now split).
    unfold name_leb in B. rewrite G in B. discriminate.
Qed.

Lemma root_fallback_is_least_html_wide :
  In (mkDirent wave_html true) wide_entries /\
  String.leb wave_html face_html = true /\
  exists first,
    root "/srv/public" wide_disk w0
    = Returned (SentFile (path_join "/srv/public" first)) w0 /\
    In first (map dirent_name (filter html_entry wide_entries)) /\
    forall e', In e' wide_entries -> html_entry e' = true ->
               units_compare (code_units first) (code_units (dirent_name e')) <> Gt.
Proof.
  split; [simpl; tauto |]. split; [reflexivity |].
  apply (root_fallback_is_least_html "/srv/public" wide_disk ENOENT wide_entries
           (mkDirent wave_html true) w0 eq_refl eq_refl eq_refl);
    [simpl; tauto | reflexivity].
Defined.

(** The two orders at work: of two names that the bytes order one way
    and the code units the other, the route sends the one whose code
    units come first; and among names in ASCII an upper-case letter
    comes before the lower-case ones. *)
Example root_fallback_orders_by_code_units :
  root "/srv/public" wide_disk w0
  = Returned (SentFile (path_join "/srv/public" face_html)) w0
  /\ root "/srv/public" public_disk w0
     = Returned (SentFile "/srv/public/Notes.html") w0.
Proof. split; vm_compute; reflexivity. Qed.

(** X21. Without [index.html], the answer is 404, No HTML files found,
    exactly when the public directory holds no regular file whose name
    ends in [.html]; a directory of that name does not count. *)
Theorem root_404_iff_no_html (PUBLIC_DIR : string) (disk : Disk)
    (err : FsError) (entries : list Dirent) (w : World) :
  access disk (path_join PUBLIC_DIR "index.html") = Some err ->
  fs_code err = "ENOENT" ->
  readdir disk PUBLIC_DIR = inr entries ->
  (root PUBLIC_DIR disk w = Returned (Plain 404 "No HTML files found.") w
   <-> forall e, In e entries -> html_entry e = false).
Proof.
  intros A C R.
  rewrite (root_fallback PUBLIC_DIR disk err entries w A C R).
  destruct (htmlFiles entries) as [| first rest] eqn:S; split.
  - intros _ e I. destruct (html_entry e) eqn:H; [| reflexivity].
    assert (N : In (dirent_name e) (htmlFiles entries))
      by (apply htmlFiles_in; now exists e).
    rewrite S in N. destruct N.
  - reflexivity.
  - discriminate.
  - intros N. exfalso.
    assert (F : In first (htmlFiles entries)) by (rewrite S; now left).
    apply htmlFiles_in in F. destruct F as (e & I & H & _).
    rewrite (N e I) in H. discriminate.
Qed.

Lemma root_404_iff_no_html_only_a_directory :
  root "/srv/public"
       (mkDisk (fun _ => Some ENOENT)
               (fun _ => inr [mkDirent "archive.html" false; mkDirent "style.css" true]))
       w0
  = Returned (Plain 404 "No HTML files found.") w0.
Proof.
  apply (root_404_iff_no_html "/srv/public"
           (mkDisk (fun _ => Some ENOENT)
                   (fun _ => inr [mkDirent "archive.html" false;
                                  mkDirent "style.css" true]))
           ENOENT [mkDirent "archive.html" false; mkDirent "style.css" true] w0
           eq_refl eq_refl eq_refl).
  intros e [<- | [<- | []]]; reflexivity.
Defined.

(** X22. Whatever the disk says, the root route ends with a reply and
    no exception, and adds nothing to the world but console lines. What
    it hands to [res.sendFile] is a file of the public directory whose
    name ends in [.html]; every other reply is the plain 404 or the
    plain 500 of the error middleware. *)
Theorem root_sends_only_html (PUBLIC_DIR : string) (disk : Disk) (w : World) :
  exists reply lines,
    root PUBLIC_DIR disk w = Returned reply (logged w lines) /\
    match reply with
    | SentFile p =>
        exists n, p = path_join PUBLIC_DIR n /\ endsWith n ".html" = true
    | Plain code _ => code = 404%N \/ code = 500%N
    | _ => False
    end.
Proof.
  unfold root. cbv zeta.
  destruct (access disk (path_join PUBLIC_DIR "index.html")) as [err |].
  - destruct (String.eqb (fs_code err) "ENOENT"); simpl negb; cbv iota.
    + destruct (readdir disk PUBLIC_DIR) as [err' | entries].
      * unfold error_middleware, bind, console_error, say, ret. simpl.
        do 2 eexists. split; [reflexivity | now right].
      * destruct (htmlFiles entries) as [| first rest] eqn:S.
        -- exists (Plain 404 "No HTML files found."), [].
           rewrite logged_nil. split; [reflexivity | now left].
        -- exists (SentFile (path_join PUBLIC_DIR first)), [].
           rewrite logged_nil. split; [reflexivity |].
           exists first. split; [reflexivity |].
           assert (F : In first (htmlFiles entries)) by (rewrite S; now left).
           apply htmlFiles_in in F. destruct F as (e & _ & H & <-).
           unfold html_entry in H. now apply andb_prop in H.
    + unfold error_middleware, bind, console_error, say, ret. simpl.
      do 2 eexists. split; [reflexivity | now right].
  - exists (SentFile (path_join PUBLIC_DIR "index.html")), [].
    rewrite logged_nil. split; [reflexivity |].
    exists "index.html". split; reflexivity.
Qed.
